(** * pdfcraft: office-document to PDF converters

    A shallow embedding of the Python converters that the web workers
    under [public/workers/] hand to Pyodide:

    - [rtf-to-pdf.worker.js]   : [strip_rtf], [convert_rtf_to_pdf]
    - [excel-to-pdf.worker.js] : [convert_excel_to_pdf]
    - [pptx-to-pdf.worker.js]  : [convert_pptx_to_pdf]
    - [word-to-pdf.worker.js]  : [convert_word_to_pdf] with its closures
      [new_page], [ensure_space], [emu_to_pt], [flush_text]

    The Python text sits inside a JavaScript template literal, so every
    doubled backslash of the worker file is one backslash of the Python
    program; the definitions below follow the Python program.

    Conventions.  A Python [str] is a list of code points, [bytes] a list
    of [Byte.byte].  Python [int] is [Z].  Python [float] is modelled by
    exact rationals [Q]: rounding is not part of the model.  Exceptions
    are values of a small error monad.  The PyMuPDF document is a list
    of page sizes plus the list of draw calls, each tagged with the index
    of the page object it was issued on. *)

From Stdlib Require Import List ZArith NArith QArith Qround Lia Lqa Bool String Ascii.
From Stdlib Require Import Strings.Byte DecimalString Sorted Permutation.
Import ListNotations.
Close Scope Q_scope.

Set Implicit Arguments.

(* ================================================================== *)
(** * Python values, exceptions and built-ins used by the converters   *)
(* ================================================================== *)

Module Py.

(** A Python [str]: a sequence of Unicode code points. *)
Definition str := list N.

Definition bytes := list byte.

(** Literals are written as Rocq strings and read as code points
    (Latin-1 range only, which is all the literals in the source need). *)
Definition lit (s : string) : str :=
  map N_of_ascii (list_ascii_of_string s).

Definition str_eqb (a b : str) : bool :=
  if list_eq_dec N.eq_dec a b then true else false.

(** Truthiness of a [str]: non-empty. *)
Definition truthy (s : str) : bool :=
  match s with [] => false | _ :: _ => true end.

(** ** Exceptions *)

Inductive exn_class :=
  | ValueError | IndexError | TypeError | KeyError | AttributeError
  | ZeroDivisionError
  | UnicodeDecodeError | re_error | BadZipFile | XMLSyntaxError
  | OtherError.

(** An exception object: its class and the text of [str(e)]. *)
Record exn := mk_exn { exn_cls : exn_class; exn_msg : str }.

Inductive result (A : Type) :=
  | Ok (a : A)
  | Raise (e : exn).
Arguments Ok {A} a.
Arguments Raise {A} e.

Definition bind {A B} (c : result A) (k : A -> result B) : result B :=
  match c with Ok a => k a | Raise e => Raise e end.

Definition fmap {A B} (f : A -> B) (c : result A) : result B :=
  match c with Ok a => Ok (f a) | Raise e => Raise e end.

(** [try: c  except ...: h e] where the handler catches every exception
    (a bare [except:] or [except Exception] over the classes above). *)
Definition try_except {A} (c : result A) (h : exn -> result A) : result A :=
  match c with Ok a => Ok a | Raise e => h e end.

Definition is_ok {A} (c : result A) : bool :=
  match c with Ok _ => true | Raise _ => false end.

Declare Scope py_scope.
Delimit Scope py_scope with py.
Notation "x <- c ;; k" := (bind c (fun x => k))
  (at level 61, c at next level, right associativity) : py_scope.

(** ** Character classes *)

Local Open Scope N_scope.

Definition in_range (lo hi c : N) : bool := (lo <=? c) && (c <=? hi).

(** [str.isspace]: the characters removed by [str.strip()] and separating
    the fields of [str.split()]. *)
Definition isspace (c : N) : bool :=
  in_range 9 13 c || in_range 28 32 c || (c =? 133) || (c =? 160)
  || (c =? 5760) || in_range 8192 8202 c || (c =? 8232) || (c =? 8233)
  || (c =? 8239) || (c =? 8287) || (c =? 12288).

(** The whitespace [int()] strips: [str.isspace] without the four
    information separators U+001C..U+001F. *)
Definition int_space (c : N) : bool :=
  isspace c && negb (in_range 28 31 c).

(** First code point of every block of ten Unicode decimal digits
    (general category Nd, Unicode 15.1). *)
Definition decimal_zeros : list N :=
  [ 0x30; 0x660; 0x6f0; 0x7c0; 0x966; 0x9e6; 0xa66; 0xae6; 0xb66; 0xbe6;
    0xc66; 0xce6; 0xd66; 0xde6; 0xe50; 0xed0; 0xf20; 0x1040; 0x1090;
    0x17e0; 0x1810; 0x1946; 0x19d0; 0x1a80; 0x1a90; 0x1b50; 0x1bb0;
    0x1c40; 0x1c50; 0xa620; 0xa8d0; 0xa900; 0xa9d0; 0xa9f0; 0xaa50;
    0xabf0; 0xff10; 0x104a0; 0x10d30; 0x11066; 0x110f0; 0x11136;
    0x111d0; 0x112f0; 0x11450; 0x114d0; 0x11650; 0x116c0; 0x11730;
    0x118e0; 0x11950; 0x11c50; 0x11d50; 0x11da0; 0x11f50; 0x16a60;
    0x16ac0; 0x16b50; 0x1d7ce; 0x1d7d8; 0x1d7e2; 0x1d7ec; 0x1d7f6;
    0x1e140; 0x1e2f0; 0x1e4f0; 0x1e950; 0x1fbf0 ].

(** Value of a decimal digit, as [int()] and the regex class [\d] see it. *)
Definition digit_value (c : N) : option N :=
  match find (fun z => in_range z (z + 9) c) decimal_zeros with
  | Some z => Some (c - z)
  | None => None
  end.

Definition is_decimal (c : N) : bool :=
  match digit_value c with Some _ => true | None => false end.

(** The regex class [[a-z]]. *)
Definition is_lower_az (c : N) : bool := in_range 97 122 c.

(** The regex class [[0-9a-fA-F]] with the digit's value. *)
Definition hex_value (c : N) : option N :=
  if in_range 48 57 c then Some (c - 48)
  else if in_range 97 102 c then Some (c - 87)
  else if in_range 65 70 c then Some (c - 55)
  else None.

(** ** String methods *)

Fixpoint drop_while (p : N -> bool) (s : str) : str :=
  match s with
  | [] => []
  | c :: t => if p c then drop_while p t else s
  end.

Fixpoint take_while (p : N -> bool) (s : str) : str :=
  match s with
  | [] => []
  | c :: t => if p c then c :: take_while p t else []
  end.

Definition strip_with (p : N -> bool) (s : str) : str :=
  rev (drop_while p (rev (drop_while p s))).

(** [s.strip()] *)
Definition strip (s : str) : str := strip_with isspace s.

(** [s.split(sep)] for a one-character separator: always at least one
    field. *)
Fixpoint split_on (sep : N) (s : str) : list str :=
  match s with
  | [] => [[]]
  | c :: t =>
      if c =? sep then [] :: split_on sep t
      else match split_on sep t with
           | f :: fs => (c :: f) :: fs
           | [] => [[c]]
           end
  end.

(** [s.split()]: maximal runs of non-whitespace characters. *)
Fixpoint split_ws_aux (cur : str) (s : str) : list str :=
  match s with
  | [] => match cur with [] => [] | _ => [rev cur] end
  | c :: t =>
      if isspace c
      then match cur with
           | [] => split_ws_aux [] t
           | _ => rev cur :: split_ws_aux [] t
           end
      else split_ws_aux (c :: cur) t
  end.

Definition split_ws (s : str) : list str := split_ws_aux [] s.

(** ** [int(s)] for a [str] argument, base 10 *)

Definition err (c : exn_class) (m : string) : exn := mk_exn c (lit m).

(** Digits with single underscores between them.  [expect] is true at
    the start and right after an underscore, where a digit must follow.
    Returns the value and the number of digit characters read. *)
Fixpoint int_digits (expect : bool) (acc : Z) (n : N) (s : str)
  : option (Z * N) :=
  match s with
  | [] => if expect then None else Some (acc, n)
  | c :: t =>
      match digit_value c with
      | Some d => int_digits false (10 * acc + Z.of_N d)%Z (n + 1) t
      | None =>
          if (c =? 95) && negb expect then int_digits true acc n t
          else None
      end
  end.

(** CPython refuses decimal literals of more than 4300 digit characters. *)
Definition int_max_str_digits : N := 4300.

Definition int_of_str (s : str) : result Z :=
  let body := strip_with int_space s in
  let '(neg, ds) :=
    match body with
    | c :: t => if c =? 43 then (false, t)
                else if c =? 45 then (true, t)
                else (false, body)
    | [] => (false, [])
    end in
  match int_digits true 0%Z 0 ds with
  | Some (v, n) =>
      if int_max_str_digits <? n
      then Raise (err ValueError "Exceeds the limit (4300 digits) for integer string conversion")
      else Ok (if neg then (- v)%Z else v)
  | None => Raise (err ValueError "invalid literal for int() with base 10")
  end.

(** ** [l[i]] with Python's negative indices *)

Definition list_index {A} (l : list A) (i : Z) : result A :=
  let n := Z.of_nat (List.length l) in
  let j := if (i <? 0)%Z then (i + n)%Z else i in
  if ((0 <=? j) && (j <? n))%Z then
    match nth_error l (Z.to_nat j) with
    | Some a => Ok a
    | None => Raise (err IndexError "list index out of range")
    end
  else Raise (err IndexError "list index out of range").

(** [any(l)] over a list of strings. *)
Definition any_str (l : list str) : bool := existsb truthy l.

(** ** Regex substitution driver

    [re.sub] scans left to right; at each position the pattern either
    matches a non-empty prefix, which is replaced, or the character is
    copied.  Every pattern of the converters matches at least one
    character.  [m rest] returns the replacement and the number of
    characters matched at the head of [rest]. *)
Fixpoint re_sub_from (m : str -> option (str * nat)) (skip : nat) (s : str)
  : str :=
  match s with
  | [] => []
  | c :: t =>
      match skip with
      | S k => re_sub_from m k t
      | O =>
          match m s with
          | Some (repl, n) => repl ++ re_sub_from m (Nat.pred n) t
          | None => c :: re_sub_from m 0 t
          end
      end
  end.

Definition re_sub (m : str -> option (str * nat)) (s : str) : str :=
  re_sub_from m 0 s.

(** A string replacement that contains a backslash is compiled as a
    template before the text is scanned.  The template reader takes a
    backslash together with the character after it, and rejects a
    template whose last backslash has no character after it. *)
Fixpoint template_check (repl : str) : result unit :=
  match repl with
  | [] => Ok tt
  | c :: t =>
      if c =? 92 then
        match t with
        | [] => Raise (err re_error "bad escape (end of pattern) at position 0")
        | _ :: t' => template_check t'
        end
      else template_check t
  end.

End Py.

(* ================================================================== *)
(** * The PyMuPDF document the converters draw on                      *)
(* ================================================================== *)

Module Pdf.
Import Py.

(** [fontname]/[fontfile] pair: the built-in Helvetica or the staged
    [custom_font.otf]. *)
Inductive FontRef := Helv | Custom.

(** The three colours the converters pass: the default black, the red
    [(1,0,0)] of error markers, the grey [(0.5,0.5,0.5)] of slide numbers. *)
Inductive Color := Black | Red | Grey.

(** One call on a page object: [insert_text], [insert_textbox],
    [insert_image].  [num] is the type of coordinates. *)
Inductive DrawCommand (num : Type) :=
  | Text (x y : num) (s : str) (fontsize : Z) (font : FontRef) (color : Color)
  | TextBox (x0 y0 x1 y1 : num) (s : str) (fontsize : Z) (font : FontRef)
  | Image (x0 y0 x1 y1 : num) (stream : bytes).

(** A page object is the index of the page in the document. *)
Definition PageHandle := nat.

Record Document (num : Type) := mk_doc {
  page_sizes : list (Z * Z);                     (* one entry per page *)
  drawn : list (PageHandle * DrawCommand num)    (* in the order issued *)
}.

Definition open (num : Type) : Document num := mk_doc [] [].

(** [len(pdf)] *)
Definition page_count {num} (d : Document num) : nat :=
  List.length (page_sizes d).

(** [pdf.new_page(width=w, height=h)]: appends a page, returns it. *)
Definition new_page {num} (w h : Z) (d : Document num)
  : Document num * PageHandle :=
  (mk_doc (page_sizes d ++ [(w, h)]) (drawn d), page_count d).

(** [pdf.new_page()] with PyMuPDF's default A4 portrait size. *)
Definition new_page_default {num} (d : Document num) :=
  new_page 595 842 d.

Definition draw {num} (p : PageHandle) (c : DrawCommand num)
  (d : Document num) : Document num :=
  mk_doc (page_sizes d) (drawn d ++ [(p, c)]).

Definition commands_on {num} (p : PageHandle) (d : Document num)
  : list (DrawCommand num) :=
  map snd (filter (fun pc => Nat.eqb (fst pc) p) (drawn d)).

(** Decimal text of an integer, as an f-string prints it. *)
Definition str_of_Z (z : Z) : str :=
  lit (DecimalString.NilZero.string_of_int (Z.to_int z)).

End Pdf.

(* ================================================================== *)
(** * rtf-to-pdf.worker.js                                             *)
(* ================================================================== *)

Module Rtf.
Import Py Pdf.
Local Open Scope N_scope.
Local Open Scope py_scope.

(** Pattern of line 45: a backslash, one or more of [a-z], any number of
    decimal digits, an optional space.  Returns the length matched. *)
Definition control_word_at (s : str) : option (str * nat) :=
  match s with
  | c :: t =>
      if c =? 92 then
        match take_while is_lower_az t with
        | [] => None
        | letters =>
            let t1 := drop_while is_lower_az t in
            let digits := take_while is_decimal t1 in
            let sp := match drop_while is_decimal t1 with
                      | c2 :: _ => if c2 =? 32 then 1%nat else 0%nat
                      | [] => 0%nat
                      end in
            Some ([], (1 + List.length letters + List.length digits + sp)%nat)
        end
      else None
  | [] => None
  end.

(** Pattern of line 46: one brace. *)
Definition brace_at (s : str) : option (str * nat) :=
  match s with
  | c :: _ => if (c =? 123) || (c =? 125) then Some ([], 1%nat) else None
  | [] => None
  end.

(** Pattern of line 47: two backslashes; the replacement asked for is
    one backslash. *)
Definition double_backslash_at (s : str) : option (str * nat) :=
  match s with
  | a :: b :: _ => if (a =? 92) && (b =? 92) then Some ([92], 2%nat) else None
  | _ => None
  end.

(** Pattern of line 48: backslash, apostrophe, two hexadecimal digits;
    replaced by the character with that code. *)
Definition hex_escape_at (s : str) : option (str * nat) :=
  match s with
  | a :: b :: h1 :: h2 :: _ =>
      if (a =? 92) && (b =? 39) then
        match hex_value h1, hex_value h2 with
        | Some v1, Some v2 => Some ([16 * v1 + v2], 4%nat)
        | _, _ => None
        end
      else None
  | _ => None
  end.

(** Pattern of line 50: a run of newlines, replaced by one newline. *)
Definition newlines_at (s : str) : option (str * nat) :=
  match take_while (N.eqb 10) s with
  | [] => None
  | run => Some ([10], List.length run)
  end.

Definition strip_control_words (text : str) : str := re_sub control_word_at text.
Definition strip_braces (text : str) : str := re_sub brace_at text.

(** Line 47.  The replacement argument is the one-character string made
    of a backslash, so it goes through the template reader first. *)
Definition collapse_backslashes (text : str) : result str :=
  _ <- template_check [92] ;;
  Ok (re_sub double_backslash_at text).

Definition decode_hex_escapes (text : str) : str := re_sub hex_escape_at text.
Definition collapse_newlines (text : str) : str := re_sub newlines_at text.

(** [strip_rtf], lines 42-52. *)
Definition strip_rtf (text : str) : result str :=
  let text := strip_control_words text in
  let text := strip_braces text in
  text <- collapse_backslashes text ;;
  let text := decode_hex_escapes text in
  let text := collapse_newlines text in
  let text := strip text in
  Ok text.

(** ** Decoding the input bytes, lines 61-65 *)

Definition UDE : exn := err UnicodeDecodeError "'utf-8' codec can't decode byte".

Definition cont (b : N) : bool := in_range 128 191 b.

(** Strict UTF-8 over byte values: shortest form only, no surrogates,
    nothing above U+10FFFF. *)
Fixpoint utf8_decode_N (bs : list N) : result str :=
  match bs with
  | [] => Ok []
  | b0 :: t =>
      if b0 <? 128 then fmap (cons b0) (utf8_decode_N t)
      else if in_range 194 223 b0 then
        match t with
        | b1 :: t1 =>
            if cont b1
            then fmap (cons ((b0 - 192) * 64 + (b1 - 128))) (utf8_decode_N t1)
            else Raise UDE
        | _ => Raise UDE
        end
      else if in_range 224 239 b0 then
        match t with
        | b1 :: b2 :: t2 =>
            let lo := if b0 =? 224 then 160 else 128 in
            let hi := if b0 =? 237 then 159 else 191 in
            if in_range lo hi b1 && cont b2
            then fmap (cons ((b0 - 224) * 4096 + (b1 - 128) * 64 + (b2 - 128)))
                      (utf8_decode_N t2)
            else Raise UDE
        | _ => Raise UDE
        end
      else if in_range 240 244 b0 then
        match t with
        | b1 :: b2 :: b3 :: t3 =>
            let lo := if b0 =? 240 then 144 else 128 in
            let hi := if b0 =? 244 then 143 else 191 in
            if in_range lo hi b1 && cont b2 && cont b3
            then fmap (cons ((b0 - 240) * 262144 + (b1 - 128) * 4096
                             + (b2 - 128) * 64 + (b3 - 128)))
                      (utf8_decode_N t3)
            else Raise UDE
        | _ => Raise UDE
        end
      else Raise UDE
  end.

(** [input_bytes.decode('utf-8')] *)
Definition utf8_decode (input_bytes : bytes) : result str :=
  utf8_decode_N (map Byte.to_N input_bytes).

(** [input_bytes.decode('latin-1')]: byte [b] is the character U+00[b]. *)
Definition latin1_char (b : byte) : result N :=
  let c := Byte.to_N b in
  if c <? 256 then Ok c
  else Raise (err UnicodeDecodeError "'latin-1' codec can't decode byte").

Fixpoint latin1_decode (input_bytes : bytes) : result str :=
  match input_bytes with
  | [] => Ok []
  | b :: t => c <- latin1_char b ;; s <- latin1_decode t ;; Ok (c :: s)
  end.

(** Lines 62-65: [try: utf-8  except: latin-1]. *)
Definition decode (input_bytes : bytes) : result str :=
  try_except (utf8_decode input_bytes) (fun _ => latin1_decode input_bytes).

(** ** Page layout, lines 70-119 *)

Definition page_width : Z := 595.
Definition page_height : Z := 842.
Definition margin : Z := 72.
Definition fontsize : Z := 11.
Definition lineheight : Q := (inject_Z fontsize * (15 # 10))%Q.

(** [int(x)] of a float: truncation towards zero. *)
Definition int_of_float (x : Q) : Z :=
  if Qle_bool 0 x then Qfloor x else Qceiling x.

Definition max_lines_per_page : Z :=
  int_of_float (inject_Z (page_height - 2 * margin) / lineheight)%Q.

Record cursor := mk_cursor {
  doc : Document Q;
  page : option PageHandle;
  current_line : Z;
  y_position : Q
}.

(** Body of the loop of lines 93-109 for one line. *)
Definition layout_line (st : cursor) (line : str) : cursor :=
  let '(d, p, cl, y) :=
    match page st with
    | Some p =>
        if (max_lines_per_page <=? current_line st)%Z
        then let '(d, p') := new_page page_width page_height (doc st) in
             (d, p', 0%Z, inject_Z margin)
        else (doc st, p, current_line st, y_position st)
    | None =>
        let '(d, p') := new_page page_width page_height (doc st) in
        (d, p', 0%Z, inject_Z margin)
    end in
  let d :=
    if truthy (strip line)
    then draw p (Text (inject_Z margin) (y + inject_Z fontsize)%Q line
                      fontsize Helv Black) d
    else d in
  mk_cursor d (Some p) (cl + 1)%Z (y + lineheight)%Q.

Definition layout (plain_text : str) : Document Q :=
  let lines := split_on 10 plain_text in
  let st := fold_left layout_line lines (mk_cursor (open Q) None 0%Z 0%Q) in
  let d := doc st in
  if Nat.eqb (page_count d) 0
  then fst (new_page page_width page_height d)
  else d.

(** [convert_rtf_to_pdf], lines 54-119; the result stands for the bytes
    that [doc.tobytes()] serialises. *)
Definition convert_rtf_to_pdf (input_bytes : bytes) : result (Document Q) :=
  rtf_text <- decode input_bytes ;;
  plain_text <- strip_rtf rtf_text ;;
  Ok (layout plain_text).

End Rtf.

(* ================================================================== *)
(** * Zip containers and XML parts (zipfile, lxml)                     *)
(* ================================================================== *)

Module Ooxml.
Import Py.
Local Open Scope py_scope.

(** An lxml element: tag in Clark notation, attributes, [.text], children. *)
#[warnings="-register-all"]
Inductive element :=
  | Elem (tag : str) (attrs : list (str * str)) (text : option str)
         (children : list element).

Definition tag (e : element) : str := let 'Elem t _ _ _ := e in t.
Definition text (e : element) : option str := let 'Elem _ _ x _ := e in x.
Definition children (e : element) : list element := let 'Elem _ _ _ c := e in c.

(** [e.get(name)] *)
Definition get (name : str) (e : element) : option str :=
  let 'Elem _ a _ _ := e in
  option_map snd (find (fun kv => str_eqb (fst kv) name) a).

(** [e.find(tag)]: the first child with that tag. *)
Definition find_child (t : str) (e : element) : option element :=
  find (fun c => str_eqb (tag c) t) (children e).

(** [e.iter(tag)]: [e] and its descendants with that tag, document order. *)
Fixpoint iter (t : str) (e : element) : list element :=
  let 'Elem t' _ _ ch := e in
  (if str_eqb t' t then [e] else []) ++ flat_map (iter t) ch.

(** [if e.text:] *)
Definition text_nonempty (e : element) : option str :=
  match text e with
  | Some s => if truthy s then Some s else None
  | None => None
  end.

(** A member of an archive: the outcome of [zip.read(name)] and the
    outcome of [etree.fromstring] on what was read. *)
Record member := mk_member {
  blob : result bytes;
  parsed : result element
}.

(** An opened archive: its members in directory order. *)
Definition Archive := list (str * member).

Definition namelist (a : Archive) : list str := map fst a.

(** [name in zip.namelist()] *)
Definition has_member (name : str) (a : Archive) : bool :=
  existsb (str_eqb name) (namelist a).

(** Of two members with the same name the directory keeps the later. *)
Definition member_named (name : str) (a : Archive) : result member :=
  match find (fun m => str_eqb (fst m) name) (rev a) with
  | Some m => Ok (snd m)
  | None => Raise (err KeyError "There is no item named that in the archive")
  end.

(** [zip.read(name)] *)
Definition read (name : str) (a : Archive) : result bytes :=
  m <- member_named name a ;; blob m.

(** [etree.fromstring(zip.read(name))] *)
Definition read_xml (name : str) (a : Archive) : result element :=
  m <- member_named name a ;; parsed m.

(** [e.find('.//' + tag)]: the first descendant with that tag. *)
Definition find_descendant (t : str) (e : element) : option element :=
  hd_error (flat_map (iter t) (children e)).

Fixpoint startswith (p s : str) : bool :=
  match p, s with
  | [], _ => true
  | a :: p', b :: s' => N.eqb a b && startswith p' s'
  | _ :: _, [] => false
  end.

Definition endswith (p s : str) : bool := startswith (rev p) (rev s).

(** [re.search(stem + r'(\d+)\.xml$', name)] for a name that ends in
    [.xml]: the digits are the longest run of decimal digits before the
    extension and the stem must stand right before them. *)
Definition numbered_part (stem name : str) : option str :=
  let body := skipn 4 (rev name) in
  match take_while is_decimal body with
  | [] => None
  | ds => if startswith (rev stem) (drop_while is_decimal body)
          then Some (rev ds) else None
  end.

(** The discovery loop shared by worksheets and slides: members under
    [prefix] ending in [.xml] whose name carries a number. *)
Fixpoint numbered_members (prefix stem : str) (names : list str)
  : result (list (Z * str)) :=
  match names with
  | [] => Ok []
  | name :: rest =>
      if startswith prefix name && endswith (lit ".xml") name then
        match numbered_part stem name with
        | Some ds =>
            n <- int_of_str ds ;;
            files <- numbered_members prefix stem rest ;;
            Ok ((n, name) :: files)
        | None => numbered_members prefix stem rest
        end
      else numbered_members prefix stem rest
  end.

(** [files.sort(key=lambda x: x[0])]: a stable sort on the number. *)
Fixpoint insert_by_num (x : Z * str) (l : list (Z * str)) : list (Z * str) :=
  match l with
  | [] => [x]
  | y :: t => if (fst x <=? fst y)%Z then x :: l else y :: insert_by_num x t
  end.

Definition sort_by_num (l : list (Z * str)) : list (Z * str) :=
  fold_right insert_by_num [] l.

(** [for i, x in enumerate(l)] *)
Fixpoint enumerate_from {A} (i : Z) (l : list A) : list (Z * A) :=
  match l with
  | [] => []
  | x :: t => (i, x) :: enumerate_from (i + 1) t
  end.

(** Monadic map over a list, left to right. *)
Fixpoint mapM {A B} (f : A -> result B) (l : list A) : result (list B) :=
  match l with
  | [] => Ok []
  | x :: t => y <- f x ;; ys <- mapM f t ;; Ok (y :: ys)
  end.

End Ooxml.

(* ================================================================== *)
(** * excel-to-pdf.worker.js                                           *)
(* ================================================================== *)

Module Excel.
Import Py Pdf Ooxml.
Local Open Scope Z_scope.
Local Open Scope py_scope.

Definition ns_main : str :=
  lit "{http://schemas.openxmlformats.org/spreadsheetml/2006/main}".
Definition si_tag := ns_main ++ lit "si".
Definition t_tag := ns_main ++ lit "t".
Definition row_tag := ns_main ++ lit "row".
Definition c_tag := ns_main ++ lit "c".
Definition v_tag := ns_main ++ lit "v".
Definition is_tag := ns_main ++ lit "is".

(** Page dimensions (A4 landscape) and fonts, lines 71-85. *)
Definition page_width : Z := 842.
Definition page_height : Z := 595.
Definition margin : Z := 40.
Definition fontsize : Z := 9.
Definition cell_padding : Z := 4.
Definition row_height : Z := fontsize + cell_padding * 2.
Definition max_y : Z := page_height - margin.

(** The non-empty [.text] of the [t] elements below [e], concatenated. *)
Definition joined_text (e : element) : str :=
  List.concat (flat_map (fun t => match text_nonempty t with
                             | Some s => [s]
                             | None => []
                             end) (iter t_tag e)).

(** Lines 88-99: the shared-string table; a part that cannot be read or
    parsed leaves the table empty. *)
Definition read_shared_strings (a : Archive) : list str :=
  if has_member (lit "xl/sharedStrings.xml") a then
    match read_xml (lit "xl/sharedStrings.xml") a with
    | Ok root => map joined_text (iter si_tag root)
    | Raise _ => []
    end
  else [].

(** Lines 102-108. *)
Definition get_sheet_files (a : Archive) : result (list (Z * str)) :=
  files <- numbered_members (lit "xl/worksheets/sheet") (lit "sheet") (namelist a) ;;
  Ok (sort_by_num files).

(** The [try] block of lines 141-144: the value of a shared-string cell
    whose [v] text is [v_text], starting from [val = ""]. *)
Definition shared_string_value (shared_strings : list str) (v_text : str)
  : result str :=
  idx <- int_of_str v_text ;;
  if idx <? Z.of_nat (List.length shared_strings)
  then list_index shared_strings idx
  else Ok [].

(** Lines 136-156: the value of one cell element. *)
Definition cell_value (shared_strings : list str) (c : element) : result str :=
  let t_attr := get (lit "t") c in
  match match find_child v_tag c with
        | Some v_node => text_nonempty v_node
        | None => None
        end with
  | Some v_text =>
      match t_attr with
      | Some t =>
          if str_eqb t (lit "s")
          then try_except (shared_string_value shared_strings v_text)
                          (fun _ => Ok v_text)
          else Ok v_text
      | None => Ok v_text
      end
  | None =>
      match find_child is_tag c with
      | Some is_node => Ok (joined_text is_node)
      | None => Ok []
      end
  end.

(** Lines 132-158: the rows of a sheet, rows without any value dropped. *)
Definition sheet_rows (shared_strings : list str) (root : element)
  : result (list (list str)) :=
  all <- mapM (fun row => mapM (cell_value shared_strings) (iter c_tag row))
              (iter row_tag root) ;;
  Ok (filter any_str all).

(** Width estimate of lines 169-171. *)
Definition text_units (cell : str) : Z :=
  fold_left (fun w char => w + (if (255 <? char)%N then 10 else 5)) cell 0.

(** [col_widths[i] = max(col_widths[i], w)] *)
Fixpoint raise_to (i : nat) (w : Z) (col_widths : list Z) : list Z :=
  match col_widths, i with
  | [], _ => []
  | x :: t, O => Z.max x w :: t
  | x :: t, S k => x :: raise_to k w t
  end.

(** [max(len(r) for r in rows)] for a non-empty list. *)
Definition max_len (rows : list (list str)) : nat :=
  fold_left (fun m r => Nat.max m (List.length r)) rows 0%nat.

(** Lines 161-175. *)
Definition column_widths (rows : list (list str)) : list Z :=
  let col_count := max_len rows in
  let sampled :=
    fold_left
      (fun widths r =>
         fold_left
           (fun ws ic =>
              let '(i, cell) := ic in
              if i <? Z.of_nat col_count
              then raise_to (Z.to_nat i) (text_units cell) ws
              else ws)
           (enumerate_from 0 r) widths)
      (firstn 50 rows) (repeat 0 col_count) in
  map (fun w => Z.max (Z.min w 200) 40) sampled.

(** The layout state of the render loop: the document, the page object
    held in [page], and [y_position]. *)
Record cursor := mk_cursor {
  doc : Document Z;
  page : PageHandle;
  y_position : Z
}.

(** Lines 183-200: the cells of one row, left to right; the walk ends
    with the row or at the first index past [col_widths]. *)
Fixpoint render_cells (font : FontRef) (page : PageHandle) (y x : Z)
  (row_data : list str) (col_widths : list Z) (d : Document Z)
  : Document Z :=
  match row_data, col_widths with
  | cell_text :: cells, w :: ws =>
      let d :=
        if truthy cell_text
        then draw page (TextBox (x + 2) (y + 2) (x + w - 2)
                                (y + row_height - 1) cell_text fontsize font) d
        else d in
      render_cells font page y (x + w) cells ws d
  | _, _ => d
  end.

(** Lines 179-201: one row. *)
Definition render_row (font : FontRef) (col_widths : list Z)
  (st : cursor) (row_data : list str) : cursor :=
  let st :=
    if max_y <? y_position st + row_height
    then let '(d, p) := new_page page_width page_height (doc st) in
         mk_cursor d p margin
    else st in
  let d := render_cells font (page st) (y_position st) margin
                        row_data col_widths (doc st) in
  mk_cursor d (page st) (y_position st + row_height).

(** Lines 160-201. *)
Definition render_rows (font : FontRef) (rows : list (list str))
  (st : cursor) : cursor :=
  match rows with
  | [] => st
  | _ => fold_left (render_row font (column_widths rows)) rows st
  end.

(** The [try] block of lines 114-201 for one sheet whose first page is
    already in [page]: the cursor it leaves and the exception, if any,
    it stopped with.  Drawing calls are taken not to raise, so an
    exception comes from reading or parsing the sheet part, after the
    header is drawn and [y_position] is set. *)
Definition sheet_body (a : Archive) (font : FontRef)
  (shared_strings : list str) (sheet_idx : Z) (sheet_path : str)
  (d : Document Z) (page : PageHandle) : cursor * option exn :=
  let sheet_title := lit "Sheet " ++ str_of_Z (sheet_idx + 1) in
  let d := draw page (Text margin margin sheet_title 12 font Black) d in
  let st := mk_cursor d page (margin + 20) in
  match root <- read_xml sheet_path a ;; sheet_rows shared_strings root with
  | Ok rows => (render_rows font rows st, None)
  | Raise e => (st, Some e)
  end.

(** Lines 110-204: one iteration of the sheet loop, with the handler of
    lines 203-204. *)
Definition convert_sheet (a : Archive) (font : FontRef)
  (shared_strings : list str) (d : Document Z) (sheet : Z * (Z * str))
  : Document Z :=
  let '(sheet_idx, (_, sheet_path)) := sheet in
  let '(d, page) := new_page page_width page_height d in
  match sheet_body a font shared_strings sheet_idx sheet_path d page with
  | (st, None) => doc st
  | (st, Some e) =>
      draw (Excel.page st)
           (Text margin (y_position st) (lit "Error: " ++ exn_msg e)
                 11 Helv Red)
           (doc st)
  end.

(** Lines 69-210 on an opened archive. *)
Definition convert_archive (custom_font : bool) (a : Archive)
  : result (Document Z) :=
  let font := if custom_font then Custom else Helv in
  let shared_strings := read_shared_strings a in
  sheet_files <- get_sheet_files a ;;
  let pdf := fold_left (convert_sheet a font shared_strings)
                       (enumerate_from 0 sheet_files) (open Z) in
  Ok (if Nat.eqb (page_count pdf) 0 then fst (new_page_default pdf) else pdf).

Section Environment.
(** [zipfile.ZipFile(io.BytesIO(b), 'r')] with the parts parsed, and
    whether [custom_font.otf] has been staged. *)
Variable ZipFile : bytes -> result Archive.
Variable custom_font : bool.

(** [convert_excel_to_pdf], lines 58-210; the result stands for the
    bytes that [pdf.tobytes()] serialises. *)
Definition convert_excel_to_pdf (input_bytes : bytes)
  : result (Document Z) :=
  xlsx_zip <- try_except (ZipFile input_bytes)
                (fun e => match exn_cls e with
                          | BadZipFile => Raise (err ValueError "Invalid XLSX file")
                          | _ => Raise e
                          end) ;;
  convert_archive custom_font xlsx_zip.
End Environment.

End Excel.

(* ================================================================== *)
(** * pptx-to-pdf.worker.js                                            *)
(* ================================================================== *)

Module Pptx.
Import Py Pdf Ooxml.
Local Open Scope py_scope.

Definition page_width : Z := 842.
Definition page_height : Z := 595.
Definition margin : Z := 40.

(** [get_slide_files], lines 93-101. *)
Definition get_slide_files (a : Archive) : result (list (Z * str)) :=
  files <- numbered_members (lit "ppt/slides/slide") (lit "slide") (namelist a) ;;
  Ok (sort_by_num files).

Definition ns_a : str :=
  lit "{http://schemas.openxmlformats.org/drawingml/2006/main}".
Definition ns_p : str :=
  lit "{http://schemas.openxmlformats.org/presentationml/2006/main}".
Definition embed_attr : str :=
  lit "{http://schemas.openxmlformats.org/officeDocument/2006/relationships}embed".
Definition relationship_tag : str :=
  lit "{http://schemas.openxmlformats.org/package/2006/relationships}Relationship".

Definition is_slash (c : N) : bool := N.eqb c 47.

(** [os.path.basename(p)]: what follows the last slash. *)
Definition basename (p : str) : str :=
  rev (take_while (fun c => negb (is_slash c)) (rev p)).

(** [os.path.dirname(p)]: what precedes the last slash, without trailing
    slashes unless it consists of slashes only. *)
Definition dirname (p : str) : str :=
  let head_rev := drop_while (fun c => negb (is_slash c)) (rev p) in
  if forallb is_slash head_rev then rev head_rev
  else rev (drop_while is_slash head_rev).

(** The loop of lines 114-123 over the [Relationship] elements: a
    relationship without a [Target] raises at [startswith], which ends
    the loop with the entries made so far. *)
Fixpoint collect_rels (rels : list (option str * str)) (els : list element)
  : list (option str * str) :=
  match els with
  | [] => rels
  | rel :: rest =>
      match get (lit "Target") rel with
      | None => rels
      | Some target =>
          let target :=
            if startswith (lit "../") target
            then lit "ppt/" ++ skipn 3 target
            else target in
          collect_rels (rels ++ [(get (lit "Id") rel, target)]) rest
      end
  end.

(** [get_relationships], lines 103-126. *)
Definition get_relationships (a : Archive) (slide_filename : str)
  : list (option str * str) :=
  let rels_path :=
    dirname slide_filename ++ lit "/_rels/" ++ basename slide_filename
    ++ lit ".rels" in
  if has_member rels_path a then
    match read_xml rels_path a with
    | Ok root => collect_rels [] (iter relationship_tag root)
    | Raise _ => []
    end
  else [].

(** [relationships[key]] for a key that is a string: the entry stored
    last under it. *)
Definition rel_target (key : str) (rels : list (option str * str))
  : option str :=
  option_map snd
    (find (fun kv => match fst kv with
                     | Some k => str_eqb k key
                     | None => false
                     end) (rev rels)).

(** [emu_to_pt], lines 133-135. *)
Definition emu_to_pt (emu : option str) : result Q :=
  match emu with
  | None => Ok 0%Q
  | Some s => z <- int_of_str s ;; Ok (inject_Z z / 12700)%Q
  end.

(** [node.get(name)] on what [find] returned: [None] has no [get]. *)
Definition get_of (name : str) (node : option element) : result (option str) :=
  match node with
  | Some e => Ok (get name e)
  | None => Raise (err AttributeError "'NoneType' object has no attribute 'get'")
  end.

(** Lines 176-204 of a picture: its bytes and rectangle. *)
Definition picture_box (a : Archive) (img_path : str) (child : element)
  : result (DrawCommand Q) :=
  img_data <- read img_path a ;;
  match find_descendant (ns_a ++ lit "xfrm") child with
  | None => Raise (err AttributeError "'NoneType' object has no attribute 'find'")
  | Some xfrm =>
      let off := find_child (ns_a ++ lit "off") xfrm in
      let ext := find_child (ns_a ++ lit "ext") xfrm in
      ox <- get_of (lit "x") off ;; x <- emu_to_pt ox ;;
      oy <- get_of (lit "y") off ;; y <- emu_to_pt oy ;;
      ecx <- get_of (lit "cx") ext ;; w <- emu_to_pt ecx ;;
      ecy <- get_of (lit "cy") ext ;; h <- emu_to_pt ecy ;;
      Ok (Image x y (x + w)%Q (y + h)%Q img_data)
  end.

(** [rect.width > 0 and rect.height > 0] *)
Definition has_area (c : DrawCommand Q) : bool :=
  match c with
  | Image x0 y0 x1 y1 _ =>
      negb (Qle_bool (x1 - x0) 0) && negb (Qle_bool (y1 - y0) 0)
  | _ => false
  end.

(** Lines 168-210: a picture shape, with its own [try]; whatever goes
    wrong, nothing is drawn and the walk goes on. *)
Definition draw_picture (a : Archive) (rels : list (option str * str))
  (page : PageHandle) (child : element) (d : Document Q) : Document Q :=
  match find_descendant (ns_a ++ lit "blip") child with
  | None => d
  | Some blip =>
      match get embed_attr blip with
      | None => d
      | Some embed_id =>
          if truthy embed_id then
            match rel_target embed_id rels with
            | None => d
            | Some img_path =>
                if has_member img_path a then
                  match picture_box a img_path child with
                  | Ok c => if has_area c then draw page c d else d
                  | Raise _ => d
                  end
                else d
            end
          else d
      end
  end.

(** Lines 217-224: the non-empty paragraphs of a text body. *)
Definition text_content (txBody : element) : list str :=
  filter truthy
    (map (fun p =>
            List.concat
              (flat_map (fun t => match text_nonempty t with
                                  | Some s => [s]
                                  | None => []
                                  end) (iter (ns_a ++ lit "t") p)))
         (iter (ns_a ++ lit "p") txBody)).

(** Lines 228-242: the position of a text shape, when it carries one. *)
Definition shape_offset (child : element) : result (option (Q * Q)) :=
  match find_child (ns_p ++ lit "spPr") child with
  | None => Ok None
  | Some spPr =>
      match find_child (ns_a ++ lit "xfrm") spPr with
      | None => Ok None
      | Some xfrm =>
          match find_child (ns_a ++ lit "off") xfrm with
          | None => Ok None
          | Some off =>
              x <- emu_to_pt (get (lit "x") off) ;;
              y <- emu_to_pt (get (lit "y") off) ;;
              Ok (Some (x, y))
          end
      end
  end.

(** Lines 248-257: the lines of a positioned shape, from [y] down. *)
Fixpoint draw_positioned (font : FontRef) (page : PageHandle) (x y : Q)
  (lines : list str) (d : Document Q) : Document Q :=
  match lines with
  | [] => d
  | line :: rest =>
      let fontsize := if negb (Qle_bool 100 y) then 24%Z else 14%Z in
      let d := draw page (TextBox x y (x + 500)%Q (y + 500)%Q line fontsize font) d in
      draw_positioned font page x (y + inject_Z fontsize * 1.5)%Q rest d
  end.

(** Lines 258-261: the lines of a shape without position, down the flow. *)
Fixpoint draw_flowed (font : FontRef) (page : PageHandle) (flow_y : Q)
  (lines : list str) (d : Document Q) : Document Q * Q :=
  match lines with
  | [] => (d, flow_y)
  | line :: rest =>
      let d := draw page (Text (inject_Z margin) flow_y line 12 font Black) d in
      draw_flowed font page (flow_y + 18)%Q rest d
  end.

(** Lines 213-261: a text shape; reading its position may raise. *)
Definition draw_text_shape (font : FontRef) (page : PageHandle)
  (child : element) (st : Document Q * Q) : result (Document Q * Q) :=
  let '(d, flow_y) := st in
  match find_child (ns_p ++ lit "txBody") child with
  | None => Ok st
  | Some txBody =>
      match text_content txBody with
      | [] => Ok st
      | lines =>
          pos <- shape_offset child ;;
          match pos with
          | Some (x, y) => Ok (draw_positioned font page x y lines d, flow_y)
          | None => Ok (draw_flowed font page flow_y lines d)
          end
      end
  end.

(** Lines 164-261: the children of the shape tree, in order, up to the
    first exception that leaves a shape. *)
Fixpoint walk_shapes (a : Archive) (rels : list (option str * str))
  (font : FontRef) (page : PageHandle) (shapes : list element)
  (st : Document Q * Q) : Document Q * option exn :=
  match shapes with
  | [] => (fst st, None)
  | child :: rest =>
      if endswith (lit "pic") (tag child) then
        walk_shapes a rels font page rest
                    (draw_picture a rels page child (fst st), snd st)
      else if endswith (lit "sp") (tag child) then
        match draw_text_shape font page child st with
        | Ok st' => walk_shapes a rels font page rest st'
        | Raise e => (fst st, Some e)
        end
      else walk_shapes a rels font page rest st
  end.

(** The [try] block of lines 154-262: the document it leaves and the
    exception it stopped with, if any.  Drawing calls are taken not to
    raise. *)
Definition slide_body (a : Archive) (rels : list (option str * str))
  (font : FontRef) (slide_path : str) (page : PageHandle) (d : Document Q)
  : Document Q * option exn :=
  match read_xml slide_path a with
  | Raise e => (d, Some e)
  | Ok root =>
      match find_descendant (ns_p ++ lit "spTree") root with
      | None => (d, None)
      | Some spTree =>
          walk_shapes a rels font page (children spTree) (d, inject_Z margin)
      end
  end.

(** Lines 139-264: one iteration of the slide loop, with the handler of
    lines 263-264. *)
Definition convert_slide (a : Archive) (font : FontRef)
  (d : Document Q) (slide : Z * (Z * str)) : Document Q :=
  let '(slide_idx, (_, slide_path)) := slide in
  let '(d, page) := new_page page_width page_height d in
  let d := draw page
             (Text (inject_Z (page_width - margin - 30))
                   (inject_Z (page_height - 20))
                   (str_of_Z (slide_idx + 1)) 10 font Grey) d in
  let relationships := get_relationships a slide_path in
  match slide_body a relationships font slide_path page d with
  | (d, None) => d
  | (d, Some e) =>
      draw page (Text (inject_Z margin) (inject_Z margin)
                      (lit "Error: " ++ exn_msg e) 11 Helv Red) d
  end.

Section Environment.
Variable ZipFile : bytes -> result Archive.
Variable custom_font : bool.

(** [convert_pptx_to_pdf], lines 61-270. *)
Definition convert_pptx_to_pdf (input_bytes : bytes)
  : result (Document Q) :=
  pptx_zip <- try_except (ZipFile input_bytes)
                (fun e => match exn_cls e with
                          | BadZipFile => Raise (err ValueError "Invalid PPTX file")
                          | _ => Raise e
                          end) ;;
  let font := if custom_font then Custom else Helv in
  slide_files <- get_slide_files pptx_zip ;;
  let pdf := fold_left (convert_slide pptx_zip font)
                       (enumerate_from 0 slide_files) (open Q) in
  Ok (if Nat.eqb (page_count pdf) 0 then fst (new_page_default pdf) else pdf).
End Environment.

End Pptx.

(* ================================================================== *)
(** * word-to-pdf.worker.js                                            *)
(* ================================================================== *)

Module Word.
Import Py Pdf.
Local Open Scope Q_scope.

(** ** What python-docx hands to the converter *)

(** A [w:drawing]: the [r:embed] attribute of its first [a:blip] (absent
    when there is no blip or no attribute) and the [cx]/[cy] attributes
    of its [wp:extent] element, when it has one. *)
Record drawing := mk_drawing {
  embed_id : option str;
  extent : option (option str * option str)
}.

Record run := mk_run { drawings : list drawing; run_text : str }.

(** [para.style.name], when the paragraph has a style. *)
Record paragraph := mk_paragraph {
  style_name : option str;
  runs : list run
}.

(** [len(table.columns)] and, for each row, [cell.text] of its cells. *)
Record table := mk_table { columns : nat; rows : list (list str) }.

(** The children of [doc.element.body], by the ending of their tag. *)
Inductive body_element :=
  | P (p : paragraph)
  | Tbl (t : table)
  | OtherElement.

(** The part a relationship leads to: its [blob], and whether PyMuPDF
    reads these bytes as an image. *)
Record image_part := mk_image_part {
  part_blob : bytes;
  is_image : bool
}.

(** The opened document: its body and, for a relationship id,
    [doc.part.rels[id].target_part]. *)
Record docx := mk_docx {
  body : list body_element;
  target_part : str -> result image_part
}.

(** ** Layout configuration, lines 70-75 *)

Definition page_width : Q := 595.
Definition page_height : Q := 842.
Definition margin : Q := 72.
Definition text_width : Q := page_width - 2 * margin.
Definition max_image_height : Q := page_height - 2 * margin.

(** [a > b] on floats. *)
Definition gt (a b : Q) : bool := negb (Qle_bool a b).

(** ** Layout state, lines 77-79, and the closures over it *)

Record layout := mk_layout {
  pdf : Document Q;
  current_page : option PageHandle;
  y_position : Q
}.

(** A statement that reads and writes the layout state and may raise;
    the state reached when the exception is raised is kept. *)
Definition M (A : Type) := layout -> result A * layout.

Definition ret {A} (a : A) : M A := fun st => (Ok a, st).

Definition mbind {A B} (m : M A) (k : A -> M B) : M B :=
  fun st => match m st with
            | (Ok a, st') => k a st'
            | (Raise e, st') => (Raise e, st')
            end.

Definition lift {A} (r : result A) : M A := fun st => (r, st).

Declare Scope word_scope.
Delimit Scope word_scope with word.
Notation "x <- c ;; k" := (mbind c (fun x => k))
  (at level 61, c at next level, right associativity) : word_scope.
Notation "c ;; k" := (mbind c (fun _ => k))
  (at level 61, right associativity) : word_scope.
Local Open Scope word_scope.

(** [try: m  except Exception: pass] *)
Definition try_pass (m : M unit) : M unit :=
  fun st => match m st with
            | (Raise _, st') => (Ok tt, st')
            | r => r
            end.

Definition get_y : M Q := fun st => (Ok (y_position st), st).

(** [y_position += dy] *)
Definition advance (dy : Q) : M unit :=
  fun st => (Ok tt, mk_layout (pdf st) (current_page st) (y_position st + dy)).

(** A drawing call on [current_page]. *)
Definition on_page (c : DrawCommand Q) : M unit :=
  fun st =>
    match current_page st with
    | Some p => (Ok tt, mk_layout (draw p c (pdf st)) (Some p) (y_position st))
    | None => (Raise (err AttributeError "'NoneType' object has no attribute"), st)
    end.

(** [new_page], lines 101-105. *)
Definition new_page : M PageHandle :=
  fun st =>
    let '(d, p) := Pdf.new_page 595 842 (pdf st) in
    (Ok p, mk_layout d (Some p) margin).

(** [ensure_space], lines 107-121. *)
Definition ensure_space (needed_height : Q) : M unit :=
  (held <- (fun st => (Ok (current_page st), st)) ;;
   match held with
   | None => _ <- new_page ;; ret tt
   | Some _ => ret tt
   end) ;;
  y <- get_y ;;
  if gt needed_height (page_height - 2 * margin) then
    if gt y margin then _ <- new_page ;; ret tt else ret tt
  else if gt (y + needed_height) (page_height - margin) then
    _ <- new_page ;; ret tt
  else ret tt.

(** [emu_to_pt], lines 123-124. *)
Definition emu_to_pt (emu : Z) : Q := inject_Z emu / 12700.

(** ** Paragraphs, lines 131-236 *)

Definition heading_fontsizes : list (str * Z) :=
  [ (lit "Heading 1", 14%Z); (lit "Heading 2", 13%Z); (lit "Heading 3", 12%Z);
    (lit "Title", 18%Z); (lit "Subtitle", 14%Z); (lit "Normal", 11%Z) ].

(** [heading_fontsizes.get(style_name, 11)] *)
Definition fontsize_of_style (name : str) : Z :=
  match find (fun kv => str_eqb (fst kv) name) heading_fontsizes with
  | Some kv => snd kv
  | None => 11%Z
  end.

(** Lines 152-154: the width estimate of a line. *)
Definition est_w (fontsize : Z) (line : str) : Q :=
  fold_left
    (fun w char => w + (if (255 <? char)%N then inject_Z fontsize
                        else inject_Z fontsize * 0.5))
    line 0.

Section Paragraph.
Variable font : FontRef.
(** [lineheight] of the enclosing paragraph, line 137. *)
Variable lineheight : Q.

(** Lines 157-165 and 171-179: one line of text goes out. *)
Definition put_line (fontsize : Z) (line_buf : str) : M unit :=
  ensure_space lineheight ;;
  y <- get_y ;;
  on_page (Text margin (y + inject_Z fontsize) line_buf fontsize font Black) ;;
  advance lineheight.

(** The loop of lines 149-168 followed by lines 170-179. *)
Fixpoint flush_words (fontsize : Z) (words : list str) (line_buf : str)
  : M unit :=
  match words with
  | [] => if truthy line_buf then put_line fontsize line_buf else ret tt
  | word :: rest =>
      let test_line :=
        line_buf ++ (if truthy line_buf then [32%N] else []) ++ word in
      if gt (est_w fontsize test_line) text_width && truthy line_buf
      then put_line fontsize line_buf ;; flush_words fontsize rest word
      else flush_words fontsize rest test_line
  end.

(** [flush_text], lines 142-179. *)
Definition flush_text (text : str) (fontsize : Z) : M unit :=
  if truthy text then flush_words fontsize (split_ws text) [] else ret tt.
End Paragraph.

(** Lines 208-218: the two scale-downs of an image. *)
Definition scale_image (width height : Q) : Q * Q :=
  let '(width, height) :=
    if gt width text_width
    then let scale := text_width / width in (width * scale, height * scale)
    else (width, height) in
  if gt height max_image_height
  then let scale := max_image_height / height in (width * scale, height * scale)
  else (width, height).

(** [int(extent.get(name))] *)
Definition int_of_attr (a : option str) : result Z :=
  match a with
  | Some s => int_of_str s
  | None => Raise (err TypeError "int() argument must be a string, not 'NoneType'")
  end.

(** Lines 198-203: the extent of a drawing, in EMU. *)
Definition extent_size (d : drawing) : result (Z * Z) :=
  match extent d with
  | None => Ok (1270000%Z, 1270000%Z)
  | Some (a, b) =>
      bind (int_of_attr a) (fun cx =>
      bind (int_of_attr b) (fun cy => Ok (cx, cy)))
  end.

(** [current_page.insert_image(rect, stream=image_bytes)], line 225.
    PyMuPDF refuses an empty stream, a rectangle that is empty
    ([x0 >= x1] or [y0 >= y1]) and bytes it cannot read as an image;
    nothing is drawn then. *)
Definition insert_image (x0 y0 x1 y1 : Q) (part : image_part) : M unit :=
  fun st =>
    match current_page st with
    | None =>
        (Raise (err AttributeError "'NoneType' object has no attribute"), st)
    | Some p =>
        match part_blob part with
        | [] =>
            (Raise (err ValueError
               "xref=0 needs exactly one of filename, pixmap, stream"), st)
        | _ :: _ =>
            if Qle_bool x1 x0 || Qle_bool y1 y0
            then (Raise (err ValueError "rect must be finite and not empty"),
                  st)
            else if is_image part
            then (Ok tt,
                  mk_layout
                    (draw p (Image x0 y0 x1 y1 (part_blob part)) (pdf st))
                    (Some p) (y_position st))
            else (Raise (err OtherError "cannot recognize image format"), st)
        end
    end.

(** Lines 194-227: one embedded image, inside its [try]. *)
Definition place_image (target_part : str -> result image_part)
  (embed : str) (d : drawing) : M unit :=
  try_pass
    (part <- lift (target_part embed) ;;
     cxy <- lift (extent_size d) ;;
     let '(width, height) :=
       scale_image (emu_to_pt (fst cxy)) (emu_to_pt (snd cxy)) in
     ensure_space (height + 10) ;;
     y <- get_y ;;
     let x_offset := margin + (text_width - width) / 2 in
     insert_image x_offset y (x_offset + width) (y + height) part ;;
     advance (height + 5)).

(** [for x in l: f x] *)
Fixpoint for_each {A} (f : A -> M unit) (l : list A) : M unit :=
  match l with
  | [] => ret tt
  | x :: t => f x ;; for_each f t
  end.

(** Lines 189-227: the drawings of one run. *)
Definition place_drawings (target_part : str -> result image_part)
  (ds : list drawing) : M unit :=
  for_each (fun d => match embed_id d with
                     | Some embed =>
                         if truthy embed then place_image target_part embed d
                         else ret tt
                     | None => ret tt
                     end) ds.

(** Lines 181-231: the runs of a paragraph; [current_line_text] is the
    text gathered so far. *)
Fixpoint walk_runs (font : FontRef)
  (target_part : str -> result image_part) (base_fontsize : Z) (lineheight : Q) (rs : list run)
  (current_line_text : str) : M str :=
  match rs with
  | [] => ret current_line_text
  | r :: rest =>
      current_line_text <-
        (match drawings r with
         | [] => ret current_line_text
         | ds =>
             current_line_text <-
               (if truthy current_line_text
                then flush_text font lineheight current_line_text base_fontsize ;;
                     ret []
                else ret current_line_text) ;;
             place_drawings target_part ds ;;
             ret current_line_text
         end) ;;
      walk_runs font target_part base_fontsize lineheight rest
                (if truthy (run_text r) then current_line_text ++ run_text r
                 else current_line_text)
  end.

(** Lines 132-236. *)
Definition layout_paragraph (font : FontRef)
  (target_part : str -> result image_part) (para : paragraph) : M unit :=
  let style := match style_name para with
               | Some n => n
               | None => lit "Normal"
               end in
  let base_fontsize := fontsize_of_style style in
  let lineheight := inject_Z base_fontsize * 1.4 in
  current_line_text <-
    walk_runs font target_part base_fontsize lineheight (runs para) [] ;;
  (if truthy current_line_text
   then flush_text font lineheight current_line_text base_fontsize
   else ret tt) ;;
  advance (inject_Z base_fontsize * 0.5).

(** ** Tables, lines 238-300 *)

Definition row_height : Q := 11 * 2.

(** [a / b] *)
Definition py_div (a b : Q) : result Q :=
  if Qeq_bool b 0 then Raise (err ZeroDivisionError "division by zero")
  else Ok (a / b).

(** [current_page.insert_textbox(rect, cell_text, fontsize=10, ...,
    width=col_width - 4, align=0)], lines 273-281.  [insert_textbox] of
    the PyMuPDF the worker installs (1.26.3) has no keyword [width] and
    takes no other keywords than its own, so binding the arguments of
    this call fails and the box [c] is never drawn. *)
Definition insert_textbox_width (c : DrawCommand Q) (width : Q) : M unit :=
  fun st =>
    match current_page st with
    | None =>
        (Raise (err AttributeError "'NoneType' object has no attribute"), st)
    | Some _ =>
        (Raise (err TypeError
           "insert_textbox() got an unexpected keyword argument 'width'"), st)
    end.

(** Lines 262-293: the cells of one row from offset [x]. *)
Fixpoint layout_cells (font : FontRef) (col_width initial_y x : Q)
  (cells : list str) : M unit :=
  match cells with
  | [] => ret tt
  | cell :: rest =>
      let cell_text := strip cell in
      if truthy cell_text then
        insert_textbox_width
          (TextBox (x + 2) (initial_y + 2) (x + col_width - 2)
                   (initial_y + 1000) cell_text 10 font)
          (col_width - 4) ;;
        _ <- lift (py_div (inject_Z (Z.of_nat (List.length cell_text)) * 5)
                          col_width) ;;
        layout_cells font col_width initial_y (x + col_width) rest
      else layout_cells font col_width initial_y (x + col_width) rest
  end.

(** Lines 250-295: one row. *)
Definition layout_row (font : FontRef) (col_width : Q) (cells : list str)
  : M unit :=
  ensure_space row_height ;;
  initial_y <- get_y ;;
  layout_cells font col_width initial_y margin cells ;;
  advance row_height.

(** Lines 240-300. *)
Definition layout_table (font : FontRef) (t : table) : M unit :=
  let cols := columns t in
  let col_width :=
    if (0 <? cols)%nat then text_width / inject_Z (Z.of_nat cols) else 0 in
  for_each (layout_row font col_width) (rows t) ;;
  advance 10.

(** Lines 130-300: one body element. *)
Definition layout_element (font : FontRef)
  (target_part : str -> result image_part) (e : body_element) : M unit :=
  match e with
  | P para => layout_paragraph font target_part para
  | Tbl t => layout_table font t
  | OtherElement => ret tt
  end.

Section Environment.
(** [Document(io.BytesIO(b))]: python-docx opens the stream with
    [zipfile.ZipFile] and then loads the package. *)
Variable ZipFile : bytes -> result Ooxml.Archive.
Variable load_package : Ooxml.Archive -> result docx.
Variable custom_font : bool.

Definition Document (input_bytes : bytes) : result docx :=
  bind (ZipFile input_bytes) load_package.

(** [convert_word_to_pdf], lines 61-304. *)
Definition convert_word_to_pdf (input_bytes : bytes)
  : result (Pdf.Document Q) :=
  bind (Document input_bytes) (fun doc =>
    let font := if custom_font then Custom else Helv in
    let start := mk_layout (open Q) None margin in
    match (new_page ;;
           for_each (layout_element font (target_part doc)) (body doc)) start
    with
    | (Ok _, st) => Ok (pdf st)
    | (Raise e, _) => Raise e
    end).
End Environment.

End Word.

(* ================================================================== *)
(** * epub-to-pdf worker                                               *)
(* ================================================================== *)

Module Epub.
Import Py Pdf.
Local Open Scope Q_scope.

(** One entry of [quality_config], lines 64-68. *)
Record config := mk_config {
  scale : Q;
  max_dim : Q;
  use_jpeg : bool;
  jpeg_quality : Z
}.

Definition quality_config : list (str * config) :=
  [ (lit "low", mk_config 1.0 1500 true 80);
    (lit "medium", mk_config 1.5 2000 true 90);
    (lit "high", mk_config 2.0 2500 false 95) ].

(** [quality_config.get(quality, quality_config['medium'])], line 69. *)
Definition config_of (quality : str) : config :=
  match find (fun kv => str_eqb (fst kv) quality) quality_config with
  | Some kv => snd kv
  | None => mk_config 1.5 2000 true 90
  end.

(** The image formats a pixmap is written in, lines 103-106. *)
Inductive image_format := Jpeg (jpg_quality : Z) | Png.

(** What [get_pixmap] returns: the pixel size and the encoder. *)
Record pixmap := mk_pixmap {
  pix_w : Z;
  pix_h : Z;
  tobytes : image_format -> bytes
}.

(** A page of the opened book: its rectangle and its renderer, which
    takes the scale of [Matrix(base_scale, base_scale)]. *)
Record epub_page := mk_epub_page {
  rect_width : Q;
  rect_height : Q;
  get_pixmap : Q -> pixmap
}.

Definition margin : Z := 30.

(** [min(a, b)] and [min(a, b, c)] on floats: the first smallest. *)
Definition min2 (a b : Q) : Q := if Qle_bool a b then a else b.
Definition min3 (a b c : Q) : Q := min2 (min2 a b) c.

(** Line 96: the render scale, for a page of positive size. *)
Definition base_scale (c : config) (rect_w rect_h : Q) : Q :=
  min3 (max_dim c / rect_w) (max_dim c / rect_h) (scale c).

(** Lines 118-119: [target / pix if pix > target else 1.0]. *)
Definition scale_to_fit_1 (target pix : Z) : result Q :=
  if (target <? pix)%Z
  then if (pix =? 0)%Z
       then Raise (err ZeroDivisionError "division by zero")
       else Ok (inject_Z target / inject_Z pix)
  else Ok 1.

(** Lines 117-129: the rectangle the rendered page is drawn in. *)
Definition insert_rect (page_width page_height pix_width pix_height : Z)
  : result (Q * Q * Q * Q) :=
  let target_width := (page_width - 2 * margin)%Z in
  let target_height := (page_height - 2 * margin)%Z in
  bind (scale_to_fit_1 target_width pix_width) (fun scale_to_fit_w =>
  bind (scale_to_fit_1 target_height pix_height) (fun scale_to_fit_h =>
    let scale_to_fit := min2 scale_to_fit_w scale_to_fit_h in
    let display_width := inject_Z pix_width * scale_to_fit in
    let display_height := inject_Z pix_height * scale_to_fit in
    let x_offset := (inject_Z page_width - display_width) / 2 in
    let y_offset := (inject_Z page_height - display_height) / 2 in
    Ok (x_offset, y_offset,
        x_offset + display_width, y_offset + display_height))).

(** [pdf_page.insert_image(insert_rect, stream=img_bytes)], line 132:
    PyMuPDF refuses an empty stream and an empty rectangle. *)
Definition insert_image (pdf_page : PageHandle) (r : Q * Q * Q * Q)
  (img_bytes : bytes) (pdf_doc : Document Q) : result (Document Q) :=
  let '(x0, y0, x1, y1) := r in
  match img_bytes with
  | [] => Raise (err ValueError
                   "xref=0 needs exactly one of filename, pixmap, stream")
  | _ :: _ =>
      if Qle_bool x1 x0 || Qle_bool y1 y0
      then Raise (err ValueError "rect must be finite and not empty")
      else Ok (draw pdf_page (Image x0 y0 x1 y1 img_bytes) pdf_doc)
  end.

(** Lines 88-140: one page of the book.  A page without area is passed
    over; any other gets a page of its own with its rendering on it. *)
Definition convert_page (c : config) (page_width page_height : Z)
  (pdf_doc : Document Q) (epub_page : epub_page) : result (Document Q) :=
  if Qle_bool (rect_width epub_page) 0 || Qle_bool (rect_height epub_page) 0
  then Ok pdf_doc
  else
    let pix := get_pixmap epub_page
                 (base_scale c (rect_width epub_page) (rect_height epub_page)) in
    let img_bytes :=
      if use_jpeg c then tobytes pix (Jpeg (jpeg_quality c))
      else tobytes pix Png in
    let '(pdf_doc, pdf_page) := new_page page_width page_height pdf_doc in
    bind (insert_rect page_width page_height (pix_w pix) (pix_h pix))
      (fun r => insert_image pdf_page r img_bytes pdf_doc).

(** The page loop: the first exception ends it. *)
Fixpoint convert_pages (c : config) (page_width page_height : Z)
  (pages : list epub_page) (pdf_doc : Document Q) : result (Document Q) :=
  match pages with
  | [] => Ok pdf_doc
  | p :: rest =>
      bind (convert_page c page_width page_height pdf_doc p)
           (convert_pages c page_width page_height rest)
  end.

(** [pdf_doc.tobytes(...)], line 146: PyMuPDF does not write a document
    without pages. *)
Definition doc_tobytes (pdf_doc : Document Q) : result (Document Q) :=
  if Nat.eqb (page_count pdf_doc) 0
  then Raise (err ValueError "cannot save with zero pages")
  else Ok pdf_doc.

Section Environment.
(** [pymupdf.open(stream=b, filetype="epub")]: the pages of the book. *)
Variable open_epub : bytes -> result (list epub_page).

(** [convert_epub_to_pdf], lines 52-150; the result stands for the
    bytes that [pdf_doc.tobytes] serialises. *)
Definition convert_epub_to_pdf (input_bytes : bytes) (quality : str)
  (page_width page_height : Z) : result (Document Q) :=
  bind (open_epub input_bytes) (fun epub_doc =>
  bind (convert_pages (config_of quality) page_width page_height epub_doc
                      (open Q))
       doc_tobytes).
End Environment.

End Epub.

(* ================================================================== *)
(** * Sample inputs                                                    *)
(* ================================================================== *)

Module Samples.
Import Py Pdf Ooxml.

(** The rich-text scenario: [{\rtf1 Hello\par World}]. *)
Definition rtf_hello : str := lit "{\rtf1 Hello\par World}".

Definition hello_newline_world : str := lit "Hello" ++ [10%N] ++ lit "World".

(** A cell [<c t="s"><v>text</v></c>]. *)
Definition shared_cell (v_text : str) : element :=
  Elem Excel.c_tag [(lit "t", lit "s")] None
       [Elem Excel.v_tag [] (Some v_text) []].

(** A one-entry shared-string table. *)
Definition one_string : list str := [lit "a"].

(** A workbook with one sheet part that does not parse. *)
Definition broken_sheet : Archive :=
  [(lit "xl/worksheets/sheet1.xml",
    mk_member (Ok [])
      (Raise (err XMLSyntaxError "Document is empty, line 1, column 1")))].

(** A reader that accepts only buffers starting with the local-header
    magic [PK] and finds no members in them. *)
Definition pk_only (b : bytes) : result Archive :=
  match b with
  | x50 :: x4b :: _ => Ok []
  | _ => Raise (err BadZipFile "File is not a zip file")
  end.

(** A word document whose only body element is a table with an empty
    grid and one row holding one cell with the text [x]. *)
Definition gridless_table : Word.docx :=
  Word.mk_docx [Word.Tbl (Word.mk_table 0 [[lit "x"]])]
               (fun _ => Raise (err KeyError "rId")).

(** A word document whose only body element is a table of two columns
    with one row, the cells [a] and [b]. *)
Definition two_cell_table : Word.docx :=
  Word.mk_docx [Word.Tbl (Word.mk_table 2 [[lit "a"; lit "b"]])]
               (fun _ => Raise (err KeyError "rId")).

(** A drawing of 600pt by 1200pt ([cx=7620000], [cy=15240000] EMU):
    wider than the text column and, once fitted to it, still taller
    than the usable page height. *)
Definition large_drawing : Word.drawing :=
  Word.mk_drawing (Some (lit "rId1"))
                  (Some (Some (lit "7620000"), Some (lit "15240000"))).

(** A PNG file of one grey pixel. *)
Definition one_pixel_png : bytes :=
  [ x89; x50; x4e; x47; x0d; x0a; x1a; x0a;
    x00; x00; x00; x0d; x49; x48; x44; x52; x00; x00; x00; x01;
    x00; x00; x00; x01; x08; x00; x00; x00; x00; x3a; x7e; x9b; x55;
    x00; x00; x00; x0a; x49; x44; x41; x54; x78; xda; x63; x60; x00;
    x00; x00; x02; x00; x01; xe5; x27; xde; xfc;
    x00; x00; x00; x00; x49; x45; x4e; x44; xae; x42; x60; x82 ].

(** Relationships that all lead to that picture, and relationships that
    all lead to a part which is no picture. *)
Definition one_image (embed : str) : result Word.image_part :=
  Ok (Word.mk_image_part one_pixel_png true).

Definition no_image (embed : str) : result Word.image_part :=
  Ok (Word.mk_image_part [x89; x50] false).

Definition first_page_top : Word.layout :=
  Word.mk_layout (mk_doc [(595, 842)%Z] []) (Some 0%nat) Word.margin.

End Samples.

(* ================================================================== *)
(** * Vocabulary of the design document                                *)
(* ================================================================== *)

(** What the statements below are phrased in: the geometry of a table
    row, the state a new page leaves, and the text-wrapping rule as the
    design words it. *)

Module Design.
Import Py Pdf.

(** ** Spreadsheet rows *)

Section Sheet.
Import Excel.
Local Open Scope Z_scope.

(** Sum of the first [i] column widths. *)
Definition width_before (col_widths : list Z) (i : nat) : Z :=
  fold_right Z.add 0 (firstn i col_widths).

(** The boxes a row adds: all on [p], one per non-empty cell that has a
    column, at the offset of its column from [x]. *)
Definition row_boxes_at (font : FontRef) (p : PageHandle) (y x : Z)
  (row_data : list str) (col_widths : list Z)
  (cmds : list (PageHandle * DrawCommand Z)) : Prop :=
  Forall (fun pc =>
    fst pc = p /\
    exists i cell w,
      nth_error row_data i = Some cell /\
      nth_error col_widths i = Some w /\
      truthy cell = true /\
      snd pc = TextBox (x + width_before col_widths i + 2) (y + 2)
                       (x + width_before col_widths i + w - 2)
                       (y + row_height - 1) cell fontsize font) cmds.

(** The height at which a row is drawn: the cursor, or the top margin
    of a fresh page when the row does not fit above the bottom margin. *)
Definition row_top (st : cursor) : Z :=
  if max_y <? y_position st + row_height then margin else y_position st.

(** The page on which a row is drawn: the page held, or the fresh page. *)
Definition row_page (st : cursor) : PageHandle :=
  if max_y <? y_position st + row_height then page_count (doc st)
  else page st.

(** The boxes of a row cell by cell: for every index that has a cell
    and a column, in order, one box on [p] when the cell is not empty;
    the box of cell [i] starts at the sum of the widths before it. *)
Definition row_boxes (font : FontRef) (p : PageHandle) (y x : Z)
  (row_data : list str) (col_widths : list Z)
  : list (PageHandle * DrawCommand Z) :=
  flat_map
    (fun i =>
       match nth_error row_data i, nth_error col_widths i with
       | Some cell, Some w =>
           if truthy cell
           then [(p, TextBox (x + width_before col_widths i + 2) (y + 2)
                             (x + width_before col_widths i + w - 2)
                             (y + row_height - 1) cell fontsize font)]
           else []
       | _, _ => []
       end)
    (seq 0 (List.length row_data)).

(** The widest estimate among the cells of column [j] in [rows]; 0 when
    no row reaches that column. *)
Definition widest (rows : list (list str)) (j : nat) : Z :=
  fold_left
    (fun m r =>
       match nth_error r j with
       | Some cell => Z.max m (text_units cell)
       | None => m
       end)
    rows 0.

End Sheet.

(** ** Word-processor layout *)

Section Flow.
Import Word.
Local Open Scope Q_scope.

(** The layout state right after a call of [new_page]. *)
Definition after_new_page (st : layout) : layout :=
  mk_layout (mk_doc (page_sizes (pdf st) ++ [(595, 842)%Z]) (drawn (pdf st)))
            (Some (page_count (pdf st))) margin.

(** The width estimate in the words of the design: a sum over the
    characters of the line. *)
Definition estimated_width (fontSize : Q) (line : str) : Q :=
  fold_right Qplus 0
    (map (fun c => if (255 <? c)%N then fontSize else fontSize * 0.5) line).

(** Greedy wrap in the words of the design: the lines that get flushed,
    for the words still to come and the current line buffer. *)
Fixpoint greedy_wrap (fontSize available : Q) (words : list str)
  (buffer : str) : list str :=
  match words with
  | [] => match buffer with [] => [] | _ => [buffer] end
  | word :: rest =>
      let candidate :=
        match buffer with
        | [] => word
        | _ => buffer ++ [32%N] ++ word
        end in
      match buffer with
      | [] => greedy_wrap fontSize available rest candidate
      | _ =>
          if Qlt_le_dec available (estimated_width fontSize candidate)
          then buffer :: greedy_wrap fontSize available rest word
          else greedy_wrap fontSize available rest candidate
      end
  end.

(** A table cell that has text once stripped. *)
Definition has_text (cell : str) : bool := truthy (strip cell).

End Flow.

End Design.

(* ================================================================== *)
(** * More sample inputs                                               *)
(* ================================================================== *)

Module MoreSamples.
Import Py Pdf Ooxml.

(** A cell [<c><v>text</v></c>]. *)
Definition plain_cell (v_text : str) : element :=
  Elem Excel.c_tag [] None [Elem Excel.v_tag [] (Some v_text) []].

(** A worksheet with the rows [A B] and [1 2]. *)
Definition two_by_two : element :=
  Elem (Excel.ns_main ++ lit "worksheet") [] None
    [Elem (Excel.ns_main ++ lit "sheetData") [] None
       [Elem Excel.row_tag [] None [plain_cell (lit "A"); plain_cell (lit "B")];
        Elem Excel.row_tag [] None [plain_cell (lit "1"); plain_cell (lit "2")]]].

(** A workbook with that worksheet as its only part. *)
Definition small_workbook : Archive :=
  [(lit "xl/worksheets/sheet1.xml", mk_member (Ok []) (Ok two_by_two))].

Definition open_small_workbook (b : bytes) : result Archive :=
  Ok small_workbook.

(** A text shape without position whose one paragraph reads [s]. *)
Definition text_shape (s : str) : element :=
  Elem (Pptx.ns_p ++ lit "sp") [] None
    [Elem (Pptx.ns_p ++ lit "txBody") [] None
       [Elem (Pptx.ns_a ++ lit "p") [] None
          [Elem (Pptx.ns_a ++ lit "r") [] None
             [Elem (Pptx.ns_a ++ lit "t") [] (Some s) []]]]].

Definition hello_tree : element :=
  Elem (Pptx.ns_p ++ lit "spTree") [] None
    [text_shape (lit "Hello"); text_shape (lit "World")].

(** A slide with two such shapes. *)
Definition hello_slide : element :=
  Elem (Pptx.ns_p ++ lit "sld") [] None
    [Elem (Pptx.ns_p ++ lit "cSld") [] None [hello_tree]].

(** A deck with that slide as its only part. *)
Definition small_deck : Archive :=
  [(lit "ppt/slides/slide1.xml", mk_member (Ok []) (Ok hello_slide))].


(** Two relationships with the same id, and a third without target. *)
Definition rel (id target : str) : element :=
  Elem Pptx.relationship_tag [(lit "Id", id); (lit "Target", target)] None [].

Definition rels_twice : list element :=
  [rel (lit "rId1") (lit "../media/image1.png");
   rel (lit "rId1") (lit "../media/image2.png")].

Definition rel_without_target : element :=
  Elem Pptx.relationship_tag [(lit "Id", lit "rId2")] None [].

(** A word document: a title in two runs with an image after it, then
    a table of blank cells. *)
Definition letter : Word.docx :=
  Word.mk_docx
    [Word.P (Word.mk_paragraph (Some (lit "Title"))
               [Word.mk_run [] (lit "Hello ");
                Word.mk_run [] (lit "world");
                Word.mk_run [Samples.large_drawing] []]);
     Word.Tbl (Word.mk_table 2 [[lit " "; []]])]
    Samples.one_image.

Definition open_empty (b : bytes) : result Archive := Ok [].

Definition load_letter (a : Archive) : result Word.docx := Ok letter.

(** What the converter makes of it. *)
Definition converted_letter : Pdf.Document Q :=
  match Word.convert_word_to_pdf open_empty load_letter false [] with
  | Ok d => d
  | Raise _ => Pdf.open Q
  end.

Definition load_two_cell_table (a : Archive) : result Word.docx :=
  Ok Samples.two_cell_table.

(** A book of three pages, the second without area; a page renders to
    its size times the scale, in whole pixels. *)
Definition book_page (w h : Q) : Epub.epub_page :=
  Epub.mk_epub_page w h
    (fun scale => Epub.mk_pixmap (Qfloor (w * scale)) (Qfloor (h * scale))
                                 (fun _ => Samples.one_pixel_png)).

Definition small_book : list Epub.epub_page :=
  [book_page 400 600; book_page 0 0; book_page 400 600].

Definition open_small_book (b : bytes) : result (list Epub.epub_page) :=
  Ok small_book.

Definition converted_book : Pdf.Document Q :=
  match Epub.convert_epub_to_pdf open_small_book [] (lit "high") 595 842 with
  | Ok d => d
  | Raise _ => Pdf.open Q
  end.

End MoreSamples.

(* ================================================================== *)
(** * Vocabulary for whole-document properties                         *)
(* ================================================================== *)

Module Shape.
Import Py Pdf.

(** The page index of every draw call, in the order issued. *)
Definition page_indices {num} (d : Document num) : list nat :=
  map fst (drawn d).

(** No element is followed, anywhere later, by a smaller one. *)
Fixpoint nondecreasing (l : list nat) : Prop :=
  match l with
  | [] => True
  | a :: t => Forall (le a) t /\ nondecreasing t
  end.

(** Draw calls go to existing pages and never back to an earlier page. *)
Definition pages_in_order {num} (d : Document num) : Prop :=
  nondecreasing (page_indices d) /\
  Forall (fun i => i < page_count d)%nat (page_indices d).

(** The string a draw call carries. *)
Definition text_of {num} (c : DrawCommand num) : str :=
  match c with
  | Text _ _ s _ _ _ => s
  | TextBox _ _ _ _ s _ _ => s
  | Image _ _ _ _ _ => []
  end.

(** The strings of draw calls, in the order issued. *)
Definition texts {num} (cmds : list (PageHandle * DrawCommand num))
  : list str :=
  map (fun pc => text_of (snd pc)) cmds.

(** Members listed in ascending order of their number. *)
Definition by_number (x y : Z * str) : Prop := (fst x <= fst y)%Z.

(** The members of a list that carry the number [k]. *)
Definition numbered (k : Z) (l : list (Z * str)) : list (Z * str) :=
  filter (fun x => Z.eqb (fst x) k) l.

(** The test of the discovery loops on one member name: under the
    prefix, ending in [.xml], with a number after the stem. *)
Definition is_numbered (prefix stem name : str) : bool :=
  Ooxml.startswith prefix name && Ooxml.endswith (lit ".xml") name &&
  match Ooxml.numbered_part stem name with Some _ => true | None => false end.

(** What the discovery of numbered parts returns for the names of an
    archive: [found] is the scan in directory order, [files] the result. *)
Definition discovered (prefix stem : str) (names : list str)
  (found files : list (Z * str)) : Prop :=
  Ooxml.numbered_members prefix stem names = Ok found /\
  map snd found = filter (is_numbered prefix stem) names /\
  Forall (fun f => exists ds,
            Ooxml.numbered_part stem (snd f) = Some ds /\
            int_of_str ds = Ok (fst f)) found /\
  Sorted.StronglySorted by_number files /\
  Permutation.Permutation found files /\
  (forall k, numbered k files = numbered k found).

(** A sheet command stays between the top and bottom margins. *)
Definition in_sheet_band (c : DrawCommand Z) : Prop :=
  match c with
  | Text _ y _ _ _ _ => (Excel.margin <= y <= Excel.max_y)%Z
  | TextBox _ y0 _ y1 _ _ _ =>
      (Excel.margin <= y0 /\ y0 <= y1 /\ y1 <= Excel.max_y)%Z
  | Image _ _ _ _ _ => False
  end.

(** The rows a sheet part yields; none when it cannot be read. *)
Definition kept_rows (a : Ooxml.Archive) (shared_strings : list str)
  (sheet_path : str) : list (list str) :=
  match bind (Ooxml.read_xml sheet_path a)
             (Excel.sheet_rows shared_strings) with
  | Ok rows => rows
  | Raise _ => []
  end.

(** Pages a sheet with [n] kept rows takes: 29 rows fit under the
    header, 30 on every further page. *)
Definition sheet_pages (n : nat) : nat := (1 + n / 30)%nat.

(** What holds of the sheet cursor between two rows: its page is the
    last page, draw calls are in page order and between the margins,
    and the cursor is not above the top margin. *)
Definition sheet_inv (st : Excel.cursor) : Prop :=
  S (Excel.page st) = page_count (Excel.doc st) /\
  pages_in_order (Excel.doc st) /\
  Forall (fun pc => in_sheet_band (snd pc)) (drawn (Excel.doc st)) /\
  (Excel.margin <= Excel.y_position st)%Z.

(** The cursor height after [30 * q + r] rows of a sheet, [r < 30]. *)
Definition y_at (q r : nat) : Z :=
  ((if (q =? 0)%nat then 60 else 57) + 17 * Z.of_nat r)%Z.

(** The document between two sheets: in page order, between the margins. *)
Definition doc_inv (d : Document Z) : Prop :=
  pages_in_order d /\ Forall (fun pc => in_sheet_band (snd pc)) (drawn d).

End Shape.

(* ================================================================== *)
(** * Vocabulary for decks                                             *)
(* ================================================================== *)

Module Deck.
Import Py Pdf Ooxml.



(** The text lines a shape sends down the flow of its slide: those of
    a text shape that carries no position. *)
Definition flowed_lines (child : element) : list str :=
  if endswith (lit "pic") (tag child) then []
  else if endswith (lit "sp") (tag child) then
    match find_child (Pptx.ns_p ++ lit "txBody") child with
    | Some txBody =>
        match Pptx.shape_offset child with
        | Ok None => Pptx.text_content txBody
        | _ => []
        end
    | None => []
    end
  else [].

(** The [insert_text] calls among draw calls. *)
Definition text_calls {num} (cmds : list (PageHandle * DrawCommand num))
  : list (PageHandle * DrawCommand num) :=
  filter (fun pc => match snd pc with Text _ _ _ _ _ _ => true | _ => false end)
         cmds.

(** The height of the [k]-th line of a flow that starts at [y]. *)
Definition flow_y_at (y : Q) (k : nat) : Q :=
  Nat.iter k (fun y => y + 18)%Q y.

(** The flow of a slide that starts at [y]: its lines as drawn,
    numbered from [k]. *)
Fixpoint flow_calls (font : FontRef) (page : PageHandle) (y : Q) (k : nat)
  (lines : list str) : list (PageHandle * DrawCommand Q) :=
  match lines with
  | [] => []
  | line :: rest =>
      (page, Text (inject_Z Pptx.margin) (flow_y_at y k) line 12 font Black)
      :: flow_calls font page y (S k) rest
  end.

(** A relationship target as the converter keeps it: a leading [../]
    is resolved against [ppt/], anything else is kept as written. *)
Definition resolved (target : str) : str :=
  if startswith (lit "../") target then lit "ppt/" ++ skipn 3 target
  else target.

Definition has_target (rel : element) : bool :=
  match get (lit "Target") rel with Some _ => true | None => false end.

Definition has_id (key : str) (rel : element) : bool :=
  match get (lit "Id") rel with Some k => str_eqb k key | None => false end.

(** The target of a relationship element, resolved. *)
Definition target_of (rel : element) : str :=
  resolved (match get (lit "Target") rel with Some t => t | None => [] end).

(** The part that holds the relationships of the part [b] of folder [d]. *)
Definition rels_part (d b : str) : str :=
  d ++ lit "/_rels/" ++ b ++ lit ".rels".


End Deck.

(* ================================================================== *)
(** * Vocabulary for laid-out word documents                           *)
(* ================================================================== *)

Module Page.
Import Py Pdf Word Shape.
Local Open Scope Q_scope.

(** Where the draw calls of the word converter may be: a text has its
    base line between the top and the bottom margin, an image starts at
    or below the top margin and has positive height, and a text box is
    nowhere. *)
Definition well_placed (c : DrawCommand Q) : Prop :=
  match c with
  | Text _ y _ _ _ _ => margin <= y /\ y <= page_height - margin
  | Image _ y0 _ y1 _ => margin <= y0 /\ y0 < y1
  | TextBox _ _ _ _ _ _ _ => False
  end.

(** What holds between any two statements of the layout loop: the
    cursor holds the last page of a document of A4 pages whose draw
    calls are in page order and well placed, and it is not above the
    top margin. *)
Definition word_inv (st : layout) : Prop :=
  (exists p, current_page st = Some p /\ S p = page_count (pdf st)) /\
  pages_in_order (pdf st) /\
  Forall (fun s => s = (595, 842)%Z) (page_sizes (pdf st)) /\
  Forall (fun pc => well_placed (snd pc)) (drawn (pdf st)) /\
  margin <= y_position st.

(** A statement that keeps the invariant, whether it returns or raises. *)
Definition preserves {A} (m : M A) : Prop :=
  forall st, word_inv st -> word_inv (snd (m st)).

(** A table with text in one of its cells. *)
Definition table_with_text (e : body_element) : bool :=
  match e with
  | Tbl t => existsb (existsb Design.has_text) (rows t)
  | _ => false
  end.

(** Words joined by single spaces. *)
Definition join_words (words : list str) : str :=
  match words with
  | [] => []
  | w :: rest => w ++ flat_map (fun x => 32%N :: x) rest
  end.

End Page.

(* ================================================================== *)
(** * Vocabulary for plain-text pages and rendered books               *)
(* ================================================================== *)

Module Sheets.
Import Py Pdf Shape.
Local Open Scope Q_scope.

(** The number of newline characters of a text. *)
Definition newlines (s : str) : nat := count_occ N.eq_dec s 10%N.

(** A line that is drawn: not blank. *)
Definition is_drawn (line : str) : bool := truthy (strip line).

(** A text call of the plain-text layout has its base line between the
    top and the bottom margin; the layout makes no other calls. *)
Definition on_text_page (c : DrawCommand Q) : Prop :=
  match c with
  | Text _ y _ _ _ _ =>
      inject_Z Rtf.margin <= y /\
      y <= inject_Z (Rtf.page_height - Rtf.margin)
  | _ => False
  end.

(** The cursor of the plain-text layout after a line: it holds page
    [q], the last one, has [c] lines on it, between 1 and 42, and stands
    [c] line heights below the top margin. *)
Definition line_inv (q : nat) (c : Z) (st : Rtf.cursor) : Prop :=
  Rtf.page st = Some q /\
  page_count (Rtf.doc st) = S q /\
  Rtf.current_line st = c /\
  (1 <= c <= 42)%Z /\
  Rtf.y_position st == inject_Z Rtf.margin + Rtf.lineheight * inject_Z c /\
  pages_in_order (Rtf.doc st) /\
  Forall (fun s => s = (Rtf.page_width, Rtf.page_height))
         (page_sizes (Rtf.doc st)) /\
  Forall (fun pc => on_text_page (snd pc)) (drawn (Rtf.doc st)).

(** A page of a book that has an area. *)
Definition has_area (p : Epub.epub_page) : bool :=
  negb (Qle_bool (Epub.rect_width p) 0 || Qle_bool (Epub.rect_height p) 0).

(** The factor by which a rendered page of [pix] pixels is brought
    into [target] points: never above 1. *)
Definition fit (target pix : Z) : Q :=
  if (target <? pix)%Z then inject_Z target / inject_Z pix else 1.

(** An [insert_image] call. *)
Definition is_image_call {num} (c : DrawCommand num) : bool :=
  match c with Image _ _ _ _ _ => true | _ => false end.

End Sheets.

(* ================================================================== *)
(** * Properties of the rich-text converter                            *)
(* ================================================================== *)

Module RtfFacts.
Import Py Pdf Rtf Samples.

Lemma latin1_decode_total (bs : bytes) :
  latin1_decode bs = Ok (map Byte.to_N bs).
Proof.
  induction bs as [|b bs IH]; simpl; [reflexivity|].
  unfold latin1_char.
  pose proof (Byte.to_N_bounded b) as Hb.
  destruct (N.ltb_spec (Byte.to_N b) 256) as [_|Hge]; [|lia].
  simpl. rewrite IH. reflexivity.
Qed.

(** The escaped-backslash pass stops every call of [strip_rtf]. *)
Lemma strip_rtf_raises (text : str) :
  strip_rtf text = Raise (err re_error "bad escape (end of pattern) at position 0").
Proof. reflexivity. Qed.

Lemma decode_never_raises (bs : bytes) : exists s, decode bs = Ok s.
Proof.
  unfold decode, try_except.
  destruct (utf8_decode bs) as [s|e]; [now exists s|].
  rewrite latin1_decode_total. eauto.
Qed.

Lemma convert_rtf_always_raises (bs : bytes) :
  convert_rtf_to_pdf bs =
  Raise (err re_error "bad escape (end of pattern) at position 0").
Proof.
  unfold convert_rtf_to_pdf.
  destruct (decode_never_raises bs) as [s ->]. reflexivity.
Qed.

(** With no text at all the page loop still opens a page and draws
    nothing on it. *)
Lemma layout_empty_text :
  layout [] = mk_doc [(595, 842)%Z] [].
Proof. reflexivity. Qed.

(** C2, as stated: the extraction of [{\rtf1 Hello\par World}] is not
    [Hello], newline, [World].  The control-word pass and the brace
    pass, the only ones that see the paragraph mark, hand on
    [HelloWorld], in which there is no newline; and the extraction
    returns no text at all. *)
Lemma strip_rtf_hello_not_two_lines :
  strip_braces (strip_control_words rtf_hello) = lit "HelloWorld" /\
  lit "HelloWorld" <> hello_newline_world /\
  strip_rtf rtf_hello <> Ok hello_newline_world.
Proof.
  split; [reflexivity|]. split; [discriminate|].
  rewrite strip_rtf_raises. discriminate.
Qed.

(** C2, amended: on [{\rtf1 Hello\par World}] the control-word pass
    removes [\rtf1] and [\par] with the space after them and the brace
    pass removes the two braces, which leaves exactly [HelloWorld]:
    nothing is put in the place of the paragraph mark and the text has
    no newline.  The escaped-backslash pass then raises on that text,
    so that [strip_rtf] returns nothing. *)
Theorem strip_rtf_hello_joins_words :
  strip_control_words rtf_hello = lit "{HelloWorld}" /\
  strip_braces (strip_control_words rtf_hello) = lit "HelloWorld" /\
  ~ In 10%N (strip_braces (strip_control_words rtf_hello)) /\
  collapse_backslashes (strip_braces (strip_control_words rtf_hello))
  = Raise (err re_error "bad escape (end of pattern) at position 0") /\
  strip_rtf rtf_hello
  = Raise (err re_error "bad escape (end of pattern) at position 0").
Proof.
  repeat split; try reflexivity.
  vm_compute. intuition discriminate.
Qed.

(** C5, at the failing input: the empty rich-text buffer does not give a
    one-page document; the call ends with the template error of the
    escaped-backslash substitution. *)
Theorem convert_rtf_empty_input_raises :
  convert_rtf_to_pdf [] =
  Raise (err re_error "bad escape (end of pattern) at position 0").
Proof. reflexivity. Qed.

(** C10: decoding the input never raises.  The result is the UTF-8
    reading when the bytes are valid UTF-8 and otherwise the Latin-1
    reading, one character per byte with the byte's value; no failure of
    the conversion is a decoding error. *)
Theorem decode_total (bs : bytes) :
  exists s, decode bs = Ok s /\
    (forall u, utf8_decode bs = Ok u -> s = u) /\
    (forall e, utf8_decode bs = Raise e ->
       s = map Byte.to_N bs /\ List.length s = List.length bs) /\
    (forall e, convert_rtf_to_pdf bs = Raise e ->
       exn_cls e <> UnicodeDecodeError).
Proof.
  unfold decode, try_except.
  destruct (utf8_decode bs) as [s|e] eqn:Hu.
  - exists s. repeat split; try congruence.
    intros e He. rewrite convert_rtf_always_raises in He.
    inversion He; subst. discriminate.
  - rewrite latin1_decode_total. eexists. split; [reflexivity|].
    repeat split; try congruence.
    + now rewrite length_map.
    + intros e' He. rewrite convert_rtf_always_raises in He.
      inversion He; subst. discriminate.
Qed.

End RtfFacts.

(* ================================================================== *)
(** * Properties of the spreadsheet converter                          *)
(* ================================================================== *)

Module ExcelFacts.
Import Py Pdf Ooxml Excel Samples Design.
Local Open Scope Z_scope.

(** ** Cells never raise *)

Lemma cell_value_ok (ss : list str) (c : element) :
  exists v, cell_value ss c = Ok v.
Proof.
  unfold cell_value.
  destruct (find_child v_tag c) as [v_node|].
  - destruct (text_nonempty v_node) as [v_text|].
    + destruct (get (lit "t") c) as [t|]; [|eauto].
      destruct (str_eqb t (lit "s")); [|eauto].
      unfold try_except.
      destruct (shared_string_value ss v_text); eauto.
    + destruct (find_child is_tag c); eauto.
  - destruct (find_child is_tag c); eauto.
Qed.

Lemma mapM_ok {A B} (f : A -> result B) (l : list A) :
  (forall x, exists y, f x = Ok y) -> exists ys, mapM f l = Ok ys.
Proof.
  intros Hf. induction l as [|x l [ys IH]]; simpl; [eauto|].
  destruct (Hf x) as [y ->]. simpl. rewrite IH. simpl. eauto.
Qed.

Lemma sheet_rows_ok (ss : list str) (root : element) :
  exists rows, sheet_rows ss root = Ok rows.
Proof.
  unfold sheet_rows.
  destruct (mapM_ok (fun row => mapM (cell_value ss) (iter c_tag row))
                    (iter row_tag root)) as [all ->].
  - intros row. apply mapM_ok. apply cell_value_ok.
  - simpl. eauto.
Qed.

Lemma int_of_str_nonempty (s : str) (z : Z) :
  int_of_str s = Ok z -> truthy s = true.
Proof. destruct s; [discriminate|reflexivity]. Qed.

(** A shared-string cell whose text is no integer literal keeps the text. *)
Lemma shared_string_unparsable_is_literal ss c v_node v_text e :
  get (lit "t") c = Some (lit "s") ->
  find_child v_tag c = Some v_node ->
  text v_node = Some v_text ->
  truthy v_text = true ->
  int_of_str v_text = Raise e ->
  cell_value ss c = Ok v_text.
Proof.
  intros Ht Hv Htx Hne Hint. unfold cell_value, text_nonempty.
  rewrite Hv, Htx, Hne, Ht.
  replace (str_eqb (lit "s") (lit "s")) with true by reflexivity.
  unfold shared_string_value. rewrite Hint. reflexivity.
Qed.

(** C1, as stated: with a one-entry table the cell [<v>5</v>] of type
    [s] does not get the text [5]. *)
Lemma shared_string_out_of_range_not_literal :
  int_of_str (lit "5") = Ok 5 /\
  Z.of_nat (List.length one_string) <= 5 /\
  cell_value one_string (shared_cell (lit "5")) <> Ok (lit "5").
Proof. repeat split; try reflexivity; vm_compute; discriminate. Qed.

(** C1, amended: a shared-string cell whose text [int()] reads as an
    index at or past the end of the table gets the empty string, the
    value [val] starts with; reading the cells of a sheet never raises. *)
Theorem shared_string_out_of_range_is_blank ss c v_node v_text idx :
  get (lit "t") c = Some (lit "s") ->
  find_child v_tag c = Some v_node ->
  text v_node = Some v_text ->
  int_of_str v_text = Ok idx ->
  Z.of_nat (List.length ss) <= idx ->
  cell_value ss c = Ok [] /\
  (forall root, exists rows, sheet_rows ss root = Ok rows).
Proof.
  intros Ht Hv Htx Hint Hge. split; [|apply sheet_rows_ok].
  unfold cell_value, text_nonempty.
  rewrite Hv, Htx, (int_of_str_nonempty _ Hint), Ht.
  replace (str_eqb (lit "s") (lit "s")) with true by reflexivity.
  unfold shared_string_value. rewrite Hint. simpl.
  destruct (Z.ltb_spec idx (Z.of_nat (List.length ss))); [lia|reflexivity].
Qed.

Lemma shared_string_out_of_range_is_blank_witness :
  cell_value one_string (shared_cell (lit "5")) = Ok [] /\
  (forall root, exists rows, sheet_rows one_string root = Ok rows).
Proof.
  apply (@shared_string_out_of_range_is_blank one_string
           (shared_cell (lit "5"))
           (Elem v_tag [] (Some (lit "5")) []) (lit "5") 5);
    try reflexivity.
  vm_compute. discriminate.
Defined.

(** ** Pages only ever get added *)

Lemma page_count_draw {num} p (c : DrawCommand num) d :
  page_count (draw p c d) = page_count d.
Proof. reflexivity. Qed.

Lemma page_count_new_page {num} w h (d : Document num) :
  page_count (fst (new_page w h d)) = S (page_count d).
Proof.
  unfold new_page, page_count. simpl. rewrite length_app. simpl. lia.
Qed.

(** ** One row of a sheet *)

Lemma render_cells_spec font p y row_data :
  forall col_widths x d,
  exists cmds,
    render_cells font p y x row_data col_widths d
      = mk_doc (page_sizes d) (drawn d ++ cmds) /\
    row_boxes_at font p y x row_data col_widths cmds.
Proof.
  induction row_data as [|cell cells IH]; intros col_widths x d.
  - exists []. split; [|constructor].
    destruct d; simpl. now rewrite app_nil_r.
  - destruct col_widths as [|w ws].
    + exists []. split; [|constructor].
      destruct d; simpl. now rewrite app_nil_r.
    + simpl.
      set (d1 := if truthy cell then _ else d).
      destruct (IH ws (x + w) d1) as [cmds [Heq Hall]].
      exists ((if truthy cell
               then [(p, TextBox (x + 2) (y + 2) (x + w - 2)
                                 (y + row_height - 1) cell fontsize font)]
               else []) ++ cmds).
      split.
      * rewrite Heq. subst d1. destruct (truthy cell); simpl.
        -- now rewrite <- app_assoc.
        -- reflexivity.
      * unfold row_boxes_at. apply Forall_app. split.
        -- destruct (truthy cell) eqn:Hc; constructor; [|constructor].
           split; [reflexivity|]. exists 0%nat, cell, w. simpl.
           repeat split; try assumption.
           unfold width_before. simpl. f_equal; lia.
        -- eapply Forall_impl; [|exact Hall].
           intros [q c] [Hq [i [cl [w' [Hi [Hw [Ht Hc]]]]]]].
           split; [exact Hq|]. exists (S i), cl, w'. simpl.
           repeat split; try assumption.
           simpl in Hc. rewrite Hc. unfold width_before. simpl.
           f_equal; lia.
Qed.

Lemma render_row_spec font col_widths st row_data :
  exists cmds,
    drawn (doc (render_row font col_widths st row_data))
      = drawn (doc st) ++ cmds /\
    y_position (render_row font col_widths st row_data)
      = row_top st + row_height /\
    row_boxes_at font (page (render_row font col_widths st row_data))
                 (row_top st) margin row_data col_widths cmds.
Proof.
  unfold render_row, row_top.
  destruct (max_y <? y_position st + row_height); simpl.
  - destruct (render_cells_spec font (page_count (doc st)) margin row_data
                col_widths margin
                (mk_doc (page_sizes (doc st) ++ [(page_width, page_height)])
                        (drawn (doc st)))) as [cmds [Heq Hall]].
    exists cmds. rewrite Heq. simpl. auto.
  - destruct (render_cells_spec font (page st) (y_position st) row_data
                col_widths margin (doc st)) as [cmds [Heq Hall]].
    exists cmds. rewrite Heq. simpl. auto.
Qed.

Lemma flat_map_seq_shift {A} (f : nat -> list A) (n : nat) :
  forall a, flat_map f (seq (S a) n) = flat_map (fun i => f (S i)) (seq a n).
Proof.
  induction n as [|n IH]; intros a; [reflexivity|].
  cbn [seq flat_map]. now rewrite IH.
Qed.

Lemma flat_map_nil {A B} (l : list A) :
  flat_map (fun _ : A => @nil B) l = [].
Proof. induction l; [reflexivity|assumption]. Qed.

(** The cells of a row add exactly the boxes of the row. *)
Lemma render_cells_boxes font p y row_data :
  forall col_widths x d,
  render_cells font p y x row_data col_widths d
  = mk_doc (page_sizes d) (drawn d ++ row_boxes font p y x row_data col_widths).
Proof.
  induction row_data as [|cell cells IH]; intros col_widths x d.
  - cbn. rewrite app_nil_r. now destruct d.
  - destruct col_widths as [|w ws].
    + cbn [render_cells]. unfold row_boxes.
      rewrite (flat_map_ext _ (fun _ => [])), flat_map_nil.
      * rewrite app_nil_r. now destruct d.
      * intros i. destruct (nth_error (cell :: cells) i); [|reflexivity].
        now destruct i.
    + cbn [render_cells]. rewrite IH. unfold row_boxes.
      cbn [List.length seq flat_map nth_error].
      rewrite flat_map_seq_shift.
      rewrite (flat_map_ext
                 (fun i =>
                    match nth_error (cell :: cells) (S i),
                          nth_error (w :: ws) (S i) with
                    | Some c, Some w0 =>
                        if truthy c
                        then [(p, TextBox (x + width_before (w :: ws) (S i) + 2)
                                          (y + 2)
                                          (x + width_before (w :: ws) (S i)
                                           + w0 - 2)
                                          (y + row_height - 1) c fontsize font)]
                        else []
                    | _, _ => []
                    end)
                 (fun i =>
                    match nth_error cells i, nth_error ws i with
                    | Some c, Some w0 =>
                        if truthy c
                        then [(p, TextBox (x + w + width_before ws i + 2)
                                          (y + 2)
                                          (x + w + width_before ws i + w0 - 2)
                                          (y + row_height - 1) c fontsize font)]
                        else []
                    | _, _ => []
                    end)).
      * destruct (truthy cell); cbn [draw page_sizes drawn].
        -- rewrite <- app_assoc. cbn [app]. unfold width_before.
           cbn [firstn fold_right].
           replace (x + 0 + 2) with (x + 2) by lia.
           replace (x + 0 + w - 2) with (x + w - 2) by lia.
           reflexivity.
        -- reflexivity.
      * intros i. cbn [nth_error].
        destruct (nth_error cells i) as [c|]; [|reflexivity].
        destruct (nth_error ws i) as [w0|]; [|reflexivity].
        destruct (truthy c); [|reflexivity].
        unfold width_before. cbn [firstn fold_right].
        do 3 f_equal; lia.
Qed.

Lemma row_boxes_on_page font p y x row_data col_widths :
  Forall (fun pc => fst pc = p) (row_boxes font p y x row_data col_widths).
Proof.
  unfold row_boxes. apply Forall_flat_map. apply Forall_forall.
  intros i _.
  destruct (nth_error row_data i) as [c|]; [|constructor].
  destruct (nth_error col_widths i) as [w|]; [|constructor].
  destruct (truthy c); constructor; [reflexivity|constructor].
Qed.

(** One row: the page it lands on, the pages of the document, the boxes
    added and the cursor after it. *)
Lemma render_row_boxes font col_widths st row_data :
  page (render_row font col_widths st row_data) = row_page st /\
  page_sizes (doc (render_row font col_widths st row_data))
  = (if max_y <? y_position st + row_height
     then page_sizes (doc st) ++ [(page_width, page_height)]
     else page_sizes (doc st)) /\
  drawn (doc (render_row font col_widths st row_data))
  = drawn (doc st)
    ++ row_boxes font (row_page st) (row_top st) margin row_data col_widths /\
  y_position (render_row font col_widths st row_data)
  = row_top st + row_height.
Proof.
  unfold render_row, row_top, row_page.
  destruct (max_y <? y_position st + row_height);
    cbn [new_page doc page y_position]; rewrite render_cells_boxes;
    cbn [page_sizes drawn]; auto.
Qed.

Lemma page_count_render_row font col_widths st row_data :
  (page_count (doc st)
   <= page_count (doc (render_row font col_widths st row_data)))%nat.
Proof.
  unfold render_row.
  destruct (max_y <? y_position st + row_height); simpl.
  - destruct (render_cells_spec font (page_count (doc st)) margin row_data
                col_widths margin
                (mk_doc (page_sizes (doc st) ++ [(page_width, page_height)])
                        (drawn (doc st)))) as [cmds [Heq _]].
    rewrite Heq. unfold page_count. simpl. rewrite length_app. simpl. lia.
  - destruct (render_cells_spec font (page st) (y_position st) row_data
                col_widths margin (doc st)) as [cmds [Heq _]].
    rewrite Heq. unfold page_count. simpl. lia.
Qed.

Lemma page_count_fold_rows font col_widths rows :
  forall st,
  (page_count (doc st)
   <= page_count (doc (fold_left (render_row font col_widths) rows st)))%nat.
Proof.
  induction rows as [|r rows IH]; intros st; simpl; [lia|].
  etransitivity; [apply (page_count_render_row font col_widths st r)|apply IH].
Qed.

Lemma page_count_render_rows font rows st :
  (page_count (doc st) <= page_count (doc (render_rows font rows st)))%nat.
Proof.
  unfold render_rows. destruct rows; [lia|apply page_count_fold_rows].
Qed.

(** ** One sheet *)

(** What the handler of lines 203-204 leaves when the sheet part cannot
    be read or parsed: the header and one red marker below it. *)
Lemma convert_sheet_on_error a font ss d sheet_idx sheet_num sheet_path e :
  read_xml sheet_path a = Raise e ->
  convert_sheet a font ss d (sheet_idx, (sheet_num, sheet_path)) =
  draw (page_count d)
       (Text margin (margin + 20) (lit "Error: " ++ exn_msg e) 11 Helv Red)
       (draw (page_count d)
             (Text margin margin (lit "Sheet " ++ str_of_Z (sheet_idx + 1))
                   12 font Black)
             (fst (new_page page_width page_height d))).
Proof.
  intros Hread. unfold convert_sheet, sheet_body. simpl.
  rewrite Hread. reflexivity.
Qed.

Lemma page_count_convert_sheet a font ss d sheet :
  (S (page_count d) <= page_count (convert_sheet a font ss d sheet))%nat.
Proof.
  destruct sheet as [sheet_idx [sheet_num sheet_path]].
  unfold convert_sheet, sheet_body. simpl.
  destruct (read_xml sheet_path a) as [root|e]; simpl.
  - destruct (sheet_rows_ok ss root) as [rows ->].
    etransitivity; [|apply page_count_render_rows]. simpl.
    unfold page_count. simpl. rewrite length_app. simpl. lia.
  - unfold page_count. simpl. rewrite length_app. simpl. lia.
Qed.

Lemma page_count_fold_sheets a font ss sheets :
  forall d,
  (page_count d + List.length sheets
   <= page_count (fold_left (convert_sheet a font ss) sheets d))%nat.
Proof.
  induction sheets as [|s sheets IH]; intros d; simpl; [lia|].
  pose proof (page_count_convert_sheet a font ss d s).
  pose proof (IH (convert_sheet a font ss d s)). lia.
Qed.

Lemma length_enumerate_from {A} (l : list A) :
  forall i, List.length (enumerate_from i l) = List.length l.
Proof. induction l; intros i; simpl; [reflexivity|now rewrite IHl]. Qed.

(** The conversion of an opened workbook never raises once the sheet
    parts are listed, and every sheet gets at least its own page. *)
Lemma convert_archive_ok custom_font a files :
  get_sheet_files a = Ok files ->
  exists pdf, convert_archive custom_font a = Ok pdf /\
              (List.length files <= page_count pdf)%nat /\
              (1 <= page_count pdf)%nat.
Proof.
  intros Hfiles. unfold convert_archive. rewrite Hfiles. simpl.
  eexists. split; [reflexivity|].
  set (pdf := fold_left _ _ _).
  pose proof (page_count_fold_sheets a (if custom_font then Custom else Helv)
                (read_shared_strings a) (enumerate_from 0 files) (open Z)) as H.
  fold pdf in H. rewrite length_enumerate_from in H.
  change (page_count (open Z)) with 0%nat in H.
  destruct (Nat.eqb_spec (page_count pdf) 0) as [Hz|Hnz].
  - unfold page_count in *. simpl. rewrite length_app. simpl. lia.
  - lia.
Qed.

(** A workbook without worksheet parts gives one page with nothing on it. *)
Lemma convert_archive_no_sheets custom_font a :
  get_sheet_files a = Ok [] ->
  convert_archive custom_font a = Ok (mk_doc [(595, 842)] []).
Proof.
  intros Hfiles. unfold convert_archive. rewrite Hfiles. reflexivity.
Qed.

End ExcelFacts.

(* ================================================================== *)
(** * Properties of the word-processor converter                       *)
(* ================================================================== *)

Module WordFacts.
Import Py Pdf Word Samples Design.
Local Open Scope Q_scope.
Local Open Scope word_scope.

Lemma gt_iff (a b : Q) : gt a b = true <-> b < a.
Proof.
  unfold gt. rewrite negb_true_iff.
  destruct (Qle_bool a b) eqn:H.
  - apply Qle_bool_iff in H. split; [discriminate|].
    intros Hlt. exfalso. apply (Qlt_not_le _ _ Hlt H).
  - split; [intros _|reflexivity].
    apply Qnot_le_lt. intros Hle. apply Qle_bool_iff in Hle. congruence.
Qed.

Lemma gt_false_iff (a b : Q) : gt a b = false <-> a <= b.
Proof.
  unfold gt. rewrite negb_false_iff. apply Qle_bool_iff.
Qed.

Lemma gt_compat (a a' b : Q) : a == a' -> gt a b = gt a' b.
Proof. intros H. unfold gt. now rewrite H. Qed.

(** ** [ensure_space] *)

Lemma ensure_space_on_page (h : Q) (st : layout) (p : PageHandle) :
  current_page st = Some p ->
  ensure_space h st =
  (Ok tt,
   if gt h (page_height - 2 * margin)
   then if gt (y_position st) margin then after_new_page st else st
   else if gt (y_position st + h) (page_height - margin)
        then after_new_page st else st).
Proof.
  intros Hp. unfold ensure_space, mbind, get_y, ret, new_page.
  rewrite Hp. simpl.
  destruct (gt h (page_height - 2 * margin)).
  - destruct (gt (y_position st) margin); reflexivity.
  - destruct (gt (y_position st + h) (page_height - margin)); reflexivity.
Qed.

Lemma ensure_space_no_page (h : Q) (st : layout) :
  current_page st = None ->
  ensure_space h st = ensure_space h (after_new_page st).
Proof.
  intros Hp. unfold ensure_space, mbind, get_y, ret, new_page.
  rewrite Hp. reflexivity.
Qed.

(** Whatever the state, [ensure_space] returns normally, leaves a page
    in [current_page] and draws nothing. *)
Lemma ensure_space_ok (h : Q) (st : layout) :
  exists st' p,
    ensure_space h st = (Ok tt, st') /\
    current_page st' = Some p /\
    drawn (pdf st') = drawn (pdf st).
Proof.
  assert (Hon : forall s q, current_page s = Some q ->
            exists st' p, ensure_space h s = (Ok tt, st') /\
              current_page st' = Some p /\ drawn (pdf st') = drawn (pdf s)).
  { intros s q Hq. rewrite (ensure_space_on_page h s Hq).
    destruct (gt h (page_height - 2 * margin));
      [destruct (gt (y_position s) margin)
      |destruct (gt (y_position s + h) (page_height - margin))];
      eexists; eexists; (split; [reflexivity|]); simpl; eauto. }
  destruct (current_page st) as [q|] eqn:Hq.
  - eapply Hon; eauto.
  - rewrite (ensure_space_no_page h st Hq).
    destruct (Hon (after_new_page st) (page_count (pdf st)) eq_refl)
      as [st' [p [H1 [H2 H3]]]].
    exists st', p. repeat split; assumption.
Qed.

(** C6: the pagination rule of [ensure_space], for a cursor that is on a
    page.  A block of height [h] that fits a page ([h] at most the
    usable height) starts a new page, with [y] back at the margin,
    exactly when [y + h] passes the bottom margin.  A block taller than
    the usable height never waits for room: it starts one new page when
    the cursor is below the top margin and stays where it is otherwise.
    A new page is one more page, never more. *)
Theorem ensure_space_rule (h : Q) (st : layout) (p : PageHandle) :
  current_page st = Some p ->
  (h <= page_height - 2 * margin ->
   page_height - margin < y_position st + h ->
   ensure_space h st = (Ok tt, after_new_page st)) /\
  (h <= page_height - 2 * margin ->
   y_position st + h <= page_height - margin ->
   ensure_space h st = (Ok tt, st)) /\
  (page_height - 2 * margin < h ->
   margin < y_position st ->
   ensure_space h st = (Ok tt, after_new_page st)) /\
  (page_height - 2 * margin < h ->
   y_position st <= margin ->
   ensure_space h st = (Ok tt, st)) /\
  (y_position (after_new_page st) = margin /\
   page_count (pdf (after_new_page st)) = S (page_count (pdf st)) /\
   current_page (after_new_page st) = Some (page_count (pdf st)) /\
   drawn (pdf (after_new_page st)) = drawn (pdf st)).
Proof.
  intros Hp. rewrite (ensure_space_on_page h st Hp).
  repeat split.
  - intros Hfit Hover.
    apply gt_false_iff in Hfit. apply gt_iff in Hover.
    now rewrite Hfit, Hover.
  - intros Hfit Hroom.
    apply gt_false_iff in Hfit. apply gt_false_iff in Hroom.
    now rewrite Hfit, Hroom.
  - intros Hbig Hlow.
    apply gt_iff in Hbig. apply gt_iff in Hlow.
    now rewrite Hbig, Hlow.
  - intros Hbig Htop.
    apply gt_iff in Hbig. apply gt_false_iff in Htop.
    now rewrite Hbig, Htop.
  - unfold after_new_page, page_count. simpl.
    rewrite length_app. simpl. lia.
Qed.

Lemma ensure_space_rule_witness :
  ensure_space 22 (mk_layout (mk_doc [(595, 842)%Z] []) (Some 0%nat) 800)
  = (Ok tt,
     after_new_page (mk_layout (mk_doc [(595, 842)%Z] []) (Some 0%nat) 800)).
Proof.
  apply (proj1 (@ensure_space_rule 22
                  (mk_layout (mk_doc [(595, 842)%Z] []) (Some 0%nat) 800)
                  0%nat eq_refl)).
  - vm_compute. discriminate.
  - reflexivity.
Defined.

(** ** Word wrap *)

Lemma est_w_from (fontsize : Z) (line : str) :
  forall acc,
  fold_left
    (fun w char => w + (if (255 <? char)%N then inject_Z fontsize
                        else inject_Z fontsize * 0.5)) line acc
  == acc + estimated_width (inject_Z fontsize) line.
Proof.
  induction line as [|c line IH]; intros acc; simpl.
  - unfold estimated_width. simpl. ring.
  - rewrite IH. unfold estimated_width. simpl. ring.
Qed.

Lemma est_w_is_sum (fontsize : Z) (line : str) :
  est_w fontsize line == estimated_width (inject_Z fontsize) line.
Proof. unfold est_w. rewrite est_w_from. ring. Qed.

Lemma mbind_ret_tt (m : M unit) (st : layout) : (m ;; ret tt) st = m st.
Proof.
  unfold mbind, ret. destruct (m st) as [[[]|e] st']; reflexivity.
Qed.

Lemma flush_words_greedy font lineheight fontsize words :
  forall line_buf st,
  flush_words font lineheight fontsize words line_buf st =
  for_each (put_line font lineheight fontsize)
           (greedy_wrap (inject_Z fontsize) text_width words line_buf) st.
Proof.
  induction words as [|word rest IH]; intros line_buf st.
  - destruct line_buf as [|c buf]; simpl; [reflexivity|].
    now rewrite mbind_ret_tt.
  - destruct line_buf as [|c buf].
    + simpl. rewrite andb_false_r. apply IH.
    + cbn [flush_words greedy_wrap truthy]. rewrite andb_true_r.
      rewrite (gt_compat _ (est_w_is_sum fontsize _)).
      destruct (Qlt_le_dec text_width
                  (estimated_width (inject_Z fontsize)
                     ((c :: buf) ++ [32%N] ++ word))) as [Hlt|Hle].
      * apply gt_iff in Hlt. rewrite Hlt.
        cbn [for_each]. unfold mbind.
        destruct (put_line font lineheight fontsize (c :: buf) st)
          as [[[]|e] st']; [apply IH|reflexivity].
      * apply gt_false_iff in Hle. rewrite Hle. apply IH.
Qed.

Lemma split_ws_aux_nil_words (s : str) :
  truthy s = false -> split_ws s = [].
Proof. destruct s; [reflexivity|discriminate]. Qed.

(** What one flushed line does to the layout state. *)
Lemma put_line_spec font lineheight fontsize line_buf st :
  exists st1 p,
    ensure_space lineheight st = (Ok tt, st1) /\
    current_page st1 = Some p /\
    put_line font lineheight fontsize line_buf st =
    (Ok tt,
     mk_layout
       (draw p (Text margin (y_position st1 + inject_Z fontsize) line_buf
                     fontsize font Black) (pdf st1))
       (Some p) (y_position st1 + lineheight)).
Proof.
  destruct (ensure_space_ok lineheight st) as [st1 [p [He [Hp _]]]].
  exists st1, p. repeat split; try assumption.
  unfold put_line, mbind, get_y, on_page, advance.
  rewrite He. simpl. rewrite Hp. reflexivity.
Qed.

(** C9: greedy word wrap.  The estimated width of a line is the sum,
    over its characters, of the font size for a code point above 255 and
    of half the font size otherwise.  [flush_text] puts out, one after
    the other, exactly the lines of the greedy rule: a word that would
    take the estimate past the text width when the buffer is not empty
    flushes the buffer and starts the next one; any other word is
    appended; what is left at the end is flushed.  Each flushed line is
    drawn at the margin after [ensure_space], and the cursor then moves
    down by the line height, which a paragraph sets to 1.4 times its
    font size. *)
Theorem flush_text_is_greedy_wrap font lineheight text fontsize st :
  (forall line, est_w fontsize line
                == estimated_width (inject_Z fontsize) line) /\
  flush_text font lineheight text fontsize st =
    for_each (put_line font lineheight fontsize)
      (greedy_wrap (inject_Z fontsize) text_width (split_ws text) []) st /\
  (forall line_buf s, exists s1 p,
     ensure_space lineheight s = (Ok tt, s1) /\
     current_page s1 = Some p /\
     put_line font lineheight fontsize line_buf s =
     (Ok tt,
      mk_layout
        (draw p (Text margin (y_position s1 + inject_Z fontsize) line_buf
                      fontsize font Black) (pdf s1))
        (Some p) (y_position s1 + lineheight))) /\
  (forall blob style,
     layout_paragraph font blob (mk_paragraph style [mk_run [] text]) st =
     let size := fontsize_of_style (match style with
                                    | Some n => n
                                    | None => lit "Normal"
                                    end) in
     (for_each (put_line font (inject_Z size * 1.4) size)
        (greedy_wrap (inject_Z size) text_width (split_ws text) []) ;;
      advance (inject_Z size * 0.5)) st).
Proof.
  split; [intros line; apply est_w_is_sum|].
  split.
  { unfold flush_text. destruct (truthy text) eqn:Ht.
    - apply flush_words_greedy.
    - rewrite (split_ws_aux_nil_words _ Ht). reflexivity. }
  split; [intros line_buf s; apply put_line_spec|].
  intros blob style. cbv zeta.
  unfold layout_paragraph. cbn [runs style_name walk_runs drawings run_text].
  set (size := fontsize_of_style _).
  unfold mbind at 1 2. unfold ret at 1. cbn [app].
  destruct (truthy text) eqn:Ht.
  - unfold ret at 1. unfold mbind at 1. rewrite Ht.
    unfold flush_text. rewrite Ht. unfold mbind.
    rewrite flush_words_greedy. reflexivity.
  - unfold ret at 1. unfold mbind. cbn [truthy]. unfold ret.
    rewrite (split_ws_aux_nil_words _ Ht). reflexivity.
Qed.

(** ** Embedded images *)



(** One uniform scale-down to a bound [b]: the factor is in (0,1] and the
    scaled length does not exceed [b]. *)
Lemma scale_to_fit (b x : Q) :
  0 < b -> 0 < x ->
  let s := if gt x b then b / x else 1 in
  0 < s /\ s <= 1 /\ x * s <= b /\ (gt x b = true -> x * s == b).
Proof.
  intros Hb Hx. cbv zeta.
  destruct (gt x b) eqn:G.
  - apply gt_iff in G.
    assert (Hne : ~ x == 0) by lra.
    assert (Hs : x * (b / x) == b) by (field; exact Hne).
    repeat split.
    + apply Qlt_shift_div_l; lra.
    + apply Qle_shift_div_r; lra.
    + rewrite Hs. lra.
    + intros _. exact Hs.
  - apply gt_false_iff in G. repeat split; try lra; try discriminate.
Qed.







(** ** Table rows *)

(** The cells of a row on a held page: blank cells are passed over, and
    the first cell with text stops the row at its [insert_textbox]
    call, before anything is drawn. *)
Lemma layout_cells_outcome font col_width initial_y cells :
  forall x st p,
  current_page st = Some p ->
  layout_cells font col_width initial_y x cells st
  = (if existsb has_text cells
     then Raise (err TypeError
            "insert_textbox() got an unexpected keyword argument 'width'")
     else Ok tt,
     st).
Proof.
  induction cells as [|cell rest IH]; intros x st p Hp; [reflexivity|].
  cbn [layout_cells existsb]. unfold has_text at 1.
  destruct (truthy (strip cell)).
  - unfold mbind, insert_textbox_width. now rewrite Hp.
  - cbn [orb]. now apply IH with p.
Qed.

Lemma layout_row_outcome font col_width cells st :
  exists st1 p,
    ensure_space row_height st = (Ok tt, st1) /\
    current_page st1 = Some p /\
    drawn (pdf st1) = drawn (pdf st) /\
    layout_row font col_width cells st
    = if existsb has_text cells
      then (Raise (err TypeError
              "insert_textbox() got an unexpected keyword argument 'width'"),
            st1)
      else (Ok tt,
            mk_layout (pdf st1) (Some p) (y_position st1 + row_height)).
Proof.
  destruct (ensure_space_ok row_height st) as [st1 [p [He [Hp Hd]]]].
  exists st1, p. repeat split; try assumption.
  unfold layout_row. unfold mbind at 1. rewrite He.
  unfold mbind at 1. unfold get_y at 1. unfold mbind.
  rewrite (layout_cells_outcome font col_width (y_position st1) cells
             margin st1 Hp).
  destruct (existsb has_text cells); [reflexivity|].
  unfold advance. now rewrite Hp.
Qed.

End WordFacts.

(* ================================================================== *)
(** * Properties that span the converters                              *)
(* ================================================================== *)

Module ConverterFacts.
Import Py Pdf Ooxml Samples.

(** ** Empty containers *)

Lemma convert_excel_no_sheets ZipFile custom_font input_bytes a :
  ZipFile input_bytes = Ok a ->
  Excel.get_sheet_files a = Ok [] ->
  Excel.convert_excel_to_pdf ZipFile custom_font input_bytes
  = Ok (mk_doc [(595, 842)%Z] []).
Proof.
  intros Hzip Hfiles. unfold Excel.convert_excel_to_pdf.
  rewrite Hzip. simpl. now apply ExcelFacts.convert_archive_no_sheets.
Qed.

Lemma convert_pptx_no_slides ZipFile custom_font input_bytes a :
  ZipFile input_bytes = Ok a ->
  Pptx.get_slide_files a = Ok [] ->
  Pptx.convert_pptx_to_pdf ZipFile custom_font input_bytes
  = Ok (mk_doc [(595, 842)%Z] []).
Proof.
  intros Hzip Hfiles. unfold Pptx.convert_pptx_to_pdf.
  rewrite Hzip. simpl. rewrite Hfiles. reflexivity.
Qed.

(** ** Failures inside one unit *)

(** The handler of a slide, lines 263-264, when the slide part cannot
    be read or parsed: the slide number and one red marker at the top
    left margin. *)
Lemma convert_slide_on_error a font d slide_idx slide_num slide_path e :
  read_xml slide_path a = Raise e ->
  Pptx.convert_slide a font d (slide_idx, (slide_num, slide_path))
  = draw (page_count d)
      (Text (inject_Z Pptx.margin) (inject_Z Pptx.margin)
            (lit "Error: " ++ exn_msg e) 11 Helv Red)
      (draw (page_count d)
         (Text (inject_Z (Pptx.page_width - Pptx.margin - 30))
               (inject_Z (Pptx.page_height - 20))
               (str_of_Z (slide_idx + 1)) 10 font Grey)
         (fst (new_page Pptx.page_width Pptx.page_height d))).
Proof.
  intros Hread. unfold Pptx.convert_slide, Pptx.slide_body. simpl.
  rewrite Hread. reflexivity.
Qed.

(** A workbook whose only sheet part does not parse still converts: one
    page with the sheet header and the red marker under it. *)
Example convert_broken_sheet :
  Excel.convert_archive false broken_sheet =
  Ok (mk_doc [(842, 595)%Z]
        [(0%nat, Text 40%Z 40%Z (lit "Sheet 1") 12 Helv Black);
         (0%nat, Text 40%Z 60%Z
                   (lit "Error: Document is empty, line 1, column 1")
                   11 Helv Red)]).
Proof. reflexivity. Qed.

(** C3, as stated: in the word-processor converter an exception inside
    one table ends the whole conversion.  The table has one cell with
    text, and the [insert_textbox] call for it raises. *)
Lemma word_table_exception_fails_conversion :
  is_ok (Word.convert_word_to_pdf (fun _ => Ok []) (fun _ => Ok gridless_table)
                                  false [])
  = false.
Proof. reflexivity. Qed.

(** C3, amended: in the spreadsheet converter a sheet part that cannot
    be read or parsed does not end the conversion.  The sheet's page
    gets its header and exactly one more text, [Error: <message>] in
    red at [(margin, y_position)], the loop goes on with the next sheet,
    and the conversion returns a document with at least one page for
    every sheet.  The presentation converter does the same for a slide
    part, with the marker at [(margin, margin)]. *)
Theorem sheet_exception_is_isolated custom_font a files :
  Excel.get_sheet_files a = Ok files ->
  (exists pdf, Excel.convert_archive custom_font a = Ok pdf /\
               (List.length files <= page_count pdf)%nat) /\
  (forall font ss d sheet_idx sheet_num sheet_path e,
     read_xml sheet_path a = Raise e ->
     Excel.convert_sheet a font ss d (sheet_idx, (sheet_num, sheet_path)) =
     draw (page_count d)
       (Text Excel.margin (Excel.margin + 20)%Z
             (lit "Error: " ++ exn_msg e) 11 Helv Red)
       (draw (page_count d)
          (Text Excel.margin Excel.margin
                (lit "Sheet " ++ str_of_Z (sheet_idx + 1)) 12 font Black)
          (fst (new_page Excel.page_width Excel.page_height d)))) /\
  (forall font ss sheet rest d,
     fold_left (Excel.convert_sheet a font ss) (sheet :: rest) d =
     fold_left (Excel.convert_sheet a font ss) rest
               (Excel.convert_sheet a font ss d sheet)) /\
  (forall deck font d slide_idx slide_num slide_path e,
     read_xml slide_path deck = Raise e ->
     Pptx.convert_slide deck font d (slide_idx, (slide_num, slide_path)) =
     draw (page_count d)
       (Text (inject_Z Pptx.margin) (inject_Z Pptx.margin)
             (lit "Error: " ++ exn_msg e) 11 Helv Red)
       (draw (page_count d)
          (Text (inject_Z (Pptx.page_width - Pptx.margin - 30))
                (inject_Z (Pptx.page_height - 20))
                (str_of_Z (slide_idx + 1)) 10 font Grey)
          (fst (new_page Pptx.page_width Pptx.page_height d)))).
Proof.
  intros Hfiles. split; [|split; [|split]].
  - destruct (ExcelFacts.convert_archive_ok custom_font a Hfiles)
      as [pdf [Hok [Hlen _]]].
    exists pdf. now split.
  - intros. now apply ExcelFacts.convert_sheet_on_error.
  - reflexivity.
  - intros. now apply convert_slide_on_error.
Qed.

Lemma sheet_exception_is_isolated_witness :
  (exists pdf, Excel.convert_archive false broken_sheet = Ok pdf /\
               (1 <= page_count pdf)%nat) /\
  (forall font ss d sheet_idx sheet_num sheet_path e,
     read_xml sheet_path broken_sheet = Raise e ->
     Excel.convert_sheet broken_sheet font ss d
                         (sheet_idx, (sheet_num, sheet_path)) =
     draw (page_count d)
       (Text Excel.margin (Excel.margin + 20)%Z
             (lit "Error: " ++ exn_msg e) 11 Helv Red)
       (draw (page_count d)
          (Text Excel.margin Excel.margin
                (lit "Sheet " ++ str_of_Z (sheet_idx + 1)) 12 font Black)
          (fst (new_page Excel.page_width Excel.page_height d)))) /\
  (forall font ss sheet rest d,
     fold_left (Excel.convert_sheet broken_sheet font ss) (sheet :: rest) d =
     fold_left (Excel.convert_sheet broken_sheet font ss) rest
               (Excel.convert_sheet broken_sheet font ss d sheet)) /\
  (forall deck font d slide_idx slide_num slide_path e,
     read_xml slide_path deck = Raise e ->
     Pptx.convert_slide deck font d (slide_idx, (slide_num, slide_path)) =
     draw (page_count d)
       (Text (inject_Z Pptx.margin) (inject_Z Pptx.margin)
             (lit "Error: " ++ exn_msg e) 11 Helv Red)
       (draw (page_count d)
          (Text (inject_Z (Pptx.page_width - Pptx.margin - 30))
                (inject_Z (Pptx.page_height - 20))
                (str_of_Z (slide_idx + 1)) 10 font Grey)
          (fst (new_page Pptx.page_width Pptx.page_height d)))).
Proof.
  apply (@sheet_exception_is_isolated false broken_sheet
           [(1%Z, lit "xl/worksheets/sheet1.xml")]).
  reflexivity.
Defined.

(** ** Corrupt containers *)

(** C4: a buffer that [zipfile] does not open as an archive makes each
    of the three container converters raise before any page exists, and
    no document is returned.  When the reader says it is no zip file,
    the spreadsheet and presentation converters raise their own
    invalid-file error; the word-processor converter, and any other
    error of the reader, pass the reader's error on. *)
Theorem corrupt_archive_fails ZipFile custom_font load_package
  input_bytes e :
  ZipFile input_bytes = Raise e ->
  Excel.convert_excel_to_pdf ZipFile custom_font input_bytes
    = Raise (match exn_cls e with
             | BadZipFile => err ValueError "Invalid XLSX file"
             | _ => e
             end) /\
  Pptx.convert_pptx_to_pdf ZipFile custom_font input_bytes
    = Raise (match exn_cls e with
             | BadZipFile => err ValueError "Invalid PPTX file"
             | _ => e
             end) /\
  Word.convert_word_to_pdf ZipFile load_package custom_font input_bytes
    = Raise e.
Proof.
  intros Hzip.
  unfold Excel.convert_excel_to_pdf, Pptx.convert_pptx_to_pdf,
         Word.convert_word_to_pdf, Word.Document.
  rewrite Hzip. simpl. destruct (exn_cls e); auto.
Qed.

Lemma corrupt_archive_fails_witness :
  Excel.convert_excel_to_pdf pk_only false [x00; x01]
    = Raise (err ValueError "Invalid XLSX file") /\
  Pptx.convert_pptx_to_pdf pk_only false [x00; x01]
    = Raise (err ValueError "Invalid PPTX file") /\
  Word.convert_word_to_pdf pk_only (fun _ => Ok gridless_table) false
                           [x00; x01]
    = Raise (err BadZipFile "File is not a zip file").
Proof.
  apply (@corrupt_archive_fails pk_only false (fun _ => Ok gridless_table)
           [x00; x01] (err BadZipFile "File is not a zip file")).
  reflexivity.
Defined.

(** ** Table rows *)

(** C7: a row of a sheet is drawn on one page.  With the column widths
    of the sheet, a row that does not fit above the bottom margin opens
    a fresh page before any of its cells is drawn; the row then adds
    exactly one box for every non-empty cell that has a column, in cell
    order, all on that one page, each starting at the sum of the widths
    of the columns before it, and the cursor moves down by the fixed
    [row_height].  A row of a word table
    is not drawn: after [ensure_space] has run once for the row, blank
    cells are passed over and the first cell with text raises at its
    [insert_textbox] call, with nothing drawn; only a row of blank
    cells completes, and it moves the cursor down by the fixed
    [row_height].  A document with such a table is not converted. *)
Theorem table_row_is_atomic :
  (forall font rows st row_data,
     let col_widths := Excel.column_widths rows in
     let st' := Excel.render_row font col_widths st row_data in
     Excel.page st' = Design.row_page st /\
     page_sizes (Excel.doc st')
     = (if (Excel.max_y <? Excel.y_position st + Excel.row_height)%Z
        then page_sizes (Excel.doc st)
             ++ [(Excel.page_width, Excel.page_height)]
        else page_sizes (Excel.doc st)) /\
     drawn (Excel.doc st')
     = drawn (Excel.doc st)
       ++ Design.row_boxes font (Design.row_page st) (Design.row_top st)
            Excel.margin row_data col_widths /\
     Forall (fun pc => fst pc = Design.row_page st)
       (Design.row_boxes font (Design.row_page st) (Design.row_top st)
          Excel.margin row_data col_widths) /\
     Excel.y_position st' = (Design.row_top st + Excel.row_height)%Z) /\
  (forall font col_width cells st,
   exists st1 p,
     Word.ensure_space Word.row_height st = (Ok tt, st1) /\
     Word.current_page st1 = Some p /\
     drawn (Word.pdf st1) = drawn (Word.pdf st) /\
     Word.layout_row font col_width cells st
     = if existsb Design.has_text cells
       then (Raise (err TypeError
               "insert_textbox() got an unexpected keyword argument 'width'"),
             st1)
       else (Ok tt,
             Word.mk_layout (Word.pdf st1) (Some p)
               (Word.y_position st1 + Word.row_height)%Q)) /\
  Word.convert_word_to_pdf (fun _ => Ok []) (fun _ => Ok two_cell_table)
                           false []
  = Raise (err TypeError
             "insert_textbox() got an unexpected keyword argument 'width'").
Proof.
  split; [|split].
  - intros font rows st row_data. cbv zeta.
    pose proof (ExcelFacts.render_row_boxes font (Excel.column_widths rows)
                  st row_data) as [Hp [Hs [Hd Hy]]].
    repeat split; try assumption.
    apply ExcelFacts.row_boxes_on_page.
  - intros. apply WordFacts.layout_row_outcome.
  - reflexivity.
Qed.

End ConverterFacts.

(* ================================================================== *)
(** * Page order                                                       *)
(* ================================================================== *)

Module OrderFacts.
Import Py Pdf Shape.

Lemma nondecreasing_app (l : list nat) (p : nat) :
  nondecreasing l -> Forall (fun i => i <= p)%nat l ->
  nondecreasing (l ++ [p]).
Proof.
  induction l as [|a l IH]; simpl; intros Hn Hle.
  - split; [constructor|exact I].
  - destruct Hn as [Ha Hn]. inversion Hle; subst. split.
    + apply Forall_app. split; [exact Ha|]. constructor; [assumption|constructor].
    + now apply IH.
Qed.

Lemma pages_in_order_open (num : Type) : pages_in_order (open num).
Proof. split; simpl; [exact I|constructor]. Qed.

Lemma pages_in_order_new_page {num} w h (d : Document num) :
  pages_in_order d -> pages_in_order (fst (new_page w h d)).
Proof.
  intros [Hn Hlt]. split; [exact Hn|].
  unfold page_indices, page_count in *. simpl. rewrite length_app. simpl.
  eapply Forall_impl; [|exact Hlt]. simpl. intros; lia.
Qed.

(** A draw call on the last page keeps the order. *)
Lemma pages_in_order_draw {num} p (c : DrawCommand num) d :
  pages_in_order d -> S p = page_count d -> pages_in_order (draw p c d).
Proof.
  intros [Hn Hlt] Hp. unfold pages_in_order, page_indices in *. simpl.
  rewrite map_app. simpl. split.
  - apply nondecreasing_app; [exact Hn|].
    eapply Forall_impl; [|exact Hlt]. simpl. intros; lia.
  - apply Forall_app. split; [exact Hlt|].
    constructor; [|constructor]. change (page_count (draw p c d)) with (page_count d). lia.
Qed.

Lemma pages_in_order_draw_all {num} p (cmds : list (PageHandle * DrawCommand num)) :
  forall d,
  pages_in_order d -> S p = page_count d ->
  Forall (fun pc => fst pc = p) cmds ->
  pages_in_order (mk_doc (page_sizes d) (drawn d ++ cmds)).
Proof.
  induction cmds as [|[q c] cmds IH]; intros d Hd Hp Hall.
  - rewrite app_nil_r. now destruct d.
  - inversion Hall as [|x l Hq Hrest]. simpl in Hq. subst.
    assert (Hstep : pages_in_order (draw p c d))
      by now apply pages_in_order_draw.
    specialize (IH (draw p c d) Hstep Hp Hrest). simpl in IH.
    now rewrite <- app_assoc in IH.
Qed.

End OrderFacts.

(* ================================================================== *)
(** * More on the spreadsheet converter                                *)
(* ================================================================== *)

Module SheetFacts.
Import Py Pdf Ooxml Excel Design Shape OrderFacts MoreSamples.
Local Open Scope Z_scope.

Ltac sheet_arith :=
  cbn [y_position doc page fst snd] in *;
  unfold max_y, row_height, fontsize, cell_padding, page_height, margin in *;
  lia.

(** ** Invariants of the render loop *)

Lemma row_boxes_in_band font p y x row_data col_widths cmds :
  margin <= y -> y + row_height <= max_y ->
  row_boxes_at font p y x row_data col_widths cmds ->
  Forall (fun pc => in_sheet_band (snd pc)) cmds /\
  Forall (fun pc => fst pc = p) cmds.
Proof.
  intros Hlo Hhi Hall. split; (eapply Forall_impl; [|exact Hall]).
  - intros [q c] [_ [i [cell [w [_ [_ [_ Hc]]]]]]]. simpl in *. subst c.
    unfold in_sheet_band in *. sheet_arith.
  - intros pc [Hq _]. exact Hq.
Qed.

Lemma render_cells_inv font p y x row_data col_widths d :
  S p = page_count d -> pages_in_order d ->
  Forall (fun pc => in_sheet_band (snd pc)) (drawn d) ->
  margin <= y -> y + row_height <= max_y ->
  S p = page_count (render_cells font p y x row_data col_widths d) /\
  pages_in_order (render_cells font p y x row_data col_widths d) /\
  Forall (fun pc => in_sheet_band (snd pc))
         (drawn (render_cells font p y x row_data col_widths d)).
Proof.
  intros Hp Hord Hband Hlo Hhi.
  destruct (ExcelFacts.render_cells_spec font p y row_data col_widths x d)
    as [cmds [Heq Hall]].
  destruct (row_boxes_in_band Hlo Hhi Hall) as [Hb Hq].
  rewrite Heq. split; [exact Hp|]. split.
  - now apply pages_in_order_draw_all with (p := p).
  - simpl. apply Forall_app. now split.
Qed.

Lemma render_row_inv font col_widths st row_data :
  sheet_inv st -> sheet_inv (render_row font col_widths st row_data).
Proof.
  intros [Hp [Hord [Hband Hy]]]. unfold render_row.
  destruct (max_y <? y_position st + row_height) eqn:Hbreak.
  - simpl.
    destruct (@render_cells_inv font (page_count (doc st)) margin margin
                row_data col_widths
                (fst (new_page page_width page_height (doc st))))
      as [H1 [H2 H3]].
    + unfold page_count. simpl. rewrite length_app. simpl. lia.
    + now apply pages_in_order_new_page.
    + exact Hband.
    + lia.
    + sheet_arith.
    + repeat split; try assumption; try apply H2.
      sheet_arith.
  - apply Z.ltb_ge in Hbreak. simpl.
    destruct (@render_cells_inv font (page st) (y_position st) margin
                row_data col_widths (doc st)) as [H1 [H2 H3]];
      try assumption.
    repeat split; try assumption; try apply H2.
    sheet_arith.
Qed.

Lemma fold_rows_inv font col_widths rows :
  forall st, sheet_inv st ->
  sheet_inv (fold_left (render_row font col_widths) rows st).
Proof.
  induction rows as [|r rows IH]; intros st Hst; simpl; [exact Hst|].
  apply IH. now apply render_row_inv.
Qed.

Lemma render_rows_inv font rows st :
  sheet_inv st -> sheet_inv (render_rows font rows st).
Proof.
  unfold render_rows. destruct rows; [auto|apply fold_rows_inv].
Qed.

Lemma convert_sheet_inv a font ss d sheet :
  doc_inv d -> doc_inv (convert_sheet a font ss d sheet).
Proof.
  intros [Hord Hband]. destruct sheet as [sheet_idx [sheet_num sheet_path]].
  unfold convert_sheet, sheet_body. simpl.
  set (d1 := draw (page_count d) _ _).
  assert (Hst : sheet_inv (mk_cursor d1 (page_count d) (margin + 20))).
  { subst d1. repeat split.
    - unfold page_count. simpl. rewrite length_app. simpl. lia.
    - apply pages_in_order_draw; [now apply pages_in_order_new_page|].
      unfold page_count. simpl. rewrite length_app. simpl. lia.
    - apply pages_in_order_draw; [now apply pages_in_order_new_page|].
      unfold page_count. simpl. rewrite length_app. simpl. lia.
    - simpl. apply Forall_app. split; [exact Hband|].
      constructor; [|constructor]. simpl.
      sheet_arith.
    - sheet_arith. }
  destruct (read_xml sheet_path a) as [root|e]; simpl.
  - destruct (ExcelFacts.sheet_rows_ok ss root) as [rows ->].
    destruct (render_rows_inv font rows Hst) as [_ [H2 [H3 _]]].
    now split.
  - destruct Hst as [Hp [H2 [H3 _]]]. simpl in *. split.
    + now apply pages_in_order_draw.
    + simpl. apply Forall_app. split; [exact H3|].
      constructor; [|constructor]. simpl.
      sheet_arith.
Qed.

Lemma fold_sheets_inv a font ss sheets :
  forall d, doc_inv d -> doc_inv (fold_left (convert_sheet a font ss) sheets d).
Proof.
  induction sheets as [|s sheets IH]; intros d Hd; simpl; [exact Hd|].
  apply IH. now apply convert_sheet_inv.
Qed.

Lemma convert_archive_inv custom_font a pdf :
  convert_archive custom_font a = Ok pdf -> doc_inv pdf.
Proof.
  unfold convert_archive. destruct (get_sheet_files a) as [files|e];
    simpl; [|discriminate].
  intros H. inversion H as [Hpdf]. clear H Hpdf.
  set (d := fold_left _ _ _).
  assert (Hd : doc_inv d).
  { apply fold_sheets_inv. split; [apply pages_in_order_open|constructor]. }
  destruct (Nat.eqb (page_count d) 0); [|exact Hd].
  destruct Hd as [Hord Hband]. split.
  - now apply pages_in_order_new_page.
  - exact Hband.
Qed.

(** ** Counting pages *)

Lemma page_count_render_cells font p y x row_data col_widths d :
  page_count (render_cells font p y x row_data col_widths d) = page_count d.
Proof.
  destruct (ExcelFacts.render_cells_spec font p y row_data col_widths x d)
    as [cmds [Heq _]].
  now rewrite Heq.
Qed.

Lemma render_row_pages font col_widths st row_data q r :
  (r < 30)%nat -> y_position st = y_at q r ->
  exists q' r',
    (r' < 30)%nat /\ (30 * q + r + 1 = 30 * q' + r')%nat /\
    y_position (render_row font col_widths st row_data) = y_at q' r' /\
    page_count (doc (render_row font col_widths st row_data))
    = (page_count (doc st) + (q' - q))%nat /\ (q <= q')%nat.
Proof.
  intros Hr Hy. unfold render_row.
  destruct (max_y <? y_position st + row_height) eqn:Hbreak.
  - apply Z.ltb_lt in Hbreak. exists (S q), 0%nat.
    cbn [y_position doc page fst snd new_page].
    rewrite page_count_render_cells.
    assert (r = 29)%nat.
    { unfold y_at in Hy. destruct (q =? 0)%nat; sheet_arith. }
    split; [lia|]. split; [lia|]. split; [|split; [|lia]].
    + unfold y_at. cbn [Nat.eqb]. sheet_arith.
    + unfold page_count. cbn [page_sizes]. rewrite length_app.
      cbn [List.length]. lia.
  - apply Z.ltb_ge in Hbreak. exists q, (S r).
    cbn [y_position doc page fst snd].
    rewrite page_count_render_cells.
    assert (r < 29)%nat.
    { unfold y_at in Hy. destruct (q =? 0)%nat; sheet_arith. }
    split; [lia|]. split; [lia|]. split; [|split; lia].
    rewrite Hy. unfold y_at. destruct (q =? 0)%nat; sheet_arith.
Qed.

Lemma fold_rows_pages font col_widths rows :
  forall st q r,
  (r < 30)%nat -> y_position st = y_at q r ->
  exists q' r',
    (r' < 30)%nat /\ (30 * q + r + List.length rows = 30 * q' + r')%nat /\
    page_count (doc (fold_left (render_row font col_widths) rows st))
    = (page_count (doc st) + (q' - q))%nat /\ (q <= q')%nat.
Proof.
  induction rows as [|row rows IH]; intros st q r Hr Hy.
  - exists q, r. simpl. repeat split; lia.
  - destruct (@render_row_pages font col_widths st row q r Hr Hy)
      as [q1 [r1 [Hr1 [Hsum [Hy1 [Hpc Hq]]]]]].
    destruct (IH (render_row font col_widths st row) q1 r1 Hr1 Hy1) as [q2 [r2 [Hr2 [Hsum2 [Hpc2 Hq2]]]]].
    exists q2, r2. simpl. rewrite Hpc2, Hpc. repeat split; lia.
Qed.

(** Rows laid out under a sheet header take one more page for every
    thirty of them. *)
Lemma render_rows_pages font rows st :
  y_position st = margin + 20 ->
  page_count (doc (render_rows font rows st))
  = (page_count (doc st) + List.length rows / 30)%nat.
Proof.
  intros Hy. unfold render_rows.
  assert (Hfold :
    page_count (doc (fold_left (render_row font (column_widths rows)) rows st))
    = (page_count (doc st) + List.length rows / 30)%nat).
  { destruct (@fold_rows_pages font (column_widths rows) rows st 0%nat 0%nat)
      as [q [r [Hr [Hsum [Hpc _]]]]]; [lia|exact Hy|].
    rewrite Hpc. f_equal. rewrite Nat.sub_0_r.
    apply (Nat.div_unique (List.length rows) 30 q r); lia. }
  destruct rows; [simpl; lia|exact Hfold].
Qed.

Lemma convert_sheet_pages a font ss d sheet_idx sheet_num sheet_path :
  page_count (convert_sheet a font ss d (sheet_idx, (sheet_num, sheet_path)))
  = (page_count d + sheet_pages (List.length (kept_rows a ss sheet_path)))%nat.
Proof.
  unfold convert_sheet, sheet_body, kept_rows, sheet_pages. simpl.
  destruct (read_xml sheet_path a) as [root|e]; simpl.
  - destruct (ExcelFacts.sheet_rows_ok ss root) as [rows ->].
    rewrite render_rows_pages by reflexivity. simpl.
    unfold page_count. simpl. rewrite length_app. simpl. lia.
  - unfold page_count. simpl. rewrite length_app. simpl. lia.
Qed.

Lemma fold_sheets_pages a font ss sheets :
  forall d,
  page_count (fold_left (convert_sheet a font ss) sheets d)
  = (page_count d
     + list_sum (map (fun s => sheet_pages
                          (List.length (kept_rows a ss (snd (snd s)))))
                     sheets))%nat.
Proof.
  induction sheets as [|[i [n path]] sheets IH]; intros d.
  - simpl. lia.
  - cbn [fold_left map]. rewrite IH, convert_sheet_pages.
    unfold list_sum. cbn [fold_right snd]. lia.
Qed.

(** ** Column widths and cells *)

Lemma length_raise_to i w col_widths :
  List.length (raise_to i w col_widths) = List.length col_widths.
Proof.
  revert i. induction col_widths as [|x t IH]; intros [|i]; simpl;
    try reflexivity. now rewrite IH.
Qed.

Lemma length_sample_row col_count r :
  forall i widths,
  List.length
    (fold_left
       (fun ws ic =>
          let '(i, cell) := ic in
          if i <? Z.of_nat col_count
          then raise_to (Z.to_nat i) (text_units cell) ws
          else ws)
       (enumerate_from i r) widths)
  = List.length widths.
Proof.
  induction r as [|cell r IH]; intros i widths; simpl; [reflexivity|].
  rewrite IH. destruct (i <? Z.of_nat col_count); [|reflexivity].
  apply length_raise_to.
Qed.

Lemma length_sampled col_count rows :
  forall widths,
  List.length
    (fold_left
       (fun widths r =>
          fold_left
            (fun ws ic =>
               let '(i, cell) := ic in
               if i <? Z.of_nat col_count
               then raise_to (Z.to_nat i) (text_units cell) ws
               else ws)
            (enumerate_from 0 r) widths)
       rows widths)
  = List.length widths.
Proof.
  induction rows as [|r rows IH]; intros widths; simpl; [reflexivity|].
  rewrite IH. apply length_sample_row.
Qed.

Lemma length_column_widths rows :
  List.length (column_widths rows) = max_len rows.
Proof.
  unfold column_widths. rewrite length_map, length_sampled.
  apply repeat_length.
Qed.

Lemma max_len_from (rows : list (list str)) :
  forall m,
  (m <= fold_left (fun m r => Nat.max m (List.length r)) rows m)%nat /\
  (forall r, In r rows ->
     (List.length r
      <= fold_left (fun m r => Nat.max m (List.length r)) rows m)%nat).
Proof.
  induction rows as [|r0 rows IH]; intros m; simpl.
  - split; [lia|intros r []].
  - destruct (IH (Nat.max m (List.length r0))) as [Hm Hin]. split; [lia|].
    intros r [->|Hr]; [lia|now apply Hin].
Qed.

Lemma row_within_columns (rows : list (list str)) r :
  In r rows -> (List.length r <= List.length (column_widths rows))%nat.
Proof.
  intros Hr. rewrite length_column_widths.
  now apply (proj2 (max_len_from rows 0)).
Qed.

Lemma render_cells_texts font p y row_data :
  forall col_widths x d,
  (List.length row_data <= List.length col_widths)%nat ->
  map (fun pc => text_of (snd pc))
      (drawn (render_cells font p y x row_data col_widths d))
  = map (fun pc => text_of (snd pc)) (drawn d) ++ filter truthy row_data.
Proof.
  induction row_data as [|cell cells IH]; intros col_widths x d Hlen.
  - simpl. now rewrite app_nil_r.
  - destruct col_widths as [|w ws]; [simpl in Hlen; lia|].
    simpl in Hlen. cbn [render_cells filter].
    rewrite IH by lia. destruct (truthy cell).
    + simpl. rewrite map_app. simpl. now rewrite <- app_assoc.
    + reflexivity.
Qed.

Lemma nth_raise_to col_widths :
  forall i w j,
  nth j (raise_to i w col_widths) 0
  = if ((j =? i)%nat && (i <? List.length col_widths)%nat)%bool
    then Z.max (nth i col_widths 0) w
    else nth j col_widths 0.
Proof.
  induction col_widths as [|x t IH]; intros [|i] w [|j]; simpl;
    try reflexivity.
  - now destruct (j =? i)%nat.
  - rewrite IH. reflexivity.
Qed.

(** One sampled row raises the entry of each of its cells, and no
    other. *)
Lemma nth_sample_row col_count r :
  forall k widths j,
  (k + List.length r <= col_count)%nat ->
  List.length widths = col_count ->
  nth j
    (fold_left
       (fun ws ic =>
          let '(i, cell) := ic in
          if i <? Z.of_nat col_count
          then raise_to (Z.to_nat i) (text_units cell) ws
          else ws)
       (enumerate_from (Z.of_nat k) r) widths) 0
  = if (k <=? j)%nat
    then match nth_error r (j - k) with
         | Some cell => Z.max (nth j widths 0) (text_units cell)
         | None => nth j widths 0
         end
    else nth j widths 0.
Proof.
  induction r as [|cell r IH]; intros k widths j Hk Hlen.
  - simpl. destruct (k <=? j)%nat; [|reflexivity].
    now destruct (j - k)%nat.
  - cbn [enumerate_from fold_left]. cbn [List.length] in Hk.
    replace (Z.of_nat k + 1) with (Z.of_nat (S k)) by lia.
    destruct (Z.ltb_spec (Z.of_nat k) (Z.of_nat col_count)) as [_|Hge];
      [|lia].
    rewrite Nat2Z.id, IH; [|lia|now rewrite length_raise_to].
    rewrite nth_raise_to.
    destruct (Nat.leb_spec (S k) j) as [Hj|Hj].
    + destruct (Nat.leb_spec k j) as [_|]; [|lia].
      destruct (Nat.eqb_spec j k) as [|_]; [lia|]. cbn [andb].
      replace (j - k)%nat with (S (j - S k)) by lia. reflexivity.
    + destruct (Nat.eqb_spec j k) as [->|Hne].
      * destruct (Nat.ltb_spec k (List.length widths)) as [_|]; [|lia].
        cbn [andb]. rewrite Nat.leb_refl, Nat.sub_diag. reflexivity.
      * cbn [andb]. destruct (Nat.leb_spec k j) as [|_]; [lia|].
        reflexivity.
Qed.

Lemma nth_sampled col_count rows :
  forall widths j,
  Forall (fun r => (List.length r <= col_count)%nat) rows ->
  List.length widths = col_count ->
  nth j
    (fold_left
       (fun widths r =>
          fold_left
            (fun ws ic =>
               let '(i, cell) := ic in
               if i <? Z.of_nat col_count
               then raise_to (Z.to_nat i) (text_units cell) ws
               else ws)
            (enumerate_from 0 r) widths)
       rows widths) 0
  = fold_left
      (fun m r =>
         match nth_error r j with
         | Some cell => Z.max m (text_units cell)
         | None => m
         end)
      rows (nth j widths 0).
Proof.
  induction rows as [|r rows IH]; intros widths j Hall Hlen;
    [reflexivity|].
  pose proof (Forall_inv Hall) as Hr.
  pose proof (Forall_inv_tail Hall) as Hrows. cbn [fold_left].
  rewrite IH; [|exact Hrows|now rewrite length_sample_row].
  f_equal.
  pose proof (@nth_sample_row col_count r 0 widths j) as Hrow.
  cbn [Z.of_nat Nat.leb Nat.add] in Hrow. rewrite Nat.sub_0_r in Hrow.
  now apply Hrow.
Qed.

Lemma sample_within_columns (rows : list (list str)) :
  Forall (fun r => (List.length r <= max_len rows)%nat) (firstn 50 rows).
Proof.
  apply Forall_forall. intros r Hr.
  apply (proj2 (max_len_from rows 0)).
  rewrite <- (firstn_skipn 50 rows). apply in_or_app. now left.
Qed.

Lemma nth_map_within A B (f : A -> B) (l : list A) :
  forall j d d',
  (j < List.length l)%nat -> nth j (map f l) d = f (nth j l d').
Proof.
  induction l as [|x l IH]; intros [|j] d d' Hj; simpl in *;
    try lia; [reflexivity|].
  apply IH. lia.
Qed.

(** X1: the widths of the columns of a sheet, column by column: there is
    one width per column of the longest row, and the width of column [j]
    is the widest estimate among the cells of that column in the first
    50 rows, raised to 40 and cut at 200.  Rows after the 50th do not
    count, and no row has more cells than there are widths. *)
Theorem column_widths_by_column (rows : list (list str)) :
  column_widths rows
  = map (fun j => Z.max (Z.min (widest (firstn 50 rows) j) 200) 40)
        (seq 0 (max_len rows)) /\
  Forall (fun w => 40 <= w <= 200) (column_widths rows) /\
  (forall r, In r rows -> (List.length r <= max_len rows)%nat).
Proof.
  split; [|split].
  - apply (nth_ext _ _ 0 0).
    + now rewrite length_column_widths, length_map, length_seq.
    + intros j Hj. rewrite length_column_widths in Hj.
      unfold column_widths.
      rewrite (@nth_map_within _ _ _ _ j 0 0)
        by now rewrite length_sampled, repeat_length.
      rewrite (@nth_map_within _ _ _ _ j 0 0%nat)
        by now rewrite length_seq.
      rewrite nth_sampled;
        [|apply sample_within_columns|apply repeat_length].
      rewrite nth_repeat, seq_nth by exact Hj. reflexivity.
  - unfold column_widths. apply Forall_map. apply Forall_forall.
    intros w _. lia.
  - intros r Hr. apply (proj2 (max_len_from rows 0)). exact Hr.
Qed.

(** X2: no cell is lost to the column limit: a row of the sheet gets one
    box for each of its non-empty cells, in order, with the cell's text. *)
Theorem every_cell_is_drawn font (rows : list (list str)) row_data st :
  In row_data rows ->
  map (fun pc => text_of (snd pc))
      (drawn (doc (render_row font (column_widths rows) st row_data)))
  = map (fun pc => text_of (snd pc)) (drawn (doc st))
    ++ filter truthy row_data.
Proof.
  intros Hr. pose proof (row_within_columns rows row_data Hr) as Hlen.
  unfold render_row.
  destruct (max_y <? y_position st + row_height); simpl;
    now rewrite render_cells_texts.
Qed.

Lemma every_cell_is_drawn_witness :
  map (fun pc => text_of (snd pc))
      (drawn (doc (render_row Helv
                     (column_widths [[lit "A"; []; lit "B"]; [lit "1"]])
                     (mk_cursor (mk_doc [(842, 595)] []) 0%nat 60)
                     [lit "A"; []; lit "B"])))
  = [] ++ filter truthy [lit "A"; []; lit "B"].
Proof.
  apply (@every_cell_is_drawn Helv [[lit "A"; []; lit "B"]; [lit "1"]]
           [lit "A"; []; lit "B"]
           (mk_cursor (mk_doc [(842, 595)] []) 0%nat 60)).
  simpl. auto.
Defined.

(** ** Shared strings *)

(** X3: a shared-string cell whose index lies inside the table gets the
    entry at that index; a negative index down to minus the length
    counts from the end of the table, as Python list indexing does. *)
Theorem shared_string_in_range ss c v_node v_text idx :
  get (lit "t") c = Some (lit "s") ->
  find_child v_tag c = Some v_node ->
  text v_node = Some v_text ->
  int_of_str v_text = Ok idx ->
  - Z.of_nat (List.length ss) <= idx < Z.of_nat (List.length ss) ->
  cell_value ss c
  = Ok (nth (Z.to_nat (idx mod Z.of_nat (List.length ss))) ss []).
Proof.
  intros Ht Hv Htx Hint Hrange.
  unfold cell_value, text_nonempty.
  rewrite Hv, Htx, (ExcelFacts.int_of_str_nonempty _ Hint), Ht.
  replace (str_eqb (lit "s") (lit "s")) with true by reflexivity.
  unfold shared_string_value. rewrite Hint. cbn [bind].
  destruct (Z.ltb_spec idx (Z.of_nat (List.length ss))) as [_|Hge]; [|lia].
  unfold list_index.
  set (n := Z.of_nat (List.length ss)) in *.
  assert (Hmod : (if idx <? 0 then idx + n else idx) = idx mod n).
  { destruct (Z.ltb_spec idx 0).
    - apply (Z.mod_unique idx n (-1) (idx + n)); lia.
    - symmetry. apply Z.mod_small. lia. }
  rewrite Hmod.
  assert (Hm : 0 <= idx mod n < n) by (apply Z.mod_pos_bound; lia).
  destruct (Z.leb_spec 0 (idx mod n)) as [_|]; [|lia].
  destruct (Z.ltb_spec (idx mod n) n) as [_|]; [|lia].
  cbn [andb try_except].
  destruct (nth_error ss (Z.to_nat (idx mod n))) as [s|] eqn:Hnth.
  - cbn [try_except]. f_equal. symmetry. now apply nth_error_nth.
  - apply nth_error_None in Hnth. subst n. lia.
Qed.

Lemma shared_string_in_range_witness :
  cell_value [lit "a"; lit "b"] (Samples.shared_cell (lit "-1"))
  = Ok (nth (Z.to_nat ((-1) mod Z.of_nat (List.length [lit "a"; lit "b"])))
            [lit "a"; lit "b"] []).
Proof.
  apply (@shared_string_in_range [lit "a"; lit "b"]
           (Samples.shared_cell (lit "-1"))
           (Elem v_tag [] (Some (lit "-1")) []) (lit "-1") (-1));
    try reflexivity.
  simpl. lia.
Defined.

(** ** The whole workbook *)

(** X4: every draw call of a converted workbook goes to an existing page,
    and no call goes to a page before that of an earlier call. *)
Theorem workbook_pages_in_order ZipFile custom_font input_bytes pdf :
  convert_excel_to_pdf ZipFile custom_font input_bytes = Ok pdf ->
  pages_in_order pdf.
Proof.
  unfold convert_excel_to_pdf.
  destruct (ZipFile input_bytes) as [a|e]; simpl.
  - intros H. exact (proj1 (convert_archive_inv custom_font a H)).
  - destruct (exn_cls e); discriminate.
Qed.

Lemma workbook_pages_in_order_witness :
  pages_in_order
    (mk_doc [(842, 595)]
       [(0%nat, Text 40 40 (lit "Sheet 1") 12 Helv Black);
        (0%nat, TextBox 42 62 78 76 (lit "A") 9 Helv);
        (0%nat, TextBox 82 62 118 76 (lit "B") 9 Helv);
        (0%nat, TextBox 42 79 78 93 (lit "1") 9 Helv);
        (0%nat, TextBox 82 79 118 93 (lit "2") 9 Helv)]).
Proof.
  apply (@workbook_pages_in_order open_small_workbook false []).
  reflexivity.
Defined.

(** X5: every text of a converted workbook lies between the top and the
    bottom margin of its page: headers and markers by their base line,
    cell boxes by their upper and lower edge. *)
Theorem workbook_rows_between_margins ZipFile custom_font input_bytes pdf :
  convert_excel_to_pdf ZipFile custom_font input_bytes = Ok pdf ->
  Forall (fun pc => in_sheet_band (snd pc)) (drawn pdf).
Proof.
  unfold convert_excel_to_pdf.
  destruct (ZipFile input_bytes) as [a|e]; simpl.
  - intros H. exact (proj2 (convert_archive_inv custom_font a H)).
  - destruct (exn_cls e); discriminate.
Qed.

Lemma workbook_rows_between_margins_witness :
  Forall (fun pc => in_sheet_band (snd pc))
    [(0%nat, Text 40 40 (lit "Sheet 1") 12 Helv Black);
     (0%nat, TextBox 42 62 78 76 (lit "A") 9 Helv);
     (0%nat, TextBox 82 62 118 76 (lit "B") 9 Helv);
     (0%nat, TextBox 42 79 78 93 (lit "1") 9 Helv);
     (0%nat, TextBox 82 79 118 93 (lit "2") 9 Helv)].
Proof.
  apply (@workbook_rows_between_margins open_small_workbook false []
           (mk_doc [(842, 595)]
              [(0%nat, Text 40 40 (lit "Sheet 1") 12 Helv Black);
               (0%nat, TextBox 42 62 78 76 (lit "A") 9 Helv);
               (0%nat, TextBox 82 62 118 76 (lit "B") 9 Helv);
               (0%nat, TextBox 42 79 78 93 (lit "1") 9 Helv);
               (0%nat, TextBox 82 79 118 93 (lit "2") 9 Helv)])).
  reflexivity.
Defined.

(** X6: the number of pages of a converted workbook: every sheet takes one
    page plus one more for every thirty rows it keeps (a sheet that
    cannot be read keeps none); a workbook without sheets gives one page. *)
Theorem workbook_page_count ZipFile custom_font input_bytes a files :
  ZipFile input_bytes = Ok a ->
  get_sheet_files a = Ok files ->
  exists pdf,
    convert_excel_to_pdf ZipFile custom_font input_bytes = Ok pdf /\
    page_count pdf
    = Nat.max 1
        (list_sum
           (map (fun f => sheet_pages
                   (List.length
                      (kept_rows a (read_shared_strings a) (snd f))))
                files)).
Proof.
  intros Hzip Hfiles. unfold convert_excel_to_pdf, convert_archive.
  rewrite Hzip. cbn [try_except bind]. rewrite Hfiles. cbn [bind].
  eexists. split; [reflexivity|].
  set (font := if custom_font then Custom else Helv).
  set (ss := read_shared_strings a).
  pose proof (fold_sheets_pages a font ss (enumerate_from 0 files) (open Z))
    as Hpc.
  change (page_count (open Z)) with 0%nat in Hpc. cbn [Nat.add] in Hpc.
  assert (Hsum : forall (l : list (Z * str)) i,
    list_sum (map (fun s => sheet_pages
                     (List.length (kept_rows a ss (snd (snd s)))))
                  (enumerate_from i l))
    = list_sum (map (fun f => sheet_pages
                       (List.length (kept_rows a ss (snd f)))) l)).
  { induction l as [|f l IH]; intros i; [reflexivity|].
    cbn [enumerate_from map]. unfold list_sum in *. cbn [fold_right snd].
    now rewrite IH. }
  rewrite Hsum in Hpc.
  set (total := list_sum _) in *.
  destruct (Nat.eqb_spec
              (page_count (fold_left (convert_sheet a font ss)
                             (enumerate_from 0 files) (open Z))) 0)
    as [Hz|Hnz].
  - unfold new_page_default, page_count in *. cbn [fst new_page page_sizes].
    rewrite length_app. cbn [List.length]. lia.
  - lia.
Qed.

Lemma workbook_page_count_witness :
  exists pdf,
    convert_excel_to_pdf open_small_workbook false [] = Ok pdf /\
    page_count pdf
    = Nat.max 1
        (list_sum
           (map (fun f => sheet_pages
                   (List.length
                      (kept_rows small_workbook
                         (read_shared_strings small_workbook) (snd f))))
                [(1, lit "xl/worksheets/sheet1.xml")])).
Proof.
  apply (@workbook_page_count open_small_workbook false [] small_workbook
           [(1, lit "xl/worksheets/sheet1.xml")]);
    reflexivity.
Defined.

End SheetFacts.

(* ================================================================== *)
(** * Worksheet and slide discovery                                    *)
(* ================================================================== *)

Module DiscoveryFacts.
Import Py Pdf Ooxml Shape MoreSamples.
Local Open Scope Z_scope.

(** ** The sort *)

Lemma insert_by_num_perm x l : Permutation (x :: l) (insert_by_num x l).
Proof.
  induction l as [|y t IH]; simpl; [apply Permutation_refl|].
  destruct (fst x <=? fst y); [apply Permutation_refl|].
  eapply Permutation_trans; [apply perm_swap|now apply perm_skip].
Qed.

Lemma sort_by_num_perm l : Permutation l (sort_by_num l).
Proof.
  induction l as [|x l IH]; simpl; [constructor|].
  eapply Permutation_trans; [apply perm_skip, IH|apply insert_by_num_perm].
Qed.

Lemma insert_by_num_sorted x l :
  StronglySorted by_number l -> StronglySorted by_number (insert_by_num x l).
Proof.
  induction 1 as [|y t Ht IH Hall]; simpl.
  - constructor; constructor.
  - destruct (Z.leb_spec (fst x) (fst y)) as [Hle|Hgt].
    + constructor; [now constructor|]. constructor; [exact Hle|].
      eapply Forall_impl; [|exact Hall]. unfold by_number. intros; lia.
    + constructor; [exact IH|].
      apply (Permutation_Forall (insert_by_num_perm x t)).
      constructor; [unfold by_number; lia|exact Hall].
Qed.

Lemma sort_by_num_sorted l : StronglySorted by_number (sort_by_num l).
Proof.
  induction l as [|x l IH]; simpl; [constructor|].
  now apply insert_by_num_sorted.
Qed.

Lemma insert_by_num_numbered k x l :
  numbered k (insert_by_num x l) = numbered k (x :: l).
Proof.
  unfold numbered. induction l as [|y t IH]; simpl; [reflexivity|].
  destruct (Z.leb_spec (fst x) (fst y)) as [Hle|Hgt]; [reflexivity|].
  simpl. rewrite IH. simpl.
  destruct (Z.eqb_spec (fst x) k), (Z.eqb_spec (fst y) k);
    try reflexivity. lia.
Qed.

Lemma sort_by_num_numbered k l : numbered k (sort_by_num l) = numbered k l.
Proof.
  induction l as [|x l IH]; simpl; [reflexivity|].
  rewrite insert_by_num_numbered. unfold numbered in *. simpl.
  now rewrite IH.
Qed.

(** ** The scan of the member names *)

Lemma numbered_members_names prefix stem names :
  forall files,
  numbered_members prefix stem names = Ok files ->
  map snd files = filter (is_numbered prefix stem) names /\
  Forall (fun f => exists ds, numbered_part stem (snd f) = Some ds /\
                              int_of_str ds = Ok (fst f)) files.
Proof.
  induction names as [|name rest IH]; intros files H.
  - inversion H; subst. split; [reflexivity|constructor].
  - cbn [numbered_members filter] in *. unfold is_numbered at 1.
    destruct (startswith prefix name && endswith (lit ".xml") name);
      [|cbn [andb]; now apply IH].
    destruct (numbered_part stem name) as [ds|] eqn:Hpart;
      [|cbn [andb]; now apply IH].
    cbn [andb].
    destruct (int_of_str ds) as [n|e] eqn:Hint; [|discriminate].
    cbn [bind] in H.
    destruct (numbered_members prefix stem rest) as [found|e];
      [|discriminate].
    cbn [bind] in H. inversion H; subst.
    destruct (IH found eq_refl) as [Hnames Hall]. split.
    + simpl. now rewrite Hnames.
    + constructor; [|exact Hall]. exists ds. now split.
Qed.

Lemma discovery_spec prefix stem names files :
  bind (numbered_members prefix stem names)
       (fun found => Ok (sort_by_num found)) = Ok files ->
  exists found, discovered prefix stem names found files.
Proof.
  destruct (numbered_members prefix stem names) as [found|e] eqn:Hscan;
    [|discriminate].
  cbn [bind]. intros H. inversion H; subst. exists found.
  destruct (numbered_members_names prefix stem names Hscan) as [Hn Hall].
  repeat split; try assumption.
  - apply sort_by_num_sorted.
  - apply sort_by_num_perm.
  - intros k. apply sort_by_num_numbered.
Qed.

(** X7: worksheets and slides are taken in the order of their numbers,
    whatever the order of the archive directory.  Both converters scan
    the member names the same way; the scan keeps, in directory order,
    exactly the members that pass the name test, each with the number
    its name spells; the result is that list sorted by number, with
    members of equal number in directory order. *)
Theorem parts_ordered_by_number prefix stem names files :
  bind (numbered_members prefix stem names)
       (fun found => Ok (sort_by_num found)) = Ok files ->
  (exists found, discovered prefix stem names found files) /\
  (forall a, Excel.get_sheet_files a
             = bind (numbered_members (lit "xl/worksheets/sheet") (lit "sheet")
                                      (namelist a))
                    (fun found => Ok (sort_by_num found))) /\
  (forall a, Pptx.get_slide_files a
             = bind (numbered_members (lit "ppt/slides/slide") (lit "slide")
                                      (namelist a))
                    (fun found => Ok (sort_by_num found))).
Proof.
  intros H. split; [now apply discovery_spec|]. split; reflexivity.
Qed.

Lemma parts_ordered_by_number_witness :
  (exists found,
     discovered (lit "ppt/slides/slide") (lit "slide")
       [lit "ppt/slides/slide10.xml"; lit "ppt/slides/slide2.xml";
        lit "ppt/slides/_rels/slide2.xml.rels"]
       found
       [(2%Z, lit "ppt/slides/slide2.xml");
        (10%Z, lit "ppt/slides/slide10.xml")]) /\
  (forall a, Excel.get_sheet_files a
             = bind (numbered_members (lit "xl/worksheets/sheet") (lit "sheet")
                                      (namelist a))
                    (fun found => Ok (sort_by_num found))) /\
  (forall a, Pptx.get_slide_files a
             = bind (numbered_members (lit "ppt/slides/slide") (lit "slide")
                                      (namelist a))
                    (fun found => Ok (sort_by_num found))).
Proof.
  apply (@parts_ordered_by_number (lit "ppt/slides/slide") (lit "slide")
           [lit "ppt/slides/slide10.xml"; lit "ppt/slides/slide2.xml";
            lit "ppt/slides/_rels/slide2.xml.rels"]
           [(2%Z, lit "ppt/slides/slide2.xml");
            (10%Z, lit "ppt/slides/slide10.xml")]).
  reflexivity.
Defined.

(** ** Names that spell a number *)

Lemma take_while_app p (l t : str) c :
  Forall (fun x => p x = true) l -> p c = false ->
  take_while p (l ++ c :: t) = l /\ drop_while p (l ++ c :: t) = c :: t.
Proof.
  intros Hl Hc. induction Hl as [|x l Hx Hl IH]; simpl.
  - now rewrite Hc.
  - rewrite Hx. destruct IH as [-> ->]. now split.
Qed.

Lemma startswith_app (p s : str) : startswith p (p ++ s) = true.
Proof.
  induction p as [|c p IH]; simpl; [reflexivity|].
  now rewrite N.eqb_refl, IH.
Qed.

Lemma numbered_part_spelled (pre ds : str) :
  ds <> [] -> Forall (fun c => is_decimal c = true) ds ->
  numbered_part (lit "sheet") (pre ++ lit "sheet" ++ ds ++ lit ".xml")
  = Some ds.
Proof.
  intros Hne Hds. unfold numbered_part.
  rewrite !rev_app_distr, <- !app_assoc.
  change (rev (lit ".xml")) with [108%N; 109%N; 120%N; 46%N].
  change (rev (lit "sheet")) with [116%N; 101%N; 101%N; 104%N; 115%N].
  cbn [app skipn].
  assert (Hrev : Forall (fun c => is_decimal c = true) (rev ds))
    by (apply Forall_rev; exact Hds).
  destruct (@take_while_app is_decimal (rev ds)
              ([101%N; 101%N; 104%N; 115%N] ++ rev pre) 116%N Hrev eq_refl)
    as [Htake Hdrop].
  cbn [app] in Htake, Hdrop. rewrite Htake, Hdrop.
  destruct (rev ds) as [|c r] eqn:Hr.
  - exfalso. apply Hne. rewrite <- (rev_involutive ds), Hr. reflexivity.
  - cbn [startswith N.eqb Pos.eqb andb]. rewrite <- Hr.
    now rewrite rev_involutive.
Qed.

(** X8: a member named [xl/worksheets/sheet<digits>.xml] is always taken as
    a worksheet, under the number its digits spell. *)
Theorem numbered_sheet_is_found (a : Archive) (ds : str) files :
  ds <> [] -> Forall (fun c => is_decimal c = true) ds ->
  In (lit "xl/worksheets/sheet" ++ ds ++ lit ".xml") (namelist a) ->
  Excel.get_sheet_files a = Ok files ->
  exists n, int_of_str ds = Ok n /\
            In (n, lit "xl/worksheets/sheet" ++ ds ++ lit ".xml") files.
Proof.
  intros Hne Hds Hin Hfiles.
  destruct (discovery_spec _ _ _ Hfiles)
    as [found [Hscan [Hnames [Hall [_ [Hperm _]]]]]].
  set (name := lit "xl/worksheets/sheet" ++ ds ++ lit ".xml") in *.
  assert (Hpart : numbered_part (lit "sheet") name = Some ds).
  { exact (@numbered_part_spelled (lit "xl/worksheets/") ds Hne Hds). }
  assert (Hok : is_numbered (lit "xl/worksheets/sheet") (lit "sheet") name
                = true).
  { unfold is_numbered. rewrite Hpart. subst name.
    rewrite startswith_app. unfold endswith. rewrite !rev_app_distr.
    reflexivity. }
  assert (Hfound : In name (map snd found)).
  { rewrite Hnames. apply filter_In. now split. }
  apply in_map_iff in Hfound. destruct Hfound as [[n nm] [Hnm Hf]].
  simpl in Hnm. subst nm.
  rewrite Forall_forall in Hall. destruct (Hall _ Hf) as [ds' [Hp' Hint]].
  simpl in Hp', Hint. rewrite Hpart in Hp'. inversion Hp'; subst ds'.
  exists n. split; [exact Hint|].
  apply (Permutation_in _ Hperm). exact Hf.
Qed.

Lemma numbered_sheet_is_found_witness :
  exists n, int_of_str (lit "1") = Ok n /\
            In (n, lit "xl/worksheets/sheet" ++ lit "1" ++ lit ".xml")
               [(1, lit "xl/worksheets/sheet1.xml")].
Proof.
  apply (@numbered_sheet_is_found small_workbook (lit "1")
           [(1, lit "xl/worksheets/sheet1.xml")]).
  - discriminate.
  - repeat constructor.
  - left. reflexivity.
  - reflexivity.
Defined.

End DiscoveryFacts.

(* ================================================================== *)
(** * More on the presentation converter                               *)
(* ================================================================== *)

Module DeckFacts.
Import Py Pdf Ooxml Pptx Shape Deck OrderFacts DiscoveryFacts MoreSamples.
Local Open Scope Q_scope.

(** ** Everything a slide draws goes to its own page *)














(** ** The text flow of a slide *)

Lemma flow_y_at_closed (y : Q) (k : nat) :
  flow_y_at y k == y + 18 * inject_Z (Z.of_nat k).
Proof.
  unfold flow_y_at. induction k as [|k IH].
  - simpl. ring.
  - rewrite Nat2Z.inj_succ. unfold Z.succ. rewrite inject_Z_plus.
    simpl Nat.iter. rewrite IH. ring.
Qed.

Lemma text_calls_app {num} (l1 l2 : list (PageHandle * DrawCommand num)) :
  text_calls (l1 ++ l2) = text_calls l1 ++ text_calls l2.
Proof. apply filter_app. Qed.

Lemma flow_calls_are_text font p y lines :
  forall k, text_calls (flow_calls font p y k lines)
            = flow_calls font p y k lines.
Proof.
  induction lines as [|l ls IH]; intros k; [reflexivity|].
  cbn [flow_calls]. unfold text_calls in *. cbn [filter snd]. now rewrite IH.
Qed.

Lemma flow_calls_app font p y l1 :
  forall k l2,
  flow_calls font p y k (l1 ++ l2)
  = flow_calls font p y k l1
    ++ flow_calls font p y (k + List.length l1) l2.
Proof.
  induction l1 as [|l ls IH]; intros k l2.
  - simpl. now rewrite Nat.add_0_r.
  - cbn [app flow_calls List.length]. rewrite IH.
    now rewrite Nat.add_succ_r.
Qed.

Lemma draw_flowed_spec font p y0 lines :
  forall k d,
  draw_flowed font p (flow_y_at y0 k) lines d
  = (mk_doc (page_sizes d) (drawn d ++ flow_calls font p y0 k lines),
     flow_y_at y0 (k + List.length lines)).
Proof.
  induction lines as [|l ls IH]; intros k d.
  - simpl. rewrite Nat.add_0_r, app_nil_r. now destruct d.
  - cbn [draw_flowed flow_calls List.length].
    change (flow_y_at y0 k + 18) with (flow_y_at y0 (S k)).
    rewrite IH. cbn [draw page_sizes drawn].
    now rewrite <- app_assoc, Nat.add_succ_r.
Qed.

Lemma draw_positioned_no_text font p lines :
  forall x y d,
  text_calls (drawn (draw_positioned font p x y lines d))
  = text_calls (drawn d).
Proof.
  induction lines as [|l ls IH]; intros x y d; [reflexivity|].
  cbn [draw_positioned]. rewrite IH. cbn [draw drawn].
  rewrite text_calls_app. cbn. now rewrite app_nil_r.
Qed.

Lemma draw_picture_no_text a rels p child d :
  text_calls (drawn (draw_picture a rels p child d)) = text_calls (drawn d).
Proof.
  unfold draw_picture.
  destruct (find_descendant _ child) as [blip|]; [|reflexivity].
  destruct (get embed_attr blip) as [embed_id|]; [|reflexivity].
  destruct (truthy embed_id); [|reflexivity].
  destruct (rel_target embed_id rels) as [img_path|]; [|reflexivity].
  destruct (has_member img_path a); [|reflexivity].
  destruct (picture_box a img_path child) as [c|e] eqn:Hbox; [|reflexivity].
  destruct (has_area c) eqn:Harea; [|reflexivity].
  destruct c; try discriminate.
  cbn [draw drawn]. rewrite text_calls_app. cbn. now rewrite app_nil_r.
Qed.

Lemma walk_shapes_flow a rels font p y0 shapes :
  forall k d d',
  walk_shapes a rels font p shapes (d, flow_y_at y0 k) = (d', None) ->
  text_calls (drawn d')
  = text_calls (drawn d)
    ++ flow_calls font p y0 k (flat_map flowed_lines shapes).
Proof.
  induction shapes as [|child rest IH]; intros k d d'.
  - cbn. intros [= <-]. now rewrite app_nil_r.
  - cbn [walk_shapes flat_map fst snd]. unfold flowed_lines at 1.
    destruct (endswith (lit "pic") (tag child)).
    + intros H. rewrite (IH _ _ _ H). cbn [app].
      now rewrite draw_picture_no_text.
    + destruct (endswith (lit "sp") (tag child)); [|apply IH].
      unfold draw_text_shape.
      destruct (find_child (ns_p ++ lit "txBody") child) as [txBody|];
        [|apply IH].
      destruct (text_content txBody) as [|l ls] eqn:Htext.
      * destruct (shape_offset child) as [[?|]|?]; apply IH.
      * destruct (shape_offset child) as [[[x y]|]|e]; cbn [bind].
        -- intros H. rewrite (IH _ _ _ H). cbn [app]. f_equal.
           apply (draw_positioned_no_text font p (l :: ls) x y d).
        -- rewrite <- Htext.
           rewrite (draw_flowed_spec font p y0 (text_content txBody) k d).
           intros H. rewrite (IH _ _ _ H). cbn [drawn].
           rewrite text_calls_app, flow_calls_are_text, flow_calls_app.
           now rewrite app_assoc.
        -- discriminate.
Qed.

(** X10: on a slide whose shapes are all read, the [insert_text] calls of
    the shapes are the text lines of the shapes without position, in
    shape order, each on the slide's page at the left margin in
    12 points: line [k] at [margin + 18 k], wherever pictures and
    positioned shapes stand between them and however many lines there
    are. *)
Theorem slide_text_flows_down a rels font slide_path page d d' root spTree :
  read_xml slide_path a = Ok root ->
  find_descendant (ns_p ++ lit "spTree") root = Some spTree ->
  slide_body a rels font slide_path page d = (d', None) ->
  text_calls (drawn d')
  = text_calls (drawn d)
    ++ flow_calls font page (inject_Z margin) 0
         (flat_map flowed_lines (children spTree)) /\
  forall k, flow_y_at (inject_Z margin) k
            == inject_Z margin + 18 * inject_Z (Z.of_nat k).
Proof.
  intros Hroot Htree. unfold slide_body. rewrite Hroot, Htree.
  intros H. split; [|intros k; apply flow_y_at_closed].
  exact (walk_shapes_flow a rels font page (inject_Z margin)
           (children spTree) 0 d H).
Qed.

Lemma slide_text_flows_down_witness :
  text_calls
    (drawn (mk_doc [(842, 595)%Z]
              [(0%nat, Text 40 40 (lit "Hello") 12 Helv Black);
               (0%nat, Text 40 (40 + 18) (lit "World") 12 Helv Black)]))
  = text_calls (drawn (mk_doc [(842, 595)%Z] []))
    ++ flow_calls Helv 0%nat (inject_Z margin) 0
         (flat_map flowed_lines (children hello_tree)) /\
  forall k, flow_y_at (inject_Z margin) k
            == inject_Z margin + 18 * inject_Z (Z.of_nat k).
Proof.
  apply (@slide_text_flows_down small_deck [] Helv
           (lit "ppt/slides/slide1.xml") 0%nat
           (mk_doc [(842, 595)%Z] []) _ hello_slide hello_tree);
    reflexivity.
Defined.

(** ** Relationships *)

Lemma collect_rels_spec good rest :
  Forall (fun rel => has_target rel = true) good ->
  match rest with
  | [] => True
  | rel :: _ => has_target rel = false
  end ->
  forall rels,
  collect_rels rels (good ++ rest)
  = rels ++ map (fun rel => (get (lit "Id") rel, target_of rel)) good.
Proof.
  intros Hgood Hrest. induction Hgood as [|rel good Hrel _ IH]; intros rels.
  - cbn [app map]. rewrite app_nil_r. destruct rest as [|rel rest]; [reflexivity|].
    cbn [collect_rels]. unfold has_target in Hrest.
    now destruct (get (lit "Target") rel).
  - cbn [app collect_rels map]. unfold has_target in Hrel.
    unfold target_of at 1, resolved.
    destruct (get (lit "Target") rel) as [t|]; [|discriminate].
    rewrite IH. now rewrite <- app_assoc.
Qed.

Lemma find_map_rels key (els : list element) :
  find (fun kv : option str * str =>
          match fst kv with Some k => str_eqb k key | None => false end)
       (map (fun rel => (get (lit "Id") rel, target_of rel)) els)
  = option_map (fun rel => (get (lit "Id") rel, target_of rel))
               (find (has_id key) els).
Proof.
  induction els as [|rel els IH]; [reflexivity|].
  cbn [map find fst]. unfold has_id at 1.
  destruct (get (lit "Id") rel) as [k|] eqn:Hid; [|exact IH].
  destruct (str_eqb k key); [|exact IH].
  cbn [option_map]. now rewrite Hid.
Qed.

(** X11: the relationships of a slide are kept up to the first element
    without a [Target]: that element and all after it are dropped, the
    ones before it stay.  An id then leads to the target of the last
    kept element that carries it, with a leading [../] resolved against
    [ppt/] and any other target as written. *)
Theorem relationships_keep_last_target key good rest :
  Forall (fun rel => has_target rel = true) good ->
  match rest with
  | [] => True
  | rel :: _ => has_target rel = false
  end ->
  rel_target key (collect_rels [] (good ++ rest))
  = option_map target_of (find (has_id key) (rev good)).
Proof.
  intros Hgood Hrest. rewrite (@collect_rels_spec good rest Hgood Hrest []).
  cbn [app]. unfold rel_target. rewrite <- map_rev, find_map_rels.
  now destruct (find (has_id key) (rev good)).
Qed.

Lemma relationships_keep_last_target_witness :
  rel_target (lit "rId1")
    (collect_rels [] (rels_twice ++ [rel_without_target; rel (lit "rId3") []]))
  = option_map target_of (find (has_id (lit "rId1")) (rev rels_twice)).
Proof.
  apply (@relationships_keep_last_target (lit "rId1") rels_twice
           [rel_without_target; rel (lit "rId3") []]).
  - repeat constructor.
  - reflexivity.
Defined.

Lemma missing_member_cannot_be_read name (a : Archive) :
  has_member name a = false -> exists e, read_xml name a = Raise e.
Proof.
  intros H. unfold read_xml, member_named.
  destruct (find (fun m => str_eqb (fst m) name) (rev a)) as [m|] eqn:Hf.
  - exfalso. apply find_some in Hf. destruct Hf as [Hin Heq].
    apply in_rev in Hin.
    assert (Hex : has_member name a = true).
    { unfold has_member, namelist. apply existsb_exists.
      exists (fst m). split; [now apply in_map|].
      unfold str_eqb in *.
      destruct (list_eq_dec N.eq_dec (fst m) name) as [->|]; [|discriminate].
      now destruct (list_eq_dec N.eq_dec name name). }
    congruence.
  - cbn [bind]. eauto.
Qed.

Lemma split_path (d : str) (c : N) (b : str) :
  is_slash c = false ->
  Forall (fun x => negb (is_slash x) = true) b ->
  dirname ((d ++ [c]) ++ lit "/" ++ b) = d ++ [c] /\
  basename ((d ++ [c]) ++ lit "/" ++ b) = b.
Proof.
  intros Hc Hb.
  assert (Hrev : rev ((d ++ [c]) ++ lit "/" ++ b)
                 = rev b ++ 47%N :: c :: rev d).
  { rewrite !rev_app_distr. cbn. now rewrite <- !app_assoc. }
  assert (Hb' : Forall (fun x => negb (is_slash x) = true) (rev b))
    by now apply Forall_rev.
  destruct (@take_while_app (fun x => negb (is_slash x)) (rev b)
              (c :: rev d) 47%N Hb' eq_refl) as [Htake Hdrop].
  unfold dirname, basename. rewrite Hrev, Htake, Hdrop. split.
  - cbn [forallb drop_while]. replace (is_slash 47) with true by reflexivity.
    rewrite Hc. cbn [andb].
    cbn [rev]. now rewrite rev_involutive.
  - apply rev_involutive.
Qed.

(** X12: the relationships of the part [b] of folder [d] are read from the
    part [d/_rels/b.rels].  When that part is missing, or cannot be read
    or parsed, the slide has no relationships and nothing is raised. *)
Theorem relationships_part_of_slide (a : Archive) (d : str) (c : N) (b : str) :
  is_slash c = false ->
  Forall (fun x => negb (is_slash x) = true) b ->
  get_relationships a ((d ++ [c]) ++ lit "/" ++ b)
  = match read_xml (rels_part (d ++ [c]) b) a with
    | Ok root => collect_rels [] (iter relationship_tag root)
    | Raise _ => []
    end.
Proof.
  intros Hc Hb. unfold get_relationships.
  destruct (@split_path d c b Hc Hb) as [-> ->].
  fold (rels_part (d ++ [c]) b).
  destruct (has_member (rels_part (d ++ [c]) b) a) eqn:Hm; [reflexivity|].
  destruct (@missing_member_cannot_be_read _ _ Hm) as [e ->]. reflexivity.
Qed.

Lemma relationships_part_of_slide_witness :
  get_relationships small_deck
    ((lit "ppt/slide" ++ [115%N]) ++ lit "/" ++ lit "slide1.xml")
  = match read_xml (rels_part (lit "ppt/slide" ++ [115%N]) (lit "slide1.xml"))
                   small_deck with
    | Ok root => collect_rels [] (iter relationship_tag root)
    | Raise _ => []
    end.
Proof.
  apply (@relationships_part_of_slide small_deck (lit "ppt/slide") 115%N
           (lit "slide1.xml")).
  - reflexivity.
  - repeat constructor.
Defined.

End DeckFacts.

(* ================================================================== *)
(** * More on the word-processor converter                             *)
(* ================================================================== *)

Module LayoutFacts.
Import Py Pdf Word Design Shape Page OrderFacts MoreSamples.
Local Open Scope Q_scope.
Local Open Scope word_scope.

Ltac page_consts :=
  unfold text_width, max_image_height, page_height, page_width, margin,
         row_height in *.

(** ** Statements that keep the invariant *)

Lemma preserves_ret {A} (a : A) : preserves (ret a).
Proof. intros st H. exact H. Qed.

Lemma preserves_mbind {A B} (m : M A) (k : A -> M B) :
  preserves m -> (forall a, preserves (k a)) -> preserves (mbind m k).
Proof.
  intros Hm Hk st H. unfold mbind. specialize (Hm st H).
  destruct (m st) as [[a|e] st1]; cbn [snd] in *.
  - now apply Hk.
  - exact Hm.
Qed.

Lemma preserves_for_each {A} (f : A -> M unit) (l : list A) :
  (forall x, preserves (f x)) -> preserves (for_each f l).
Proof.
  intros Hf. induction l as [|x l IH]; cbn [for_each].
  - apply preserves_ret.
  - apply preserves_mbind; [apply Hf|intros _; exact IH].
Qed.

Lemma preserves_advance (dy : Q) : 0 <= dy -> preserves (advance dy).
Proof.
  intros Hdy st [Hlast [Hord [Hsz [Hall Hy]]]].
  split; [exact Hlast|]. split; [exact Hord|]. split; [exact Hsz|].
  split; [exact Hall|]. cbn [advance snd y_position]. lra.
Qed.

Lemma after_new_page_inv st :
  pages_in_order (pdf st) ->
  Forall (fun s => s = (595, 842)%Z) (page_sizes (pdf st)) ->
  Forall (fun pc => well_placed (snd pc)) (drawn (pdf st)) ->
  word_inv (after_new_page st).
Proof.
  intros Hord Hsz Hall. split; [|split; [|split; [|split]]].
  - exists (page_count (pdf st)). split; [reflexivity|].
    unfold after_new_page, page_count. cbn. rewrite length_app. cbn. lia.
  - exact (pages_in_order_new_page 595 842 Hord).
  - cbn. apply Forall_app. split; [exact Hsz|]. repeat constructor.
  - exact Hall.
  - cbn [after_new_page y_position]. lra.
Qed.

(** After [ensure_space h] a block of height [h] that fits a page ends
    above the bottom margin. *)
Lemma ensure_space_inv (h : Q) st :
  word_inv st ->
  exists st1 p,
    ensure_space h st = (Ok tt, st1) /\
    current_page st1 = Some p /\
    word_inv st1 /\
    (h <= page_height - 2 * margin ->
     y_position st1 + h <= page_height - margin).
Proof.
  intros Hinv. pose proof Hinv as [[p [Hp Hlast]] [Hord [Hsz [Hall Hy]]]].
  rewrite (WordFacts.ensure_space_on_page h st Hp).
  assert (Hnew : word_inv (after_new_page st))
    by now apply after_new_page_inv.
  destruct (gt h (page_height - 2 * margin)) eqn:Hbig.
  - apply WordFacts.gt_iff in Hbig.
    destruct (gt (y_position st) margin).
    + exists (after_new_page st), (page_count (pdf st)).
      split; [reflexivity|]. split; [reflexivity|]. split; [exact Hnew|].
      intros; lra.
    + exists st, p.
      split; [reflexivity|]. split; [exact Hp|]. split; [exact Hinv|].
      intros; lra.
  - apply WordFacts.gt_false_iff in Hbig.
    destruct (gt (y_position st + h) (page_height - margin)) eqn:Hover.
    + exists (after_new_page st), (page_count (pdf st)).
      split; [reflexivity|]. split; [reflexivity|]. split; [exact Hnew|].
      intros _. cbn [after_new_page y_position]. page_consts. lra.
    + apply WordFacts.gt_false_iff in Hover.
      exists st, p.
      split; [reflexivity|]. split; [exact Hp|]. split; [exact Hinv|].
      intros _. exact Hover.
Qed.

Lemma preserves_ensure_space h : preserves (ensure_space h).
Proof.
  intros st H. destruct (ensure_space_inv h H) as [st1 [p [-> [_ [H1 _]]]]].
  exact H1.
Qed.

(** A well-placed draw call on the held page keeps the invariant. *)
Lemma draw_inv (c : DrawCommand Q) st p :
  word_inv st -> current_page st = Some p -> well_placed c ->
  word_inv (mk_layout (draw p c (pdf st)) (Some p) (y_position st)).
Proof.
  intros [[q [Hq Hlast]] [Hord [Hsz [Hall Hy]]]] Hp Hc.
  rewrite Hp in Hq. injection Hq as <-.
  split; [|split; [|split; [|split]]].
  - exists p. split; [reflexivity|exact Hlast].
  - now apply pages_in_order_draw.
  - exact Hsz.
  - cbn. apply Forall_app. split; [exact Hall|].
    constructor; [exact Hc|constructor].
  - exact Hy.
Qed.

(** ** Text lines *)

Lemma put_line_inv font lineheight fontsize line_buf :
  0 <= inject_Z fontsize -> inject_Z fontsize <= lineheight ->
  lineheight <= page_height - 2 * margin ->
  preserves (put_line font lineheight fontsize line_buf).
Proof.
  intros Hfs Hlh Hfit st H.
  destruct (ensure_space_inv lineheight H) as [st1 [p [He [Hp [H1 Hroom]]]]].
  specialize (Hroom Hfit).
  assert (Hy : margin <= y_position st1) by apply H1.
  unfold put_line, mbind, get_y, on_page. rewrite He, Hp. cbn [snd advance].
  apply (@preserves_advance lineheight); [lra|].
  apply draw_inv; try assumption. cbn [well_placed]. split; lra.
Qed.

Lemma flush_text_inv font lineheight text fontsize :
  0 <= inject_Z fontsize -> inject_Z fontsize <= lineheight ->
  lineheight <= page_height - 2 * margin ->
  preserves (flush_text font lineheight text fontsize).
Proof.
  intros Hfs Hlh Hfit st H. unfold flush_text.
  destruct (truthy text); [|exact H].
  rewrite WordFacts.flush_words_greedy.
  apply preserves_for_each; [|exact H].
  intros line. now apply put_line_inv.
Qed.

(** ** Images *)

Lemma insert_image_inv x0 y0 x1 y1 part st :
  word_inv st -> y0 = y_position st ->
  word_inv (snd (insert_image x0 y0 x1 y1 part st)) /\
  (forall st', insert_image x0 y0 x1 y1 part st = (Ok tt, st') -> y0 < y1).
Proof.
  intros H Hy0. pose proof H as [[p [Hp _]] [_ [_ [_ Hy]]]].
  unfold insert_image. rewrite Hp.
  destruct (part_blob part) as [|b bs]; [split; [exact H|discriminate]|].
  destruct (Qle_bool x1 x0); [split; [exact H|discriminate]|].
  destruct (Qle_bool y1 y0) eqn:Ey; [split; [exact H|discriminate]|].
  assert (Hlt : y0 < y1).
  { apply Qnot_le_lt. intros Hle. apply Qle_bool_iff in Hle. congruence. }
  cbn [orb].
  destruct (is_image part); [|split; [exact H|discriminate]].
  split; [|intros; exact Hlt].
  cbn [snd]. apply draw_inv; try assumption.
  cbn [well_placed]. split; [rewrite Hy0; exact Hy|exact Hlt].
Qed.

Lemma place_image_inv target_part embed d :
  preserves (place_image target_part embed d).
Proof.
  intros st H. unfold place_image, try_pass.
  unfold mbind at 1. unfold lift at 1.
  destruct (target_part embed) as [part|e]; [|exact H].
  unfold mbind at 1. unfold lift at 1.
  destruct (extent_size d) as [[cx cy]|e]; [|exact H].
  cbn [fst snd].
  destruct (scale_image (emu_to_pt cx) (emu_to_pt cy)) as [w h].
  destruct (ensure_space_inv (h + 10) H) as [st1 [p [He [Hp [H1 _]]]]].
  unfold mbind at 1. rewrite He.
  unfold mbind at 1. unfold get_y at 1.
  destruct (@insert_image_inv (margin + (text_width - w) / 2) (y_position st1)
              (margin + (text_width - w) / 2 + w) (y_position st1 + h)
              part st1 H1 eq_refl) as [Hins Hpos].
  unfold mbind.
  destruct (insert_image _ _ _ _ part st1) as [[[]|e] st2] eqn:Hrun;
    cbn [snd] in Hins.
  - specialize (Hpos st2 eq_refl).
    assert (Hadv := @preserves_advance (h + 5) ltac:(lra) st2 Hins).
    destruct (advance (h + 5) st2) as [[[]|e] st3]; exact Hadv.
  - exact Hins.
Qed.

Lemma place_drawings_inv target_part ds :
  preserves (place_drawings target_part ds).
Proof.
  unfold place_drawings. apply preserves_for_each. intros d.
  destruct (embed_id d) as [embed|]; [|apply preserves_ret].
  destruct (truthy embed); [|apply preserves_ret].
  apply place_image_inv.
Qed.

(** ** Paragraphs *)

Lemma fontsize_of_style_range (name : str) :
  (11 <= fontsize_of_style name <= 18)%Z.
Proof.
  unfold fontsize_of_style.
  destruct (find _ heading_fontsizes) as [kv|] eqn:Hf; [|lia].
  apply find_some in Hf. destruct Hf as [Hin _].
  cbn in Hin.
  repeat (destruct Hin as [<-|Hin]; [cbn; lia|]). contradiction.
Qed.

Lemma walk_runs_inv font target_part base_fontsize lineheight rs :
  0 <= inject_Z base_fontsize -> inject_Z base_fontsize <= lineheight ->
  lineheight <= page_height - 2 * margin ->
  forall current_line_text,
  preserves (walk_runs font target_part base_fontsize lineheight rs
                       current_line_text).
Proof.
  intros Hfs Hlh Hfit. induction rs as [|r rest IH]; intros text.
  - apply preserves_ret.
  - cbn [walk_runs]. apply preserves_mbind; [|intros text'; apply IH].
    destruct (drawings r) as [|d ds]; [apply preserves_ret|].
    apply preserves_mbind.
    + destruct (truthy text); [|apply preserves_ret].
      apply preserves_mbind; [now apply flush_text_inv|].
      intros _. apply preserves_ret.
    + intros text'. apply preserves_mbind; [|intros _; apply preserves_ret].
      apply place_drawings_inv.
Qed.

Lemma layout_paragraph_inv font target_part para :
  preserves (layout_paragraph font target_part para).
Proof.
  unfold layout_paragraph.
  set (fs := fontsize_of_style _).
  assert (Hr : (11 <= fs <= 18)%Z) by apply fontsize_of_style_range.
  assert (H11 : 11 <= inject_Z fs).
  { change 11 with (inject_Z 11). rewrite <- Zle_Qle. lia. }
  assert (H18 : inject_Z fs <= 18).
  { change 18 with (inject_Z 18). rewrite <- Zle_Qle. lia. }
  assert (Hfit : inject_Z fs * 1.4 <= page_height - 2 * margin)
    by (page_consts; lra).
  apply preserves_mbind.
  - apply walk_runs_inv; try assumption; lra.
  - intros text. apply preserves_mbind.
    + destruct (truthy text); [|apply preserves_ret].
      apply flush_text_inv; try assumption; lra.
    + intros _. apply preserves_advance. lra.
Qed.

(** ** Tables *)

Lemma layout_row_inv font col_width cells :
  preserves (layout_row font col_width cells).
Proof.
  intros st H.
  destruct (WordFacts.layout_row_outcome font col_width cells st)
    as [st1 [p [He [Hp [_ ->]]]]].
  destruct (ensure_space_inv row_height H) as [st1' [p' [He' [_ [H1 _]]]]].
  rewrite He in He'. injection He' as <-.
  destruct (existsb has_text cells); cbn [snd]; [exact H1|].
  destruct H1 as [Hlast [Hord [Hsz [Hall Hy]]]].
  split; [|split; [exact Hord|split; [exact Hsz|split; [exact Hall|]]]].
  - destruct Hlast as [q [Hq Hlast]]. rewrite Hp in Hq.
    injection Hq as <-. exists p. now split.
  - cbn [y_position]. page_consts. lra.
Qed.

Lemma layout_table_inv font t : preserves (layout_table font t).
Proof.
  unfold layout_table. apply preserves_mbind.
  - apply preserves_for_each. intros row. apply layout_row_inv.
  - intros _. apply preserves_advance. lra.
Qed.

Lemma layout_element_inv font target_part e :
  preserves (layout_element font target_part e).
Proof.
  destruct e as [para|t|]; cbn [layout_element].
  - apply layout_paragraph_inv.
  - apply layout_table_inv.
  - apply preserves_ret.
Qed.

(** ** The whole document *)

Lemma convert_word_inv ZipFile load_package custom_font input_bytes pdf :
  convert_word_to_pdf ZipFile load_package custom_font input_bytes = Ok pdf ->
  exists st, pdf = Word.pdf st /\ word_inv st.
Proof.
  unfold convert_word_to_pdf.
  destruct (Word.Document ZipFile load_package input_bytes) as [doc|e];
    [|discriminate].
  cbn [bind].
  set (font := if custom_font then Custom else Helv).
  set (start := mk_layout (open Q) None margin).
  assert (Hstart : word_inv (after_new_page start)).
  { apply after_new_page_inv.
    - apply pages_in_order_open.
    - constructor.
    - constructor. }
  assert (Hbody : preserves
            (for_each (layout_element font (target_part doc)) (body doc))).
  { apply preserves_for_each. intros e. apply layout_element_inv. }
  unfold mbind at 1. change (new_page start)
    with (Ok (page_count (Word.pdf start)), after_new_page start).
  cbv beta iota.
  specialize (Hbody _ Hstart).
  destruct (for_each _ (body doc) (after_new_page start)) as [[[]|e] st];
    [|discriminate].
  intros [= <-]. exists st. split; [reflexivity|exact Hbody].
Qed.

(** X13: a converted word document has at least one page, all pages are A4
    portrait, every draw call goes to an existing page and none goes to
    a page before that of an earlier call: the content is never laid
    out backwards, whatever the document holds. *)
Theorem word_pages_in_order ZipFile load_package custom_font input_bytes pdf :
  convert_word_to_pdf ZipFile load_package custom_font input_bytes = Ok pdf ->
  (1 <= page_count pdf)%nat /\
  Forall (fun s => s = (595, 842)%Z) (page_sizes pdf) /\
  pages_in_order pdf.
Proof.
  intros H. destruct (convert_word_inv _ _ _ _ H) as [st [-> Hinv]].
  destruct Hinv as [[p [_ Hp]] [Hord [Hsz _]]].
  split; [lia|]. split; assumption.
Qed.

Lemma word_pages_in_order_witness :
  (1 <= page_count converted_letter)%nat /\
  Forall (fun s => s = (595, 842)%Z) (page_sizes converted_letter) /\
  pages_in_order converted_letter.
Proof.
  apply (@word_pages_in_order open_empty load_letter false []
           converted_letter).
  reflexivity.
Defined.

(** X14: in a converted word document every text has its base line between
    the top and the bottom margin, every image starts at or below the
    top margin and has positive height, and there is no text box: a
    table cell with text never gets drawn. *)
Theorem word_content_well_placed ZipFile load_package custom_font
  input_bytes pdf :
  convert_word_to_pdf ZipFile load_package custom_font input_bytes = Ok pdf ->
  Forall (fun pc => well_placed (snd pc)) (drawn pdf).
Proof.
  intros H. destruct (convert_word_inv _ _ _ _ H) as [st [-> Hinv]].
  apply Hinv.
Qed.

Lemma word_content_well_placed_witness :
  Forall (fun pc => well_placed (snd pc)) (drawn converted_letter).
Proof.
  apply (@word_content_well_placed open_empty load_letter false []
           converted_letter).
  reflexivity.
Defined.

(** ** Tables with text *)

Lemma for_each_raises {A} (f : A -> M unit) (l : list A) :
  Exists (fun x => forall st, exists e st', f x st = (Raise e, st')) l ->
  forall st, exists e st', for_each f l st = (Raise e, st').
Proof.
  induction 1 as [x l Hx|x l _ IH]; intros st; cbn [for_each]; unfold mbind.
  - destruct (Hx st) as [e [st' ->]]. eauto.
  - destruct (f x st) as [[[]|e] st']; [apply IH|eauto].
Qed.

Lemma layout_table_raises font t :
  existsb (existsb has_text) (rows t) = true ->
  forall st, exists e st', layout_table font t st = (Raise e, st').
Proof.
  intros Ht st. unfold layout_table.
  set (col_width := if (0 <? columns t)%nat then _ else _).
  assert (Hrows : Exists (fun cells => forall s, exists e s',
                     layout_row font col_width cells s = (Raise e, s'))
                    (rows t)).
  { apply existsb_exists in Ht. destruct Ht as [cells [Hin Hc]].
    apply Exists_exists. exists cells. split; [exact Hin|].
    intros s.
    destruct (WordFacts.layout_row_outcome font col_width cells s)
      as [s1 [p [_ [_ [_ ->]]]]].
    rewrite Hc. eauto. }
  destruct (for_each_raises _ Hrows st) as [e [st' Hrun]].
  unfold mbind. rewrite Hrun. eauto.
Qed.

(** X15: no document with text in a table is converted: whatever else the
    document holds, the conversion ends with an exception and returns
    nothing. *)
Theorem word_table_with_text_never_converts ZipFile load_package custom_font
  input_bytes doc :
  Word.Document ZipFile load_package input_bytes = Ok doc ->
  existsb table_with_text (body doc) = true ->
  is_ok (convert_word_to_pdf ZipFile load_package custom_font input_bytes)
  = false.
Proof.
  intros Hdoc Ht. unfold convert_word_to_pdf. rewrite Hdoc. cbn [bind].
  set (font := if custom_font then Custom else Helv).
  assert (Hbody : Exists (fun el => forall s, exists e s',
                     layout_element font (target_part doc) el s
                     = (Raise e, s')) (body doc)).
  { apply existsb_exists in Ht. destruct Ht as [el [Hin Hel]].
    apply Exists_exists. exists el. split; [exact Hin|].
    destruct el as [para|t|]; try discriminate.
    cbn [layout_element]. now apply layout_table_raises. }
  unfold mbind at 1.
  destruct (new_page (mk_layout (open Q) None margin)) as [[p|e] st1];
    [|reflexivity].
  destruct (for_each_raises _ Hbody st1) as [e [st' ->]]. reflexivity.
Qed.

Lemma word_table_with_text_never_converts_witness :
  is_ok (convert_word_to_pdf open_empty load_two_cell_table false [])
  = false.
Proof.
  apply (@word_table_with_text_never_converts open_empty load_two_cell_table
           false [] Samples.two_cell_table);
    reflexivity.
Defined.

(** ** Asking for room twice *)

Lemma ensure_space_twice_on_page (h : Q) st p :
  current_page st = Some p ->
  (ensure_space h ;; ensure_space h) st = ensure_space h st.
Proof.
  intros Hp. unfold mbind.
  rewrite (WordFacts.ensure_space_on_page h st Hp).
  destruct (gt h (page_height - 2 * margin)) eqn:Hbig.
  - destruct (gt (y_position st) margin) eqn:Hlow.
    + rewrite (WordFacts.ensure_space_on_page h (after_new_page st) eq_refl).
      rewrite Hbig. reflexivity.
    + rewrite (WordFacts.ensure_space_on_page h st Hp).
      now rewrite Hbig, Hlow.
  - destruct (gt (y_position st + h) (page_height - margin)) eqn:Hover.
    + rewrite (WordFacts.ensure_space_on_page h (after_new_page st) eq_refl).
      rewrite Hbig.
      assert (Hfit : gt (y_position (after_new_page st) + h)
                        (page_height - margin) = false).
      { apply WordFacts.gt_false_iff.
        apply WordFacts.gt_false_iff in Hbig.
        cbn [after_new_page y_position]. page_consts. lra. }
      now rewrite Hfit.
    + rewrite (WordFacts.ensure_space_on_page h st Hp).
      now rewrite Hbig, Hover.
Qed.

(** X16: asking for the same room twice is asking once: whatever the state,
    the second of two [ensure_space] calls for the same height changes
    nothing, so a block never pushes itself over more than one page
    break. *)
Theorem ensure_space_idempotent (h : Q) (st : layout) :
  (ensure_space h ;; ensure_space h) st = ensure_space h st.
Proof.
  destruct (current_page st) as [p|] eqn:Hp.
  - now apply ensure_space_twice_on_page with p.
  - unfold mbind. rewrite (WordFacts.ensure_space_no_page h st Hp).
    apply (@ensure_space_twice_on_page h (after_new_page st)
             (page_count (pdf st)) eq_refl).
Qed.

(** ** Wrapping keeps the words *)

Lemma split_ws_aux_nonempty s :
  forall cur, Forall (fun w => w <> []) (split_ws_aux cur s).
Proof.
  induction s as [|c t IH]; intros cur; cbn [split_ws_aux].
  - destruct cur as [|x cur]; constructor; [|constructor].
    intros H. apply (f_equal (@List.length N)) in H.
    cbn in H. rewrite length_app in H. cbn in H. lia.
  - destruct (isspace c); [|apply IH].
    destruct cur as [|x cur]; [apply IH|]. constructor; [|apply IH].
    intros H. apply (f_equal (@List.length N)) in H.
    cbn in H. rewrite length_app in H. cbn in H. lia.
Qed.

Lemma greedy_wrap_flushes fs w words :
  forall buf, buf <> [] -> greedy_wrap fs w words buf <> [].
Proof.
  induction words as [|word rest IH]; intros buf Hb.
  - destruct buf; [contradiction|discriminate].
  - destruct buf as [|c buf]; [contradiction|]. cbn [greedy_wrap].
    destruct (Qlt_le_dec _ _); [discriminate|]. apply IH. discriminate.
Qed.

Lemma join_words_cons (w : str) (l : list str) :
  l <> [] -> join_words (w :: l) = w ++ 32%N :: join_words l.
Proof.
  destruct l as [|x l]; [contradiction|]. intros _. reflexivity.
Qed.

Lemma greedy_wrap_joins fs w words :
  Forall (fun x => x <> []) words ->
  forall buf,
  join_words (greedy_wrap fs w words buf)
  = match buf with
    | [] => join_words words
    | _ => join_words (buf :: words)
    end.
Proof.
  induction 1 as [|word rest Hw _ IH]; intros buf.
  - destruct buf; cbn; [reflexivity|now rewrite app_nil_r].
  - destruct buf as [|c buf].
    + cbn [greedy_wrap]. rewrite IH.
      destruct word; [contradiction|reflexivity].
    + cbn [greedy_wrap]. destruct (Qlt_le_dec _ _).
      * rewrite join_words_cons by (now apply greedy_wrap_flushes).
        rewrite IH. destruct word; [contradiction|reflexivity].
      * rewrite IH. cbn [app]. unfold join_words. cbn [flat_map app].
        f_equal. now rewrite <- app_assoc.
Qed.

Lemma greedy_wrap_fits fs words :
  forall buf,
  (buf = [] \/ estimated_width fs buf <= text_width \/ In buf words) ->
  Forall (fun line => estimated_width fs line <= text_width \/ In line words)
         (greedy_wrap fs text_width words buf).
Proof.
  assert (Hgen : forall ws buf,
    incl ws words ->
    (buf = [] \/ estimated_width fs buf <= text_width \/ In buf words) ->
    Forall (fun line => estimated_width fs line <= text_width \/ In line words)
           (greedy_wrap fs text_width ws buf)).
  { induction ws as [|word rest IH]; intros buf Hincl Hbuf.
    - destruct buf as [|c buf]; cbn; [constructor|].
      constructor; [|constructor].
      destruct Hbuf as [Hb|Hb]; [discriminate|exact Hb].
    - assert (Hrest : incl rest words)
        by (intros x Hx; apply Hincl; now right).
      assert (Hword : In word words) by (apply Hincl; now left).
      destruct buf as [|c buf]; cbn [greedy_wrap].
      + apply IH; [exact Hrest|]. right. now right.
      + destruct (Qlt_le_dec _ _) as [Hlt|Hle].
        * constructor.
          -- destruct Hbuf as [Hb|Hb]; [discriminate|exact Hb].
          -- apply IH; [exact Hrest|]. right. now right.
        * apply IH; [exact Hrest|]. right. now left. }
  intros buf. apply Hgen. apply incl_refl.
Qed.

Lemma put_lines_spec font lineheight fontsize lines :
  forall st,
  exists st',
    for_each (put_line font lineheight fontsize) lines st = (Ok tt, st') /\
    texts (drawn (pdf st')) = texts (drawn (pdf st)) ++ lines.
Proof.
  induction lines as [|line rest IH]; intros st.
  - exists st. split; [reflexivity|]. now rewrite app_nil_r.
  - destruct (WordFacts.put_line_spec font lineheight fontsize line st)
      as [st1 [p [He [Hp Hput]]]].
    destruct (WordFacts.ensure_space_ok lineheight st)
      as [st1' [p' [He' [_ Hd]]]].
    rewrite He in He'. injection He' as <-.
    cbn [for_each]. unfold mbind. rewrite Hput.
    destruct (IH (mk_layout
                    (draw p (Text margin (y_position st1 + inject_Z fontsize)
                               line fontsize font Black) (pdf st1))
                    (Some p) (y_position st1 + lineheight)))
      as [st' [Hrun Ht]].
    exists st'. split; [exact Hrun|]. rewrite Ht.
    cbn [pdf draw drawn]. unfold texts. rewrite map_app, Hd.
    cbn [map snd text_of]. now rewrite <- app_assoc.
Qed.

(** X17: wrapping a text only turns spaces into line breaks.  [flush_text]
    never fails; the lines it draws, joined by single spaces, are the
    words of the text joined by single spaces, so that no word is lost,
    split, repeated or moved; and every line either fits the text width
    by the width estimate or is one single word. *)
Theorem wrap_keeps_every_word font lineheight text fontsize st :
  exists st' lines,
    flush_text font lineheight text fontsize st = (Ok tt, st') /\
    texts (drawn (pdf st')) = texts (drawn (pdf st)) ++ lines /\
    join_words lines = join_words (split_ws text) /\
    Forall (fun line => est_w fontsize line <= text_width \/
                        In line (split_ws text)) lines.
Proof.
  set (lines := greedy_wrap (inject_Z fontsize) text_width (split_ws text) []).
  destruct (put_lines_spec font lineheight fontsize lines st)
    as [st' [Hrun Ht]].
  exists st', lines. split; [|split; [exact Ht|split]].
  - unfold flush_text. destruct (truthy text) eqn:Htr.
    + now rewrite WordFacts.flush_words_greedy.
    + subst lines. rewrite (WordFacts.split_ws_aux_nil_words _ Htr) in Hrun.
      cbn in Hrun. injection Hrun as <-. reflexivity.
  - subst lines. rewrite greedy_wrap_joins; [reflexivity|].
    apply split_ws_aux_nonempty.
  - subst lines.
    eapply Forall_impl;
      [|apply (@greedy_wrap_fits (inject_Z fontsize) (split_ws text) []);
        now left].
    intros line [Hfit|Hin]; [left|now right].
    now rewrite WordFacts.est_w_is_sum.
Qed.

(** ** Runs *)

Lemma walk_text_runs font target_part base_fontsize lineheight rs :
  Forall (fun r => drawings r = []) rs ->
  forall text st,
  walk_runs font target_part base_fontsize lineheight rs text st
  = (Ok (text ++ List.concat (map run_text rs)), st).
Proof.
  induction 1 as [|r rest Hr _ IH]; intros text st.
  - cbn. now rewrite app_nil_r.
  - cbn [walk_runs map List.concat]. rewrite Hr.
    unfold mbind at 1. unfold ret at 1. rewrite IH.
    destruct (run_text r) as [|c t]; cbn [truthy app].
    + reflexivity.
    + now rewrite <- app_assoc.
Qed.

(** X18: run boundaries leave no trace: a paragraph whose runs carry no
    drawing is laid out exactly as the same paragraph with the texts of
    its runs put together in one run. *)
Theorem runs_wrap_as_one_text font target_part style rs st :
  Forall (fun r => drawings r = []) rs ->
  layout_paragraph font target_part (mk_paragraph style rs) st
  = layout_paragraph font target_part
      (mk_paragraph style [mk_run [] (List.concat (map run_text rs))]) st.
Proof.
  intros Hrs. unfold layout_paragraph. cbn [runs style_name].
  assert (Hone : Forall (fun r => drawings r = [])
                   [mk_run [] (List.concat (map run_text rs))])
    by (constructor; [reflexivity|constructor]).
  unfold mbind at 1 3.
  rewrite (walk_text_runs font target_part _ _ Hrs [] st).
  rewrite (walk_text_runs font target_part _ _ Hone [] st).
  cbn [map run_text List.concat app]. now rewrite app_nil_r.
Qed.

Lemma runs_wrap_as_one_text_witness :
  layout_paragraph Helv Samples.one_image
    (mk_paragraph None [mk_run [] (lit "Hello "); mk_run [] (lit "world")])
    Samples.first_page_top
  = layout_paragraph Helv Samples.one_image
      (mk_paragraph None
         [mk_run [] (List.concat
                       (map run_text [mk_run [] (lit "Hello ");
                                      mk_run [] (lit "world")]))])
      Samples.first_page_top.
Proof.
  apply (@runs_wrap_as_one_text Helv Samples.one_image None
           [mk_run [] (lit "Hello "); mk_run [] (lit "world")]
           Samples.first_page_top).
  repeat constructor.
Defined.

(** ** Where an image lands *)



End LayoutFacts.

(* ================================================================== *)
(** * More on the rich-text converter                                  *)
(* ================================================================== *)

Module PlainTextFacts.
Import Py Pdf Rtf Shape Sheets OrderFacts.
Local Open Scope Q_scope.

(** X20: no rich-text file is converted: whatever the bytes, the
    escaped-backslash substitution of [strip_rtf] raises before any
    page is made, and the call returns nothing. *)
Theorem rtf_conversion_never_succeeds (input_bytes : bytes) :
  convert_rtf_to_pdf input_bytes
  = Raise (err re_error "bad escape (end of pattern) at position 0") /\
  (forall text, is_ok (strip_rtf text) = false) /\
  exists rtf_text, decode input_bytes = Ok rtf_text.
Proof.
  split; [apply RtfFacts.convert_rtf_always_raises|]. split.
  - intros text. now rewrite RtfFacts.strip_rtf_raises.
  - apply RtfFacts.decode_never_raises.
Qed.

(** ** The page loop *)

Lemma max_lines_per_page_is_42 : max_lines_per_page = 42%Z.
Proof. reflexivity. Qed.

Lemma lineheight_value : lineheight == 165 # 10.
Proof. reflexivity. Qed.

Lemma split_on_length (s : str) :
  List.length (split_on 10 s) = S (newlines s).
Proof.
  unfold newlines. induction s as [|c t IH]; [reflexivity|].
  cbn [split_on count_occ].
  destruct (N.eqb_spec c 10) as [->|Hne].
  - destruct (N.eq_dec 10 10) as [_|]; [|contradiction].
    cbn [List.length]. now rewrite IH.
  - destruct (N.eq_dec c 10) as [|_]; [contradiction|].
    destruct (split_on 10 t) as [|f fs]; cbn [List.length] in *; [lia|].
    exact IH.
Qed.

Ltac text_page :=
  unfold on_text_page;
  change (inject_Z margin) with (72 # 1) in *;
  change (inject_Z fontsize) with (11 # 1) in *;
  change (inject_Z (page_height - margin)) with (770 # 1) in *;
  change lineheight with (165 # 10) in *.

(** One more line from a cursor that satisfies the invariant. *)
Lemma layout_line_inv q c st line :
  line_inv q c st ->
  exists q' c',
    line_inv q' c' (layout_line st line) /\
    (42 * Z.of_nat q' + c' = 42 * Z.of_nat q + c + 1)%Z /\
    texts (drawn (doc (layout_line st line)))
    = texts (drawn (doc st)) ++ (if is_drawn line then [line] else []).
Proof.
  intros [Hp [Hpc [Hc [Hr [Hy [Hord [Hsz Hall]]]]]]].
  unfold layout_line. rewrite Hp, Hc, max_lines_per_page_is_42.
  destruct (Z.leb_spec 42 c) as [Hfull|Hroom].
  - assert (c = 42%Z) by lia. subst c.
    exists (S q), 1%Z. cbn [new_page].
    set (d1 := mk_doc (page_sizes (doc st) ++ [(page_width, page_height)])
                      (drawn (doc st))).
    assert (Hord1 : pages_in_order d1)
      by exact (pages_in_order_new_page page_width page_height Hord).
    assert (Hpc1 : page_count d1 = S (S q)).
    { unfold page_count, d1 in *. cbn. rewrite length_app. cbn. lia. }
    rewrite Hpc.
    split; [|split; [lia|]].
    + split; [reflexivity|].
      split; [destruct (truthy (strip line)); exact Hpc1|].
      split; [reflexivity|]. split; [lia|].
      split; [cbn [y_position]; text_page; ring|].
      split; [|split].
      * destruct (truthy (strip line)); [|exact Hord1].
        apply pages_in_order_draw; [exact Hord1|]. now rewrite Hpc1.
      * assert (Hsz1 : Forall (fun s => s = (page_width, page_height))
                         (page_sizes d1)).
        { cbn. apply Forall_app. split; [exact Hsz|]. repeat constructor. }
        destruct (truthy (strip line)); exact Hsz1.
      * destruct (truthy (strip line)); [|exact Hall].
        cbn [draw drawn]. apply Forall_app. split; [exact Hall|].
        constructor; [|constructor]. cbn [snd]. text_page. split; lra.
    + unfold is_drawn. destruct (truthy (strip line)); cbn [doc draw drawn].
      * unfold texts. rewrite map_app. reflexivity.
      * now rewrite app_nil_r.
  - exists q, (c + 1)%Z.
    split; [|split; [lia|]].
    + split; [reflexivity|].
      split; [destruct (truthy (strip line)); exact Hpc|].
      split; [reflexivity|]. split; [lia|].
      split.
      { cbn [y_position]. rewrite Hy, inject_Z_plus. ring. }
      split; [|split].
      * destruct (truthy (strip line)); [|exact Hord].
        apply pages_in_order_draw; [exact Hord|]. now rewrite Hpc.
      * destruct (truthy (strip line)); exact Hsz.
      * destruct (truthy (strip line)); [|exact Hall].
        cbn [draw drawn]. apply Forall_app. split; [exact Hall|].
        constructor; [|constructor]. cbn [snd on_text_page].
        assert (Hc1 : 1 <= inject_Z c).
        { change 1 with (inject_Z 1). rewrite <- Zle_Qle. lia. }
        assert (Hc41 : inject_Z c <= 41).
        { change 41 with (inject_Z 41). rewrite <- Zle_Qle. lia. }
        text_page. rewrite Hy. split; lra.
    + unfold is_drawn. destruct (truthy (strip line)); cbn [doc draw drawn].
      * unfold texts. rewrite map_app. reflexivity.
      * now rewrite app_nil_r.
Qed.

Lemma fold_layout_inv lines :
  forall q c st,
  line_inv q c st ->
  exists q' c',
    line_inv q' c' (fold_left layout_line lines st) /\
    (42 * Z.of_nat q' + c'
     = 42 * Z.of_nat q + c + Z.of_nat (List.length lines))%Z /\
    texts (drawn (doc (fold_left layout_line lines st)))
    = texts (drawn (doc st)) ++ filter is_drawn lines.
Proof.
  induction lines as [|line rest IH]; intros q c st H.
  - exists q, c. cbn. split; [exact H|]. split; [lia|].
    now rewrite app_nil_r.
  - destruct (layout_line_inv line H) as [q1 [c1 [H1 [Hn1 Ht1]]]].
    destruct (IH q1 c1 _ H1) as [q2 [c2 [H2 [Hn2 Ht2]]]].
    exists q2, c2. cbn [fold_left]. split; [exact H2|]. split.
    + cbn [List.length]. lia.
    + rewrite Ht2, Ht1. cbn [filter].
      destruct (is_drawn line); cbn [app]; now rewrite <- app_assoc.
Qed.

(** The first line opens the first page. *)
Lemma first_line_inv line :
  line_inv 0 1 (layout_line (mk_cursor (open Q) None 0%Z 0) line) /\
  texts (drawn (doc (layout_line (mk_cursor (open Q) None 0%Z 0) line)))
  = if is_drawn line then [line] else [].
Proof.
  unfold layout_line, is_drawn. cbn [page new_page open page_sizes drawn app].
  change (page_count (@mk_doc Q [] [])) with 0%nat.
  set (d1 := @mk_doc Q [(page_width, page_height)] []).
  assert (Hord1 : pages_in_order d1).
  { exact (pages_in_order_new_page page_width page_height
             (pages_in_order_open Q)). }
  split.
  - split; [reflexivity|].
    split; [destruct (truthy (strip line)); reflexivity|].
    split; [reflexivity|]. split; [lia|].
    split; [cbn [y_position]; text_page; ring|].
    split; [|split].
    + destruct (truthy (strip line)); [|exact Hord1].
      apply pages_in_order_draw; [exact Hord1|reflexivity].
    + destruct (truthy (strip line)); repeat constructor.
    + destruct (truthy (strip line)); [|constructor].
      constructor; [|constructor]. cbn [snd]. text_page. split; lra.
  - destruct (truthy (strip line)); reflexivity.
Qed.

Lemma layout_spec (plain_text : str) :
  exists q c st,
    line_inv q c st /\
    layout plain_text = doc st /\
    (42 * Z.of_nat q + c = 1 + Z.of_nat (newlines plain_text))%Z /\
    texts (drawn (doc st)) = filter is_drawn (split_on 10 plain_text).
Proof.
  unfold layout. pose proof (split_on_length plain_text) as Hlen.
  destruct (split_on 10 plain_text) as [|line rest]; [discriminate|].
  cbn [fold_left].
  destruct (first_line_inv line) as [H0 Ht0].
  destruct (fold_layout_inv rest H0) as [q [c [H [Hn Ht]]]].
  exists q, c, (fold_left layout_line rest
                  (layout_line (mk_cursor (open Q) None 0%Z 0) line)).
  split; [exact H|]. split.
  - destruct H as [_ [Hpc _]]. cbv zeta. rewrite Hpc. reflexivity.
  - split.
    + cbn [List.length] in Hlen. lia.
    + rewrite Ht, Ht0. cbn [filter]. now destruct (is_drawn line).
Qed.

(** X21: the plain text is laid out 42 lines to a page, blank lines counted:
    a text with [n] newlines takes [1 + n / 42] pages, all of them A4
    portrait.  There is always a first page, so the blank-page fallback
    after the loop is never taken. *)
Theorem plain_text_page_count (plain_text : str) :
  page_count (layout plain_text) = (1 + newlines plain_text / 42)%nat /\
  Forall (fun s => s = (page_width, page_height))
         (page_sizes (layout plain_text)) /\
  layout plain_text
  = doc (fold_left layout_line (split_on 10 plain_text)
           (mk_cursor (open Q) None 0%Z 0)).
Proof.
  destruct (layout_spec plain_text) as [q [c [st [H [Hl [Hn _]]]]]].
  pose proof H as [_ [Hpc [_ [Hr [_ [_ [Hsz _]]]]]]].
  split; [|split].
  - rewrite Hl, Hpc. cbn [Nat.add]. f_equal.
    apply (Nat.div_unique (newlines plain_text) 42 q (Z.to_nat (c - 1))); lia.
  - rewrite Hl. exact Hsz.
  - unfold layout.
    assert (Hpos : page_count
              (doc (fold_left layout_line (split_on 10 plain_text)
                      (mk_cursor (open Q) None 0%Z 0))) <> 0%nat).
    { unfold layout in Hl. cbv zeta in Hl.
      destruct (Nat.eqb_spec
                  (page_count
                     (doc (fold_left layout_line (split_on 10 plain_text)
                             (mk_cursor (open Q) None 0%Z 0)))) 0)
        as [Hz|Hnz]; [|exact Hnz].
      exfalso.
      pose proof (split_on_length plain_text) as Hlen.
      destruct (split_on 10 plain_text) as [|line rest]; [discriminate|].
      cbn [fold_left] in Hz.
      destruct (first_line_inv line) as [H0 _].
      destruct (fold_layout_inv rest H0) as [q2 [c2 [[_ [Hpc2 _]] _]]].
      rewrite Hpc2 in Hz. discriminate. }
    cbv zeta. apply Nat.eqb_neq in Hpos. now rewrite Hpos.
Qed.

(** X22: the plain-text layout draws exactly the lines that are not blank,
    each once and in order, in page order, every base line between the
    top and the bottom margin. *)
Theorem plain_text_lines_are_drawn (plain_text : str) :
  texts (drawn (layout plain_text))
  = filter is_drawn (split_on 10 plain_text) /\
  pages_in_order (layout plain_text) /\
  Forall (fun pc => on_text_page (snd pc)) (drawn (layout plain_text)).
Proof.
  destruct (layout_spec plain_text) as [q [c [st [H [Hl [_ Ht]]]]]].
  rewrite Hl. split; [exact Ht|]. split; apply H.
Qed.

End PlainTextFacts.

(* ================================================================== *)
(** * Properties of the book converter                                 *)
(* ================================================================== *)

Module BookFacts.
Import Py Pdf Epub Shape Sheets MoreSamples.
Local Open Scope Q_scope.

(** ** Where a rendered page is drawn *)

Lemma min2_cases (a b : Q) :
  (min2 a b = a /\ a <= b) \/ (min2 a b = b /\ b <= a).
Proof.
  unfold min2. destruct (Qle_bool a b) eqn:E.
  - left. split; [reflexivity|]. now apply Qle_bool_iff.
  - right. split; [reflexivity|].
    apply Qlt_le_weak. apply Qnot_le_lt. intros H.
    apply Qle_bool_iff in H. congruence.
Qed.

Lemma fit_range (target pix : Z) :
  (0 < target)%Z -> (0 < pix)%Z -> 0 < fit target pix /\ fit target pix <= 1.
Proof.
  intros Ht Hp. unfold fit.
  assert (Hp' : 0 < inject_Z pix).
  { change 0 with (inject_Z 0). now rewrite <- Zlt_Qlt. }
  assert (Ht' : 0 < inject_Z target).
  { change 0 with (inject_Z 0). now rewrite <- Zlt_Qlt. }
  destruct (Z.ltb_spec target pix) as [Hlt|Hge].
  - split.
    + apply Qlt_shift_div_l; [exact Hp'|]. now rewrite Qmult_0_l.
    + apply Qle_shift_div_r; [exact Hp'|]. rewrite Qmult_1_l.
      rewrite <- Zle_Qle. lia.
  - split; [reflexivity|apply Qle_refl].
Qed.

Lemma scale_to_fit_is_fit (target pix : Z) :
  (0 < pix)%Z -> scale_to_fit_1 target pix = Ok (fit target pix).
Proof.
  intros Hp. unfold scale_to_fit_1, fit.
  destruct (target <? pix)%Z; [|reflexivity].
  destruct (Z.eqb_spec pix 0); [lia|reflexivity].
Qed.

(** X23: a rendered page of positive pixel size is drawn, on a page larger
    than its margins, scaled by the smaller of the two factors that
    bring its width and its height into the area between the margins:
    never enlarged, with the ratio of its sides kept and (in exact
    arithmetic) centred on the page in both directions. *)
Theorem page_image_is_centred (page_width page_height pix_width pix_height : Z) :
  (2 * margin < page_width)%Z -> (2 * margin < page_height)%Z ->
  (0 < pix_width)%Z -> (0 < pix_height)%Z ->
  let s := min2 (fit (page_width - 2 * margin) pix_width)
                (fit (page_height - 2 * margin) pix_height) in
  exists x0 y0 x1 y1,
    insert_rect page_width page_height pix_width pix_height
    = Ok (x0, y0, x1, y1) /\
    (0 < s /\ s <= 1) /\
    x1 - x0 == inject_Z pix_width * s /\
    y1 - y0 == inject_Z pix_height * s /\
    (x1 - x0) / (y1 - y0) == inject_Z pix_width / inject_Z pix_height /\
    x0 + x1 == inject_Z page_width /\
    y0 + y1 == inject_Z page_height /\
    x0 < x1 /\ y0 < y1.
Proof.
  intros Hpw Hph Hw Hh. cbv zeta.
  destruct (@fit_range (page_width - 2 * margin) pix_width
              ltac:(lia) Hw) as [Hfw0 Hfw1].
  destruct (@fit_range (page_height - 2 * margin) pix_height
              ltac:(lia) Hh) as [Hfh0 Hfh1].
  set (s := min2 _ _).
  assert (Hs : 0 < s /\ s <= 1).
  { subst s. destruct (min2_cases (fit (page_width - 2 * margin) pix_width)
                         (fit (page_height - 2 * margin) pix_height))
      as [[-> _]|[-> _]]; split; assumption. }
  assert (Hw' : 0 < inject_Z pix_width).
  { change 0 with (inject_Z 0). now rewrite <- Zlt_Qlt. }
  assert (Hh' : 0 < inject_Z pix_height).
  { change 0 with (inject_Z 0). now rewrite <- Zlt_Qlt. }
  assert (Hdw : 0 < inject_Z pix_width * s)
    by (apply Qmult_lt_0_compat; tauto).
  assert (Hdh : 0 < inject_Z pix_height * s)
    by (apply Qmult_lt_0_compat; tauto).
  exists ((inject_Z page_width - inject_Z pix_width * s) / 2),
         ((inject_Z page_height - inject_Z pix_height * s) / 2),
         ((inject_Z page_width - inject_Z pix_width * s) / 2
          + inject_Z pix_width * s),
         ((inject_Z page_height - inject_Z pix_height * s) / 2
          + inject_Z pix_height * s).
  split.
  { unfold insert_rect. rewrite !scale_to_fit_is_fit by assumption.
    reflexivity. }
  split; [exact Hs|].
  assert (Ex : (inject_Z page_width - inject_Z pix_width * s) / 2
               + inject_Z pix_width * s
               - (inject_Z page_width - inject_Z pix_width * s) / 2
               == inject_Z pix_width * s) by ring.
  assert (Ey : (inject_Z page_height - inject_Z pix_height * s) / 2
               + inject_Z pix_height * s
               - (inject_Z page_height - inject_Z pix_height * s) / 2
               == inject_Z pix_height * s) by ring.
  split; [exact Ex|]. split; [exact Ey|].
  split.
  { rewrite Ex, Ey. field. split; lra. }
  split; [field|]. split; [field|].
  split; lra.
Qed.

Lemma page_image_is_centred_witness :
  let s := min2 (fit (595 - 2 * margin) 893) (fit (842 - 2 * margin) 1263) in
  exists x0 y0 x1 y1,
    insert_rect 595 842 893 1263 = Ok (x0, y0, x1, y1) /\
    (0 < s /\ s <= 1) /\
    x1 - x0 == inject_Z 893 * s /\
    y1 - y0 == inject_Z 1263 * s /\
    (x1 - x0) / (y1 - y0) == inject_Z 893 / inject_Z 1263 /\
    x0 + x1 == inject_Z 595 /\
    y0 + y1 == inject_Z 842 /\
    x0 < x1 /\ y0 < y1.
Proof.
  apply (@page_image_is_centred 595 842 893 1263); reflexivity.
Defined.

(** ** The pages of a book *)

Lemma convert_page_spec c page_width page_height d p d' :
  convert_page c page_width page_height d p = Ok d' ->
  if has_area p
  then page_sizes d' = page_sizes d ++ [(page_width, page_height)] /\
       exists x0 y0 x1 y1 img_bytes,
         drawn d' = drawn d ++ [(page_count d, Image x0 y0 x1 y1 img_bytes)]
  else d' = d.
Proof.
  unfold convert_page, has_area.
  destruct (Qle_bool (rect_width p) 0 || Qle_bool (rect_height p) 0);
    cbn [negb]; [now intros [= <-]|].
  cbn [new_page].
  destruct (insert_rect _ _ _ _) as [[[[x0 y0] x1] y1]|e]; [|discriminate].
  cbn [bind]. unfold insert_image.
  set (img := if use_jpeg c then _ else _).
  destruct img as [|b bs]; [discriminate|].
  destruct (Qle_bool x1 x0 || Qle_bool y1 y0); [discriminate|].
  intros [= <-]. cbn [draw page_sizes drawn]. split; [reflexivity|].
  now exists x0, y0, x1, y1, (b :: bs).
Qed.

Lemma convert_pages_spec c page_width page_height pages :
  forall d d',
  convert_pages c page_width page_height pages d = Ok d' ->
  page_sizes d'
  = page_sizes d
    ++ repeat (page_width, page_height) (List.length (filter has_area pages)) /\
  map fst (drawn d')
  = map fst (drawn d)
    ++ seq (page_count d) (List.length (filter has_area pages)) /\
  (Forall (fun pc => is_image_call (snd pc) = true) (drawn d) ->
   Forall (fun pc => is_image_call (snd pc) = true) (drawn d')).
Proof.
  induction pages as [|p rest IH]; intros d d'.
  - cbn. intros [= <-]. rewrite !app_nil_r. now repeat split.
  - cbn [convert_pages filter].
    destruct (convert_page c page_width page_height d p) as [d1|e] eqn:Hp;
      [|discriminate].
    cbn [bind]. intros Hrest.
    apply convert_page_spec in Hp.
    destruct (IH d1 d' Hrest) as [Hs [Hd Hi]].
    destruct (has_area p).
    + destruct Hp as [Hs1 [x0 [y0 [x1 [y1 [img Hd1]]]]]].
      assert (Hpc : page_count d1 = S (page_count d)).
      { unfold page_count. rewrite Hs1, length_app. cbn. lia. }
      cbn [List.length repeat seq].
      rewrite Hs, Hs1, Hd, Hd1, Hpc, map_app.
      cbn [map fst]. rewrite <- !app_assoc. cbn [app].
      split; [reflexivity|]. split; [reflexivity|].
      intros Hall. apply Hi. rewrite Hd1. apply Forall_app.
      split; [exact Hall|]. now repeat constructor.
    + subst d1. now repeat split.
Qed.

(** X24: a converted book has one page for each of its pages that has an
    area, in order and of the size asked for, and on each of them
    exactly one draw call, the image of that page; pages without area
    leave no trace.  A book is converted only if it has such a page:
    there is no blank-page fallback. *)
Theorem book_pages_one_to_one open_epub input_bytes quality
  page_width page_height pages pdf :
  open_epub input_bytes = Ok pages ->
  convert_epub_to_pdf open_epub input_bytes quality page_width page_height
  = Ok pdf ->
  let n := List.length (filter has_area pages) in
  (1 <= n)%nat /\
  page_sizes pdf = repeat (page_width, page_height) n /\
  map fst (drawn pdf) = seq 0 n /\
  Forall (fun pc => is_image_call (snd pc) = true) (drawn pdf).
Proof.
  intros Hopen. unfold convert_epub_to_pdf. rewrite Hopen. cbn [bind].
  destruct (convert_pages _ _ _ pages (open Q)) as [d|e] eqn:Hrun;
    [|discriminate].
  cbn [bind]. unfold doc_tobytes.
  destruct (convert_pages_spec _ _ _ _ _ Hrun) as [Hs [Hd Hi]].
  cbn [open page_sizes drawn map app] in Hs, Hd.
  change (page_count (mk_doc [] [])) with 0%nat in Hd.
  destruct (Nat.eqb_spec (page_count d) 0) as [|Hpos]; [discriminate|].
  intros [= <-]. cbv zeta.
  unfold page_count in Hpos. rewrite Hs, repeat_length in Hpos.
  split; [lia|]. split; [exact Hs|]. split; [exact Hd|].
  apply Hi. constructor.
Qed.

Lemma book_pages_one_to_one_witness :
  let n := List.length (filter has_area small_book) in
  (1 <= n)%nat /\
  page_sizes converted_book = repeat (595%Z, 842%Z) n /\
  map fst (drawn converted_book) = seq 0 n /\
  Forall (fun pc => is_image_call (snd pc) = true) (drawn converted_book).
Proof.
  apply (@book_pages_one_to_one open_small_book [] (lit "high") 595 842
           small_book converted_book);
    reflexivity.
Defined.

End BookFacts.
